(** * Testing Portal: the service layer over its JSON data files

    A shallow embedding of the portal's services
    ([services/allocation_service.py], [services/uat_service.py],
    [services/quality_service.py], [services/user_service.py],
    [services/audit_service.py]) and the properties the specification
    states about them.

    Modelling conventions.
    - A JSON object is a finite map from keys to scalar values
      ([gmap string Value]); a JSON array of objects is a list of them.
    - Python strings are modelled by byte strings; [strip], [upper],
      [lower] and [title] act on the ASCII range.
    - The data directory is one record, [World], with a field per data
      file holding the parsed contents of that file, and a flag telling
      whether writing a file succeeds.  A [_save_*] function that fails
      returns [false] and leaves the file as it was.  The bootstrap of a
      missing file and the fallback for an unreadable one are not
      modelled: every file is present and holds well-formed JSON.
    - The clock ([datetime.now()]) is an explicit argument. *)

From Stdlib Require Import ZArith QArith.QArith_base Lia Ascii Sorted.
From stdpp Require Import base option list strings gmap fin_maps.

Local Open Scope Z_scope.
Local Open Scope string_scope.
Local Open Scope list_scope.

(** ** Python values *)

Module Py.

(** The scalars that occur in the portal's records and requests.  A
    finite float is denoted by the rational it is equal to. *)
Inductive Value : Type :=
  | VNone
  | VBool (b : bool)
  | VInt (z : Z)
  | VFloat (q : Q)
  | VStr (s : string).

Abbreviation Dict := (gmap string Value).

(** [bool(v)] *)
Definition truthy (v : Value) : bool :=
  match v with
  | VNone => false
  | VBool b => b
  | VInt z => negb (Z.eqb z 0)
  | VFloat q => negb (Qeq_bool q 0)
  | VStr s => negb (String.eqb s EmptyString)
  end.

(** The number a numeric value stands for ([bool] is a subclass of [int]). *)
Definition as_Q (v : Value) : option Q :=
  match v with
  | VBool b => Some (inject_Z (if b then 1 else 0))
  | VInt z => Some (inject_Z z)
  | VFloat q => Some q
  | _ => None
  end.

(** [v == w] *)
Definition py_eq (v w : Value) : bool :=
  match v, w with
  | VNone, VNone => true
  | VStr s, VStr t => String.eqb s t
  | _, _ =>
      match as_Q v, as_Q w with
      | Some p, Some q => Qeq_bool p q
      | _, _ => false
      end
  end.

(** [d.get(k)] and [d.get(k, default)] *)
Definition get (d : Dict) (k : string) : Value := default VNone (d !! k).
Definition get_or (d : Dict) (k : string) (dflt : Value) : Value :=
  default dflt (d !! k).

(** [d.update(e)]: the keys of [e] win. *)
Definition update (d e : Dict) : Dict := e ∪ d.

(** A value used as an exact integer; [None] outside the integers. *)
Definition as_int (v : Value) : option Z :=
  match v with
  | VBool b => Some (if b then 1 else 0)
  | VInt z => Some z
  | _ => None
  end.

(** *** Strings *)

Definition is_space (a : ascii) : bool :=
  let n := nat_of_ascii a in
  Nat.leb 9 n && Nat.leb n 13 || Nat.leb 28 n && Nat.leb n 32.

Definition is_upper (a : ascii) : bool :=
  let n := nat_of_ascii a in Nat.leb 65 n && Nat.leb n 90.

Definition is_lower (a : ascii) : bool :=
  let n := nat_of_ascii a in Nat.leb 97 n && Nat.leb n 122.

Definition upper_ascii (a : ascii) : ascii :=
  if is_lower a then ascii_of_nat (nat_of_ascii a - 32) else a.

Definition lower_ascii (a : ascii) : ascii :=
  if is_upper a then ascii_of_nat (nat_of_ascii a + 32) else a.

Fixpoint smap (f : ascii -> ascii) (s : string) : string :=
  match s with
  | EmptyString => EmptyString
  | String a r => String (f a) (smap f r)
  end.

(** [s.upper()], [s.lower()] *)
Definition upper (s : string) : string := smap upper_ascii s.
Definition lower (s : string) : string := smap lower_ascii s.

(** [s.lstrip()] *)
Fixpoint lstrip (s : string) : string :=
  match s with
  | EmptyString => EmptyString
  | String a r => if is_space a then lstrip r else s
  end.

(** [s.rstrip()] *)
Fixpoint rstrip (s : string) : string :=
  match s with
  | EmptyString => EmptyString
  | String a r =>
      match rstrip r with
      | EmptyString => if is_space a then EmptyString else String a EmptyString
      | r' => String a r'
      end
  end.

(** [s.strip()] *)
Definition strip (s : string) : string := rstrip (lstrip s).

Fixpoint is_prefix (p s : string) : bool :=
  match p, s with
  | EmptyString, _ => true
  | String a p', String b s' => Ascii.eqb a b && is_prefix p' s'
  | String _ _, EmptyString => false
  end.

(** [sub in s] *)
Fixpoint contains (sub s : string) : bool :=
  is_prefix sub s ||
  match s with
  | EmptyString => false
  | String _ r => contains sub r
  end.

(** [s.replace(a, b)] for single characters *)
Definition replace_char (a b : ascii) (s : string) : string :=
  smap (fun c => if Ascii.eqb c a then b else c) s.

(** [s.title()]: a letter is capitalised when it follows a non-letter. *)
Fixpoint title_from (after_letter : bool) (s : string) : string :=
  match s with
  | EmptyString => EmptyString
  | String a r =>
      let letter := is_upper a || is_lower a in
      String (if after_letter then lower_ascii a else upper_ascii a)
             (title_from letter r)
  end.
Definition title (s : string) : string := title_from false s.

(** [str(n)] for an integer *)
Fixpoint digits (fuel : nat) (n : N) (acc : string) : string :=
  match fuel with
  | O => acc
  | S fuel' =>
      let acc' := String (ascii_of_N (48 + N.modulo n 10)%N) acc in
      if N.ltb n 10 then acc' else digits fuel' (N.div n 10) acc'
  end.

Definition str_of_N (n : N) : string :=
  digits (S (N.to_nat (N.log2 n))) n EmptyString.

Definition str_of_Z (z : Z) : string :=
  match z with
  | Z0 => "0"
  | Zpos p => str_of_N (Npos p)
  | Zneg p => String "-" (str_of_N (Npos p))
  end.

(** *** Exceptions

    A computation either returns or raises; [Raise] carries [str(e)]. *)
Inductive res (A : Type) : Type :=
  | Ret (a : A)
  | Raise (msg : string).
Arguments Ret {A} a.
Arguments Raise {A} msg.

#[export] Instance res_bind : MBind res := fun A B k m =>
  match m with
  | Ret a => k a
  | Raise e => Raise e
  end.

(** [type(v).__name__] *)
Definition type_name (v : Value) : string :=
  match v with
  | VNone => "NoneType"
  | VBool _ => "bool"
  | VInt _ => "int"
  | VFloat _ => "float"
  | VStr _ => "str"
  end.

(** [v.strip()] on an arbitrary value: only strings have the method. *)
Definition strip_value (v : Value) : res Value :=
  match v with
  | VStr s => Ret (VStr (strip s))
  | _ => Raise ("'" +:+ type_name v +:+ "' object has no attribute 'strip'")
  end.

(** [d[k]] *)
Definition item (d : Dict) (k : string) : res Value :=
  match d !! k with
  | Some v => Ret v
  | None => Raise ("'" +:+ k +:+ "'")
  end.

(** [v in w] between values: a membership test in a string needs two
    strings, anything else is a [TypeError]. *)
Definition in_value (v w : Value) : option bool :=
  match v, w with
  | VStr sub, VStr s => Some (contains sub s)
  | _, _ => None
  end.

(** [x or y] *)
Definition py_or (x y : Value) : Value := if truthy x then x else y.

(** *** Numbers *)

Definition is_digit (a : ascii) : bool :=
  let n := nat_of_ascii a in Nat.leb 48 n && Nat.leb n 57.

(** The digits of an integer literal; single underscores may separate
    digits. *)
Fixpoint parse_digits (s : string) (acc : N) (after_digit : bool) : option N :=
  match s with
  | EmptyString => if after_digit then Some acc else None
  | String a r =>
      if is_digit a
      then parse_digits r (10 * acc + (N_of_ascii a - 48))%N true
      else if Ascii.eqb a "_" && after_digit
      then parse_digits r acc false
      else None
  end.

(** [int(s)] for a string, base 10. *)
Definition int_of_string (s : string) : option Z :=
  match strip s with
  | String "+" r => Z.of_N <$> parse_digits r 0%N false
  | String "-" r => (fun n => Z.opp (Z.of_N n)) <$> parse_digits r 0%N false
  | r => Z.of_N <$> parse_digits r 0%N false
  end.

(** [int(v)]; the text of a [ValueError] shows the string between
    single quotes, as [repr] does for a string free of quotes and
    escapes. *)
Definition py_int (v : Value) : res Z :=
  match v with
  | VInt z => Ret z
  | VBool b => Ret (if b then 1 else 0)
  | VFloat q => Ret (Z.quot (Qnum q) (Zpos (Qden q)))
  | VStr s =>
      match int_of_string s with
      | Some z => Ret z
      | None => Raise ("invalid literal for int() with base 10: '" +:+ s +:+ "'")
      end
  | _ => Raise ("int() argument must be a string, a bytes-like object or a real number, not '"
                +:+ type_name v +:+ "'")
  end.

(** [s.zfill(width)] *)
Fixpoint zeros (n : nat) : string :=
  match n with
  | O => EmptyString
  | S n' => String "0" (zeros n')
  end.

Definition zfill (width : nat) (s : string) : string :=
  let pad := zeros (width - String.length s) in
  match s with
  | String "+" r => String "+" (pad +:+ r)
  | String "-" r => String "-" (pad +:+ r)
  | _ => pad +:+ s
  end.

(** Lexicographic order on strings, [s > t]. *)
Fixpoint string_gtb (s t : string) : bool :=
  match s, t with
  | EmptyString, _ => false
  | String _ _, EmptyString => true
  | String a s', String b t' =>
      if Ascii.eqb a b then string_gtb s' t'
      else Nat.ltb (nat_of_ascii b) (nat_of_ascii a)
  end.

(** [v > w] *)
Definition py_gt (v w : Value) : res bool :=
  match v, w with
  | VStr s, VStr t => Ret (string_gtb s t)
  | _, _ =>
      match as_Q v, as_Q w with
      | Some p, Some q => Ret (negb (Qle_bool p q))
      | _, _ => Raise ("'>' not supported between instances of '"
                       +:+ type_name v +:+ "' and '" +:+ type_name w +:+ "'")
      end
  end.

(** [max(l)] for a non-empty list [first :: rest]: the first maximal
    element. *)
Fixpoint py_max (max_item : Value) (rest : list Value) : res Value :=
  match rest with
  | [] => Ret max_item
  | item :: rest' =>
      b ← py_gt item max_item;
      py_max (if b : bool then item else max_item) rest'
  end.

(** What the model needs of the float unit: [x + 1] and [str(x)] on
    floats, and [round((failures / requirements) * 100, 2)] on integers. *)
Record FloatUnit : Type := mkFloatUnit {
  float_add1 : Q -> Q;
  float_pct : Z -> Z -> Q;
  float_str : Q -> string
}.

(** [str(v)] *)
Definition py_str (fl : FloatUnit) (v : Value) : string :=
  match v with
  | VNone => "None"
  | VBool b => if b then "True" else "False"
  | VInt z => str_of_Z z
  | VFloat q => float_str fl q
  | VStr s => s
  end.

Definition dquote : string := String (ascii_of_nat 34) EmptyString.

(** [v + 1] *)
Definition py_add1 (fl : FloatUnit) (v : Value) : res Value :=
  match v with
  | VInt z => Ret (VInt (z + 1))
  | VBool b => Ret (VInt ((if b then 1 else 0) + 1))
  | VFloat q => Ret (VFloat (float_add1 fl q))
  | VStr _ => Raise ("can only concatenate str (not " +:+ dquote +:+ "int"
                     +:+ dquote +:+ ") to str")
  | _ => Raise ("unsupported operand type(s) for +: '" +:+ type_name v
                +:+ "' and 'int'")
  end.

End Py.
Import Py.

(** ** The data directory *)

(** A value of the users file: the portal expects an object per user
    but checks for it ([isinstance(user, dict)]). *)
Inductive UserEntry : Type :=
  | UDict (d : Dict)
  | UOther (v : Value).

Record World : Type := mkWorld {
  allocations_json : list Dict;
  uat_records_json : list Dict;
  quality_records_json : list Dict;
  users_json : gmap string UserEntry;
  pending_users_json : list Dict;
  trail_documents_json : list Dict;
  (** whether [open(path, 'w')] followed by [json.dump] succeeds *)
  writable : bool
}.

Definition write_allocations (l : list Dict) (w : World) : World :=
  mkWorld l (uat_records_json w) (quality_records_json w) (users_json w)
          (pending_users_json w) (trail_documents_json w) (writable w).

Definition write_uat_records (l : list Dict) (w : World) : World :=
  mkWorld (allocations_json w) l (quality_records_json w) (users_json w)
          (pending_users_json w) (trail_documents_json w) (writable w).

Definition write_quality_records (l : list Dict) (w : World) : World :=
  mkWorld (allocations_json w) (uat_records_json w) l (users_json w)
          (pending_users_json w) (trail_documents_json w) (writable w).

Definition write_users (u : gmap string UserEntry) (w : World) : World :=
  mkWorld (allocations_json w) (uat_records_json w) (quality_records_json w) u
          (pending_users_json w) (trail_documents_json w) (writable w).

Definition write_pending_users (l : list Dict) (w : World) : World :=
  mkWorld (allocations_json w) (uat_records_json w) (quality_records_json w)
          (users_json w) l (trail_documents_json w) (writable w).

(** The readings of [datetime.now()] a service call makes, in the
    formats it prints them in. *)
Record Clock : Type := mkClock {
  stamp_id : string;        (* the id, strftime of %Y%m%d%H%M%S *)
  stamp_created : string;   (* created_at, strftime of %Y-%m-%d %H:%M:%S *)
  stamp_updated : string    (* updated_at, same format *)
}.

(** The outcome of a service call: the returned (success, message) pair
    and the data directory it leaves. *)
Abbreviation Outcome := ((bool * string) * World)%type.

(** ** services/allocation_service.py *)

Definition is_uat (item : Dict) : bool :=
  py_eq (get item "record_type") (VStr "uat").

Definition _load_all_data (w : World) : list Dict := allocations_json w.

Definition _load_allocations (w : World) : list Dict :=
  List.filter (fun item => negb (is_uat item)) (_load_all_data w).

Definition _save_all_data (data : list Dict) (w : World) : bool * World :=
  if writable w then (true, write_allocations data w) else (false, w).

Definition _save_allocations (allocations : list Dict) (w : World)
  : bool * World :=
  let all_data := _load_all_data w in
  let uat_records := List.filter is_uat all_data in
  let combined_data := uat_records ++ allocations in
  _save_all_data combined_data w.

Definition get_all_allocations (w : World) : list Dict := _load_allocations w.

Definition create_allocation_record (allocation_data : Dict)
    (username : string) (now : Clock) (w : World) : Outcome :=
  let allocation_data :=
    <["record_type" := VStr "allocation"]>
      (<["created_at" := VStr (stamp_created now)]>
        (<["created_by" := VStr username]>
          (<["id" := VStr (stamp_id now)]> allocation_data))) in
  let allocations := _load_allocations w ++ [allocation_data] in
  match _save_allocations allocations w with
  | (true, w') => ((true, "Allocation created successfully"), w')
  | (false, w') => ((false, "Failed to save allocation"), w')
  end.

(** The [for i, x in enumerate(l): if p(x): l[i] = f(x); break] loop:
    [None] when no element satisfies [p]. *)
Fixpoint update_first {A} (p : A -> bool) (f : A -> A) (l : list A)
  : option (list A) :=
  match l with
  | [] => None
  | x :: r =>
      if p x then Some (f x :: r)
      else match update_first p f r with
           | Some r' => Some (x :: r')
           | None => None
           end
  end.

Definition has_id (id : string) (d : Dict) : bool :=
  py_eq (get d "id") (VStr id).

Definition update_allocation_record (allocation_id : string)
    (updated_data : Dict) (username : string) (now : Clock) (w : World)
  : Outcome :=
  let allocations := _load_allocations w in
  match update_first (has_id allocation_id)
          (fun a => <["updated_at" := VStr (stamp_updated now)]>
                      (<["updated_by" := VStr username]>
                        (update a updated_data)))
          allocations with
  | None => ((false, "Allocation not found"), w)
  | Some allocations =>
      match _save_allocations allocations w with
      | (true, w') => ((true, "Allocation updated successfully"), w')
      | (false, w') => ((false, "Failed to save allocation"), w')
      end
  end.

Definition delete_allocation_record (allocation_id : string) (w : World)
  : Outcome :=
  let allocations := _load_allocations w in
  let original_count := length allocations in
  let allocations :=
    List.filter (fun a => negb (has_id allocation_id a)) allocations in
  if Nat.eqb (length allocations) original_count
  then ((false, "Allocation not found"), w)
  else match _save_allocations allocations w with
       | (true, w') => ((true, "Allocation deleted successfully"), w')
       | (false, w') => ((false, "Failed to delete allocation"), w')
       end.

(** A list comprehension whose condition may raise: [None] when the
    condition raises on some element. *)
Fixpoint filter_raising {A} (p : A -> option bool) (l : list A)
  : option (list A) :=
  match l with
  | [] => Some []
  | x :: r =>
      match p x with
      | None => None
      | Some b =>
          match filter_raising p r with
          | None => None
          | Some r' => Some (if b then x :: r' else r')
          end
      end
  end.

(** [a or b] where only the right operand may raise *)
Definition or_else (a : bool) (b : option bool) : option bool :=
  if a then Some true else b.

(** [filters.get(k) and filters[k] != 'All'] *)
Definition filter_given (filters : Dict) (k : string) : bool :=
  truthy (get filters k) && negb (py_eq (get filters k) (VStr "All")).

(** The value under [start_date] or [end_date] of a filter set: the
    route turns the string it receives into a [datetime.date] (here its
    ordinal) and leaves it as it is when it does not parse. *)
Inductive DateBound : Type :=
  | NoBound
  | Bound (ordinal : Z)
  | NotADate (v : Value).

Definition bound_given (b : DateBound) : bool :=
  match b with
  | NoBound => false
  | Bound _ => true
  | NotADate v => truthy v
  end.

(** The filter sets of [search_allocations]. *)
Record Filters : Type := mkFilters {
  fields : Dict;
  start_date : DateBound;
  end_date : DateBound
}.

(** A date filter, run under [try: ... except: pass]: when a stored
    date does not parse, or the bound is not a date, the list is left
    as it was.  [strptime v] is the ordinal of
    [datetime.strptime(v, '%Y-%m-%d').date()]. *)
Definition date_filter (strptime : Value -> option Z)
    (field : string) (dflt : string) (keep : Z -> Z -> bool)
    (bound : DateBound) (allocations : list Dict) : list Dict :=
  match filter_raising
          (fun a =>
             match strptime (get_or a field (VStr dflt)), bound with
             | Some d, Bound b => Some (keep d b)
             | _, _ => None
             end) allocations with
  | Some l => l
  | None => allocations
  end.

(** [search_allocations(filters)]; [None] when a filter raises. *)
Definition search_allocations (strptime : Value -> option Z)
    (filter_set : Filters) (w : World) : option (list Dict) :=
  let filters := fields filter_set in
  let allocations := _load_allocations w in
  let allocations :=
    if filter_given filters "system"
    then List.filter
           (fun a => py_eq (get a "system") (get filters "system"))
           allocations
    else allocations in
  allocations ←
    (if filter_given filters "category"
     then
       if py_eq (get filters "category") (VStr "Build")
       then Some (List.filter
              (fun a => py_eq (get a "trial_category_type") (VStr "Build")
                        || py_eq (get a "trial_category") (VStr "Build"))
              allocations)
       else if py_eq (get filters "category") (VStr "Change Request")
       then filter_raising
              (fun a =>
                 or_else
                   (py_eq (get a "trial_category_type") (VStr "Change Request"))
                   (in_value (VStr "Change Request")
                      (get_or a "trial_category" (VStr EmptyString))))
              allocations
       else Some allocations
     else Some allocations);
  allocations ←
    (if filter_given filters "therapeutic_area"
     then
       let area_filter := get filters "therapeutic_area" in
       if py_eq area_filter (VStr "Others")
       then filter_raising
              (fun a =>
                 or_else
                   (py_eq (get a "therapeutic_area_type") (VStr "Others"))
                   (in_value (VStr "Others -")
                      (get_or a "therapeutic_area" (VStr EmptyString))))
              allocations
       else filter_raising
              (fun a =>
                 or_else
                   (py_eq (get a "therapeutic_area_type") area_filter)
                   (in_value area_filter
                      (get_or a "therapeutic_area" (VStr EmptyString))))
              allocations
     else Some allocations);
  let allocations :=
    if filter_given filters "engineer"
    then List.filter
           (fun a => py_eq (get a "test_engineer_name") (get filters "engineer"))
           allocations
    else allocations in
  let allocations :=
    if filter_given filters "role"
    then List.filter (fun a => py_eq (get a "role") (get filters "role"))
           allocations
    else allocations in
  let allocations :=
    if filter_given filters "trial_id"
    then List.filter
           (fun a => py_eq (get a "trial_id") (get filters "trial_id"))
           allocations
    else allocations in
  let allocations :=
    if filter_given filters "created_by"
    then List.filter
           (fun a => py_eq (get a "created_by") (get filters "created_by"))
           allocations
    else allocations in
  let allocations :=
    if bound_given (start_date filter_set)
    then date_filter strptime "start_date" "2024-01-01" Z.geb
           (start_date filter_set) allocations
    else allocations in
  let allocations :=
    if bound_given (end_date filter_set)
    then date_filter strptime "end_date" "2024-12-31" Z.leb
           (end_date filter_set) allocations
    else allocations in
  Some allocations.

(** The trial-id filter of the dashboard routes
    ([blueprints/allocations.py], [dashboard] and [api_chart_data]):
    [filter_trial_id.lower() in a.get('trial_id', '').lower()]. *)
Definition trial_id_matches (filter_trial_id : string) (a : Dict) : option bool :=
  match get_or a "trial_id" (VStr EmptyString) with
  | VStr t => Some (contains (lower filter_trial_id) (lower t))
  | _ => None
  end.

(** ** services/uat_service.py *)

Definition _load_uat_records (w : World) : list Dict := uat_records_json w.

Definition _save_uat_records (records : list Dict) (w : World)
  : bool * World :=
  if writable w then (true, write_uat_records records w) else (false, w).

Definition required_fields : list string :=
  ["trial_id"; "uat_round"; "category"; "planned_start_date";
   "planned_end_date"; "status"; "result"].

(** The first required field that is missing or falsy. *)
Definition missing_required (uat_data : Dict) : option string :=
  List.find (fun field => negb (truthy (get uat_data field))) required_fields.

Definition date_reason_message : string :=
  "Reason for date difference is required when actual dates differ from planned dates".

Definition has_date_difference (uat_data : Dict) : bool :=
  let planned_start := get uat_data "planned_start_date" in
  let planned_end := get uat_data "planned_end_date" in
  let actual_start := get uat_data "actual_start_date" in
  let actual_end := get uat_data "actual_end_date" in
  (truthy actual_start && negb (py_eq actual_start planned_start))
  || (truthy actual_end && negb (py_eq actual_end planned_end)).

(** The fields both [create_uat_record] and [update_uat_record] compute
    from the request, in the order the dict display evaluates them. *)
Definition uat_fields (uat_data : Dict) : res (list (string * Value)) :=
  trial_id ← item uat_data "trial_id" ≫= strip_value;
  uat_round ← item uat_data "uat_round" ≫= strip_value;
  category ← item uat_data "category" ≫= strip_value;
  reason ←
    (if has_date_difference uat_data
     then strip_value (get_or uat_data "date_difference_reason" (VStr EmptyString))
     else Ret VNone);
  status ← item uat_data "status";
  result ← item uat_data "result";
  email_body ← strip_value (get_or uat_data "email_body" (VStr EmptyString));
  Ret [("trial_id", trial_id);
       ("uat_round", uat_round);
       ("category", category);
       ("category_type", get_or uat_data "category_type" (VStr "Build"));
       ("planned_start_date", get uat_data "planned_start_date");
       ("planned_end_date", get uat_data "planned_end_date");
       ("actual_start_date", py_or (get uat_data "actual_start_date") VNone);
       ("actual_end_date", py_or (get uat_data "actual_end_date") VNone);
       ("date_difference_reason", reason);
       ("status", status);
       ("result", result);
       ("email_body", email_body)].

Definition create_uat_record (uat_data : Dict) (username : string)
    (now : Clock) (w : World) : Outcome :=
  match missing_required uat_data with
  | Some field =>
      ((false, title (replace_char "_" " " field) +:+ " is required"), w)
  | None =>
      if has_date_difference uat_data
         && negb (truthy (get uat_data "date_difference_reason"))
      then ((false, date_reason_message), w)
      else
        let records := _load_uat_records w in
        match uat_fields uat_data with
        | Raise e => ((false, "Error creating UAT record: " +:+ e), w)
        | Ret fields =>
            let record : Dict :=
              list_to_map
                ([("id", VStr (stamp_id now))] ++ fields ++
                 [("created_by", VStr username);
                  ("created_at", VStr (stamp_created now));
                  ("updated_at", VStr (stamp_updated now));
                  ("record_type", VStr "uat")]) in
            match _save_uat_records (records ++ [record]) w with
            | (true, w') => ((true, "UAT record created successfully"), w')
            | (false, w') => ((false, "Failed to save UAT record"), w')
            end
        end
  end.

(** The update loop: the first record with the id is updated and the
    collection saved; the request is only read once a record matches. *)
Fixpoint update_uat_loop (record_id : string) (uat_data : Dict)
    (username : string) (now : Clock) (seen rest : list Dict) (w : World)
  : Outcome :=
  match rest with
  | [] => ((false, "UAT record not found"), w)
  | record :: rest' =>
      if has_id record_id record
      then
        match uat_fields uat_data with
        | Raise e => ((false, "Error updating UAT record: " +:+ e), w)
        | Ret fields =>
            let record' :=
              update record
                (list_to_map
                   (fields ++ [("updated_by", VStr username);
                               ("updated_at", VStr (stamp_updated now))])) in
            match _save_uat_records (seen ++ record' :: rest') w with
            | (true, w') => ((true, "UAT record updated successfully"), w')
            | (false, w') => ((false, "Failed to save changes"), w')
            end
        end
      else update_uat_loop record_id uat_data username now
             (seen ++ [record]) rest' w
  end.

Definition update_uat_record (record_id : string) (uat_data : Dict)
    (username : string) (now : Clock) (w : World) : Outcome :=
  let records := _load_uat_records w in
  if has_date_difference uat_data
     && negb (truthy (get uat_data "date_difference_reason"))
  then ((false, date_reason_message), w)
  else update_uat_loop record_id uat_data username now [] records w.

Definition delete_uat_record (record_id : string) (w : World) : Outcome :=
  let records := _load_uat_records w in
  let original_count := length records in
  let records := List.filter (fun r => negb (has_id record_id r)) records in
  if Nat.ltb (length records) original_count
  then match _save_uat_records records w with
       | (true, w') => ((true, "UAT record deleted successfully"), w')
       | (false, w') => ((false, "Failed to delete UAT record"), w')
       end
  else ((false, "UAT record not found"), w).

(** ** services/quality_service.py *)

Definition _load_records (w : World) : list Dict := quality_records_json w.

Definition _save_records (records : list Dict) (w : World) : bool * World :=
  if writable w then (true, write_quality_records records w) else (false, w).

(** The numbers of the ids that start with [QM], read in order.
    [IdsRaise] is an exception [generate_record_id] does not handle,
    [IdsFallback] a [ValueError], which it does. *)
Inductive IdScan : Type :=
  | IdsOk (ids : list Z)
  | IdsFallback
  | IdsRaise (msg : string).

Fixpoint scan_ids (records : list Dict) : IdScan :=
  match records with
  | [] => IdsOk []
  | r :: rest =>
      match get_or r "record_id" (VStr EmptyString) with
      | VStr s =>
          if is_prefix "QM" s
          then match int_of_string (String.substring 2 (String.length s - 2) s) with
               | None => IdsFallback
               | Some n =>
                   match scan_ids rest with
                   | IdsOk ids => IdsOk (n :: ids)
                   | other => other
                   end
               end
          else scan_ids rest
      | v => IdsRaise ("'" +:+ type_name v
                       +:+ "' object has no attribute 'startswith'")
      end
  end.

Definition generate_record_id (w : World) : res string :=
  let records := _load_records w in
  match records with
  | [] => Ret "QM001"
  | _ =>
      let fallback :=
        "QM" +:+ zfill 3 (str_of_Z (Z.of_nat (length records) + 1)) in
      match scan_ids records with
      | IdsRaise e => Raise e
      | IdsFallback => Ret fallback
      | IdsOk [] => Ret fallback
      | IdsOk (n :: ids) =>
          let last_id := fold_left Z.max ids n in
          Ret ("QM" +:+ zfill 3 (str_of_Z (last_id + 1)))
      end
  end.

Definition calculate_defect_density (fl : FloatUnit)
    (total_requirements total_failures : Z) : Value :=
  if Z.eqb total_requirements 0 then VFloat 0
  else VFloat (float_pct fl total_requirements total_failures).

(** The records a round is counted over: the persisted records of the
    trial and requirement type, then the wizard's records of the type. *)
Definition round_records (trial_id requirement_type : Value)
    (wizard_records : list Dict) (w : World) : list Dict :=
  let all_records := _load_records w in
  let trial_records :=
    List.filter
      (fun r => py_eq (get r "trial_id") trial_id
                && py_eq (get r "type_of_requirement") requirement_type)
      all_records in
  match wizard_records with
  | [] => trial_records
  | _ =>
      trial_records ++
      List.filter
        (fun r => py_eq (get r "type_of_requirement") requirement_type)
        wizard_records
  end.

(** [wizard_records] is [[]] for the default [None]: both are falsy. *)
Definition get_requirement_round (fl : FloatUnit)
    (trial_id requirement_type : Value) (wizard_records : list Dict)
    (w : World) : res Value :=
  let trial_records :=
    round_records trial_id requirement_type wizard_records w in
  match List.map (fun r => get_or r "requirement_round" (VInt 0)) trial_records with
  | [] => Ret (VInt 1)
  | first :: rest =>
      max_req_round ← py_max first rest;
      py_add1 fl max_req_round
  end.

Definition numeric_fields : list string :=
  ["no_of_rounds"; "current_round"; "requirement_round";
   "total_requirements"; "total_failures";
   "spec_issue"; "mock_crf_issue"; "programming_issue"; "scripting_issue"].

(** One step of the conversion loop. *)
Definition convert_field (record : Dict) (field : string) : Dict :=
  match record !! field with
  | None => record
  | Some v =>
      match py_int v with
      | Ret z => <[field := VInt z]> record
      | Raise _ =>
          if String.eqb field "requirement_round"
          then <[field := VInt 1]> record
          else <[field := VInt 0]> record
      end
  end.

Definition convert_numeric_fields (record : Dict) : Dict :=
  fold_left convert_field numeric_fields record.

(** An operand of the integer arithmetic of the validation. *)
Definition int_operand (v : Value) : res Z :=
  match v with
  | VInt z => Ret z
  | VBool b => Ret (if b then 1 else 0)
  | _ => Raise ("unsupported operand type(s) for +: 'int' and '"
                +:+ type_name v +:+ "'")
  end.

Definition total_failures_message : string :=
  "Total failures cannot exceed total requirements".

Definition failure_sum_message (failure_sum : Z) : string :=
  "Sum of failure reasons (" +:+ str_of_Z failure_sum
  +:+ ") cannot exceed total failures".

(** The record [create_record] builds before it validates. *)
Definition prepare_record (fl : FloatUnit) (record_data : Dict)
    (username : string) (utcnow : string * string) (w : World) : res Dict :=
  record_id ← generate_record_id w;
  let record :=
    <["status" := VStr "Active"]>
      (<["updated_at" := VStr (snd utcnow)]>
        (<["created_at" := VStr (fst utcnow)]>
          (<["created_by" := VStr username]>
            (<["record_id" := VStr record_id]> record_data)))) in
  record ←
    (match record !! "requirement_round" with
     | Some v =>
         if py_eq v (VInt 0)
         then round ← get_requirement_round fl
                        (get_or record "trial_id" (VStr EmptyString))
                        (get_or record "type_of_requirement" (VStr EmptyString))
                        [] w;
              Ret (<["requirement_round" := round]> record)
         else Ret record
     | None =>
         round ← get_requirement_round fl
                   (get_or record "trial_id" (VStr EmptyString))
                   (get_or record "type_of_requirement" (VStr EmptyString))
                   [] w;
         Ret (<["requirement_round" := round]> record)
     end);
  requirements ← py_int (get_or record "total_requirements" (VInt 0));
  failures ← py_int (get_or record "total_failures" (VInt 0));
  let record :=
    <["defect_density" := calculate_defect_density fl requirements failures]>
      record in
  Ret (convert_numeric_fields record).

(** The two checks; [Ret None] when the record passes. *)
Definition validate_record (record : Dict) : res (option string) :=
  failures ← py_int (get_or record "total_failures" (VInt 0));
  requirements ← py_int (get_or record "total_requirements" (VInt 0));
  if Z.ltb requirements failures then Ret (Some total_failures_message)
  else
    spec_issue ← int_operand (get_or record "spec_issue" (VInt 0));
    mock_crf_issue ← int_operand (get_or record "mock_crf_issue" (VInt 0));
    programming_issue ← int_operand (get_or record "programming_issue" (VInt 0));
    scripting_issue ← int_operand (get_or record "scripting_issue" (VInt 0));
    let failure_sum :=
      spec_issue + mock_crf_issue + programming_issue + scripting_issue in
    total_failures ← int_operand (get_or record "total_failures" (VInt 0));
    if Z.ltb total_failures failure_sum
    then Ret (Some (failure_sum_message failure_sum))
    else Ret None.

(** [utcnow] holds the two readings of [datetime.utcnow().isoformat()]. *)
Definition create_record (fl : FloatUnit) (record_data : Dict)
    (username : string) (utcnow : string * string) (w : World) : Outcome :=
  let records := _load_records w in
  match prepare_record fl record_data username utcnow w
          ≫= (fun record => v ← validate_record record; Ret (record, v)) with
  | Raise e => ((false, "Error creating record: " +:+ e), w)
  | Ret (record, Some message) => ((false, message), w)
  | Ret (record, None) =>
      match _save_records (records ++ [record]) w with
      | (true, w') =>
          ((true,
            "Quality record "
            +:+ match get record "record_id" with VStr s => s | _ => EmptyString end
            +:+ " created successfully"), w')
      | (false, w') => ((false, "Failed to save record"), w')
      end
  end.

(** *** Dashboard statistics *)














(** ** services/user_service.py *)

Definition _load_users (w : World) : gmap string UserEntry := users_json w.

Definition _save_users (users : gmap string UserEntry) (w : World)
  : bool * World :=
  if writable w then (true, write_users users w) else (false, w).

Definition _load_pending_users (w : World) : list Dict := pending_users_json w.

Definition _save_pending_users (pending : list Dict) (w : World)
  : bool * World :=
  if writable w then (true, write_pending_users pending w) else (false, w).

(** [hash_password] is [hashlib.sha256(password.encode()).hexdigest()]. *)
Definition authenticate_user (hash_password : string -> string)
    (username password : string) (w : World) : option Dict :=
  let users := _load_users w in
  match users !! username with
  | None => None
  | Some (UOther _) => None
  | Some (UDict user) =>
      let hashed_input := hash_password password in
      let stored_hash := get_or user "password" (VStr EmptyString) in
      if negb (py_eq stored_hash (VStr hashed_input)) then None
      else
        let is_active := get_or user "is_active" (VBool true) in
        if negb (truthy is_active) then None
        else
          let status := get_or user "status" (VStr "active") in
          if negb (py_eq status (VStr "active")) then None
          else
            let user_copy := delete "password" user in
            let user_copy := <["username" := VStr username]> user_copy in
            let user_copy :=
              <["is_audit_reviewer" :=
                  get_or user "is_audit_reviewer" (VBool false)]> user_copy in
            Some user_copy
  end.

(** [data.get('role') == 'superuser'] on an entry that is an object. *)
Definition is_superuser (data : Dict) : bool :=
  py_eq (get data "role") (VStr "superuser").

(** The [superusers] comprehension of [delete_user]: it raises on an
    entry that is not an object. *)
Fixpoint superusers_of (items : list (string * UserEntry)) : res (list string) :=
  match items with
  | [] => Ret []
  | (u, UDict data) :: rest =>
      l ← superusers_of rest;
      Ret (if is_superuser data then u :: l else l)
  | (u, UOther v) :: rest =>
      Raise ("'" +:+ type_name v +:+ "' object has no attribute 'get'")
  end.

Definition delete_user (fl : FloatUnit) (username : string) (w : World)
  : Outcome :=
  let users := _load_users w in
  match users !! username with
  | None => ((false, "User not found"), w)
  | Some entry =>
      if String.eqb username "superuser" || String.eqb username "admin"
      then ((false, "Cannot delete system admin accounts"), w)
      else
        match superusers_of (map_to_list users) with
        | Raise e => ((false, "Error: " +:+ e), w)
        | Ret superusers =>
            if Nat.eqb (length superusers) 1
               && bool_decide (username ∈ superusers)
            then ((false, "Cannot delete the last superuser"), w)
            else
              let user_role :=
                match entry with
                | UDict data => get data "role"
                | UOther _ => VNone
                end in
              match _save_users (delete username users) w with
              | (true, w') =>
                  ((true, "User '" +:+ username +:+ "' (role: "
                          +:+ py_str fl user_role
                          +:+ ") deleted successfully"), w')
              | (false, w') => ((false, "Failed to delete user"), w')
              end
        end
  end.

Definition reject_pending_user (username : string) (w : World) : Outcome :=
  let pending_users := _load_pending_users w in
  let pending_users :=
    List.filter (fun u => negb (py_eq (get u "username") (VStr username)))
                pending_users in
  match _save_pending_users pending_users w with
  | (true, w') =>
      ((true, "Registration for '" +:+ username +:+ "' rejected"), w')
  | (false, w') => ((false, "Failed to reject user"), w')
  end.

(** ** services/audit_service.py *)

Definition load_trail_documents (w : World) : list Dict := trail_documents_json w.

(** [doc.get(k, dflt).strip().upper()]; [None] when the value is not a
    string. *)
Definition normalized (v : Value) : option string :=
  match v with
  | VStr s => Some (upper (strip s))
  | _ => None
  end.

Definition duplicate_info (doc : Dict) : Dict :=
  list_to_map
    [("id", get doc "id");
     ("trail", get_or doc "trail" (VStr "Unknown"));
     ("document_name", get_or doc "document_name" (VStr "Unknown"));
     ("created_by", get_or doc "created_by" (VStr "Unknown"));
     ("created_at", get_or doc "created_at" (VStr "N/A"));
     ("category", get_or doc "category" (VStr "Unknown"));
     ("uat_round", get_or doc "uat_round" (VStr "N/A"))].

(** [exclude_id and doc.get('id') == exclude_id] *)
Definition excluded (exclude_id : option string) (doc : Dict) : bool :=
  match exclude_id with
  | None => false
  | Some id => negb (String.eqb id EmptyString) && py_eq (get doc "id") (VStr id)
  end.

(** The loop over the documents; [None] when a stored id raises. *)
Fixpoint find_duplicate (tmf_vault_id_upper : string)
    (exclude_id : option string) (documents : list Dict)
  : option (bool * Dict) :=
  match documents with
  | [] => Some (false, ∅)
  | doc :: rest =>
      if excluded exclude_id doc
      then find_duplicate tmf_vault_id_upper exclude_id rest
      else
        match normalized (get_or doc "tmf_vault_id" (VStr EmptyString)) with
        | None => None
        | Some id =>
            if String.eqb id tmf_vault_id_upper
            then Some (true, duplicate_info doc)
            else find_duplicate tmf_vault_id_upper exclude_id rest
        end
  end.

Definition check_duplicate_tmf_vault_id (tmf_vault_id : string)
    (exclude_id : option string) (w : World) : option (bool * Dict) :=
  if String.eqb tmf_vault_id EmptyString
     || String.eqb (strip tmf_vault_id) EmptyString
  then Some (false, ∅)
  else
    let documents := load_trail_documents w in
    let tmf_vault_id_upper := upper (strip tmf_vault_id) in
    find_duplicate tmf_vault_id_upper exclude_id documents.

(** ** Observations the properties are stated with *)

(** The two kinds of entries of the allocations file. *)
Definition uat_entries (w : World) : list Dict :=
  List.filter is_uat (allocations_json w).

Definition allocation_entries (w : World) : list Dict :=
  List.filter (fun item => negb (is_uat item)) (allocations_json w).

(** ** Sample data *)

Definition alloc (id trial : string) : Dict :=
  list_to_map [("id", VStr id); ("trial_id", VStr trial);
               ("record_type", VStr "allocation")].

Definition uat (id trial : string) : Dict :=
  list_to_map [("id", VStr id); ("trial_id", VStr trial);
               ("record_type", VStr "uat")].

Definition empty_world : World := mkWorld [] [] [] ∅ [] [] true.

(** An allocations file with 3 allocation and 2 UAT entries. *)
Definition shared_entries : list Dict :=
  [alloc "20240101090000" "NN1234-5678"; uat "20240102090000" "NN1234-5678";
   alloc "20240103090000" "NN9999-0001"; uat "20240104090000" "NN9999-0001";
   alloc "20240105090000" "NN4321-0002"].

Definition shared_world : World := write_allocations shared_entries empty_world.

Definition noon : Clock :=
  mkClock "20240601120000" "2024-06-01 12:00:00" "2024-06-01 12:00:00".

(** A pending registration. *)
Definition pending (username email : string) : Dict :=
  list_to_map [("username", VStr username); ("email", VStr email);
               ("password", VStr "5e884898da28047151d0e56f8dc62927")].

Definition pending_list : list Dict :=
  [pending "asha" "asha@example.com"; pending "ravi" "ravi@example.com";
   pending "asha" "asha2@example.com"].

Definition pending_world : World := write_pending_users pending_list empty_world.

(** The entry names the user: its [username] is that string. *)
Definition names (username : string) (u : Dict) : Prop :=
  u !! "username" = Some (VStr username).

(** The entry is an account whose role is [superuser]. *)
Definition entry_is_superuser (entry : UserEntry) : bool :=
  match entry with
  | UDict data => is_superuser data
  | UOther _ => false
  end.

Definition is_object (entry : UserEntry) : Prop :=
  match entry with
  | UDict _ => True
  | UOther _ => False
  end.

(** The number of accounts whose role is [superuser]. *)
Definition superuser_count (users : gmap string UserEntry) : nat :=
  length (List.filter (fun item => entry_is_superuser (snd item))
                      (map_to_list users)).

Definition protected_username (username : string) : Prop :=
  username = "superuser" \/ username = "admin".

Definition account (role : string) : UserEntry :=
  UDict (list_to_map [("password", VStr "8c6976e5b5410415bde908bd4dee15df");
                      ("email", VStr "someone@example.com");
                      ("role", VStr role)]).

(** Users files with one and with two superusers. *)
Definition one_superuser_world : World :=
  write_users
    (list_to_map [("root", account "superuser"); ("meera", account "user")])
    empty_world.

Definition two_superusers_world : World :=
  write_users
    (list_to_map [("root", account "superuser"); ("chief", account "superuser");
                  ("meera", account "user")])
    empty_world.

Definition no_floats : FloatUnit :=
  mkFloatUnit (fun q => Qplus q 1) (fun _ _ => 0%Q) (fun _ => "0.0").

(** A stand-in for SHA-256 in the examples. *)
Definition sample_hash (password : string) : string := "sha256:" +:+ password.

(** A legacy account: neither [is_active] nor [status] is recorded. *)
Definition legacy_account : Dict :=
  list_to_map [("password", VStr (sample_hash "s3cret"));
               ("email", VStr "meera@example.com");
               ("role", VStr "user")].

(** An account without [is_active] whose [status] is not [active]. *)
Definition suspended_account : Dict :=
  list_to_map [("password", VStr (sample_hash "s3cret"));
               ("status", VStr "suspended")].

Definition accounts_world : World :=
  write_users
    (list_to_map [("meera", UDict legacy_account);
                  ("ravi", UDict suspended_account)])
    empty_world.

(** The supplied password's hash matches the stored hash. *)
Definition hash_matches (hash_password : string -> string) (user : Dict)
    (password : string) : Prop :=
  py_eq (get_or user "password" (VStr EmptyString))
        (VStr (hash_password password)) = true.

(** The key is missing or holds a value that lets the login through. *)
Definition active_or_missing (user : Dict) : Prop :=
  match user !! "is_active" with
  | None => True
  | Some v => truthy v = true
  end.

Definition status_active_or_missing (user : Dict) : Prop :=
  match user !! "status" with
  | None => True
  | Some v => v = VStr "active"
  end.

(** The sentence as the specification has it: every account that lacks
    [is_active] or lacks [status] logs in when the hash matches. *)
Definition missing_key_always_authenticates : Prop :=
  forall (hash_password : string -> string) (username password : string)
         (user : Dict) (w : World),
    users_json w !! username = Some (UDict user) ->
    user !! "is_active" = None \/ user !! "status" = None ->
    hash_matches hash_password user password ->
    is_Some (authenticate_user hash_password username password w).




Definition trail_document (id trail tmf : string) : Dict :=
  list_to_map [("id", VStr id); ("trail", VStr trail);
               ("document_name", VStr "Test Plan");
               ("tmf_vault_id", VStr tmf)].

Definition trail_list : list Dict :=
  [trail_document "d1" "NN1234-5678" "ABC-123";
   trail_document "d2" "NN9999-0001" "XYZ-9"].

Definition trail_world : World := mkWorld [] [] [] ∅ [] trail_list true.

(** A non-empty actual date differs from its planned counterpart. *)
Definition differs_from_planned (uat_data : Dict) (actual planned : string)
  : Prop :=
  truthy (get uat_data actual) = true
  /\ py_eq (get uat_data actual) (get uat_data planned) = false.

Definition dates_differ (uat_data : Dict) : Prop :=
  differs_from_planned uat_data "actual_start_date" "planned_start_date"
  \/ differs_from_planned uat_data "actual_end_date" "planned_end_date".

(** [date_difference_reason] is absent or empty. *)
Definition no_reason (uat_data : Dict) : Prop :=
  truthy (get uat_data "date_difference_reason") = false.

(** A UAT request whose actual end date is a day late. *)
Definition late_uat : Dict :=
  list_to_map [("trial_id", VStr "NN1234-5678"); ("uat_round", VStr "1");
               ("category", VStr "Build");
               ("planned_start_date", VStr "2024-05-01");
               ("planned_end_date", VStr "2024-05-10");
               ("actual_start_date", VStr "2024-05-01");
               ("actual_end_date", VStr "2024-05-11");
               ("status", VStr "Completed"); ("result", VStr "Pass")].

Definition late_uat_with_reason : Dict :=
  <["date_difference_reason" := VStr "Environment outage"]> late_uat.

Definition uat_world : World :=
  write_uat_records [uat "20240102090000" "NN1234-5678"] empty_world.

(** The record belongs to the trial and to the requirement type. *)
Definition of_type (requirement_type : string) (r : Dict) : Prop :=
  r !! "type_of_requirement" = Some (VStr requirement_type).

Definition of_pair (trial_id requirement_type : string) (r : Dict) : Prop :=
  r !! "trial_id" = Some (VStr trial_id) /\ of_type requirement_type r.

(** The records a round is counted over: the persisted records of the
    (trial, type) pair and the in-flight records of the type. *)
Definition counted (trial_id requirement_type : string)
    (wizard_records : list Dict) (w : World) (r : Dict) : Prop :=
  (In r (quality_records_json w) /\ of_pair trial_id requirement_type r)
  \/ (In r wizard_records /\ of_type requirement_type r).

(** The [requirement_round] of a record, 0 when it has none. *)
Definition round_of (r : Dict) : option Z :=
  as_int (get_or r "requirement_round" (VInt 0)).

Definition quality (trial type : string) (round : Z) : Dict :=
  list_to_map [("trial_id", VStr trial); ("type_of_requirement", VStr type);
               ("requirement_round", VInt round)].

Definition quality_list : list Dict :=
  [quality "T1" "Forms" 1; quality "T1" "Editchecks" 4; quality "T2" "Forms" 7].

Definition quality_world : World :=
  write_quality_records quality_list empty_world.

(** The value of a numeric field after the conversion loop, 0 when the
    record does not have the field. *)
Definition coerced (record : Dict) (field : string) : Z :=
  match record !! field with
  | Some (VInt z) => z
  | _ => 0
  end.

Definition failure_sum (record : Dict) : Z :=
  coerced record "spec_issue" + coerced record "mock_crf_issue"
  + coerced record "programming_issue" + coerced record "scripting_issue".

(** The sentence as the specification has it: whenever the four reasons
    add up to more than [total_failures], creation fails with the message
    that names the sum. *)
Definition sum_violation_names_the_sum : Prop :=
  forall (fl : FloatUnit) (record_data : Dict) (username : string)
         (utcnow : string * string) (w : World) (record : Dict),
    prepare_record fl record_data username utcnow w = Ret record ->
    coerced record "total_failures" < failure_sum record ->
    create_record fl record_data username utcnow w
    = ((false, failure_sum_message (failure_sum record)), w).

(** Creation requests: 12 failures for 10 requirements with 13 reasons;
    5 failures with 7 reasons; a consistent one. *)
Definition too_many_failures : Dict :=
  list_to_map [("trial_id", VStr "T1"); ("type_of_requirement", VStr "Forms");
               ("total_requirements", VInt 10); ("total_failures", VInt 12);
               ("spec_issue", VInt 13)].

Definition too_many_reasons : Dict :=
  list_to_map [("trial_id", VStr "T1"); ("type_of_requirement", VStr "Forms");
               ("total_requirements", VStr "20"); ("total_failures", VInt 5);
               ("spec_issue", VInt 3); ("mock_crf_issue", VInt 4)].

Definition consistent_request : Dict :=
  list_to_map [("trial_id", VStr "T1"); ("type_of_requirement", VStr "Forms");
               ("total_requirements", VInt 20); ("total_failures", VInt 5);
               ("spec_issue", VInt 3); ("programming_issue", VInt 2)].

Definition morning : string * string :=
  ("2024-06-01T08:00:00.000001", "2024-06-01T08:00:00.000002").

(** The field is absent or holds an integer. *)
Definition int_or_absent (record : Dict) (field : string) : Prop :=
  record !! field = None \/ exists z, record !! field = Some (VInt z).

(** ** More of the services *)

(** *** services/allocation_service.py, services/uat_service.py: reads *)

(** [for x in l: if x.get('id') == id: return x]; [None] at the end. *)
Definition get_allocation_by_id (allocation_id : string) (w : World)
  : option Dict :=
  List.find (has_id allocation_id) (_load_allocations w).

Definition created_by (username : string) (d : Dict) : bool :=
  py_eq (get d "created_by") (VStr username).

Definition get_allocations_by_user (username : string) (w : World)
  : list Dict :=
  List.filter (created_by username) (_load_allocations w).

Definition get_allocations_by_engineer (engineer_name : string) (w : World)
  : list Dict :=
  List.filter
    (fun a => py_eq (get a "test_engineer_name") (VStr engineer_name))
    (_load_allocations w).

(** [role in ['admin', 'manager', 'superuser']] *)
Definition elevated (role : string) : bool :=
  String.eqb role "admin" || String.eqb role "manager"
  || String.eqb role "superuser".

Definition get_allocations_by_role (role username : string) (w : World)
  : list Dict :=
  if elevated role then get_all_allocations w
  else get_allocations_by_user username w.

Definition get_uat_records_by_role (role username : string) (w : World)
  : list Dict :=
  let records := _load_uat_records w in
  if elevated role then records
  else List.filter (created_by username) records.

Definition get_uat_record_by_id (record_id : string) (w : World)
  : option Dict :=
  List.find (has_id record_id) (_load_uat_records w).

(** The entry carries the id. *)
Definition with_id (id : string) (d : Dict) : Prop :=
  d !! "id" = Some (VStr id).


(** *** services/user_service.py: accounts *)

(** [x if x else dflt] for an optional name. *)
Definition name_or (x : option string) (dflt : string) : string :=
  match x with
  | Some s => if String.eqb s EmptyString then dflt else s
  | None => dflt
  end.

(** [get_user_by_username]: an empty record is falsy and not returned. *)
Definition get_user_by_username (username : string) (w : World)
  : option Dict :=
  match _load_users w !! username with
  | Some (UDict user) => if bool_decide (user = ∅) then None else Some user
  | _ => None
  end.

Definition get_all_users (w : World) : gmap string Dict :=
  map_imap
    (fun username entry =>
       match entry with
       | UDict user_data =>
           Some (<["username" := VStr username]> (delete "password" user_data))
       | UOther _ => None
       end)
    (_load_users w).

Definition new_user (hash_password : string -> string)
    (email password role : string) (created_by : option string)
    (now : Clock) : Dict :=
  list_to_map
    [("password", VStr (hash_password password));
     ("email", VStr email);
     ("role", VStr role);
     ("status", VStr "active");
     ("is_active", VBool true);
     ("is_audit_reviewer", VBool false);
     ("audit_reviewer_requested", VBool false);
     ("audit_reviewer_justification", VNone);
     ("audit_reviewer_approved_by", VNone);
     ("audit_reviewer_approved_at", VNone);
     ("created_at", VStr (stamp_created now));
     ("created_by", VStr (name_or created_by "system"))].

Definition create_user (hash_password : string -> string)
    (username email password role : string) (created_by : option string)
    (now : Clock) (w : World) : Outcome :=
  let users := _load_users w in
  match users !! username with
  | Some _ => ((false, "Username already exists"), w)
  | None =>
      let users :=
        <[username := UDict (new_user hash_password email password role
                               created_by now)]> users in
      match _save_users users w with
      | (true, w') =>
          ((true, "User '" +:+ username +:+ "' created successfully"), w')
      | (false, w') => ((false, "Failed to save user"), w')
      end
  end.

(** [users[username].get(...)] and [users[username][k] = v] need an
    object; the text is that of the [AttributeError]. *)
Definition no_get (v : Value) : string :=
  "'" +:+ type_name v +:+ "' object has no attribute 'get'".

Definition update_user_role (fl : FloatUnit) (username new_role : string)
    (updated_by : option string) (now : Clock) (w : World) : Outcome :=
  let users := _load_users w in
  match users !! username with
  | None => ((false, "User not found"), w)
  | Some (UOther v) => ((false, "Error: " +:+ no_get v), w)
  | Some (UDict user) =>
      let old_role := get user "role" in
      let user :=
        <["updated_by" := VStr (name_or updated_by "system")]>
          (<["updated_at" := VStr (stamp_updated now)]>
            (<["role" := VStr new_role]> user)) in
      match _save_users (<[username := UDict user]> users) w with
      | (true, w') =>
          ((true, "User '" +:+ username +:+ "' role updated from "
                  +:+ py_str fl old_role +:+ " to " +:+ new_role), w')
      | (false, w') => ((false, "Failed to update user"), w')
      end
  end.

Definition change_password (hash_password : string -> string)
    (username old_password new_password : string) (now : Clock) (w : World)
  : Outcome :=
  let users := _load_users w in
  match users !! username with
  | None => ((false, "User not found"), w)
  | Some (UOther v) => ((false, "Error: " +:+ no_get v), w)
  | Some (UDict user) =>
      if negb (py_eq (VStr (hash_password old_password))
                     (get_or user "password" (VStr EmptyString)))
      then ((false, "Current password is incorrect"), w)
      else
        let user :=
          <["password_changed_at" := VStr (stamp_updated now)]>
            (<["password" := VStr (hash_password new_password)]> user) in
        match _save_users (<[username := UDict user]> users) w with
        | (true, w') => ((true, "Password changed successfully"), w')
        | (false, w') => ((false, "Failed to save password"), w')
        end
  end.

(** The audit-reviewer flags of a record. *)
Definition reviewer_requested (user : Dict) : bool :=
  truthy (get_or user "audit_reviewer_requested" (VBool false)).

Definition is_reviewer (user : Dict) : bool :=
  truthy (get_or user "is_audit_reviewer" (VBool false)).

Definition request_audit_reviewer_access (username justification : string)
    (w : World) : Outcome :=
  let users := _load_users w in
  match users !! username with
  | None => ((false, "User not found"), w)
  | Some (UOther v) => ((false, "Error: " +:+ no_get v), w)
  | Some (UDict user) =>
      if is_reviewer user
      then ((false, "User already has audit reviewer access"), w)
      else if reviewer_requested user
      then ((false, "Audit reviewer access already requested, pending approval"), w)
      else
        let user :=
          <["audit_reviewer_justification" := VStr justification]>
            (<["audit_reviewer_requested" := VBool true]> user) in
        match _save_users (<[username := UDict user]> users) w with
        | (true, w') =>
            ((true, "Audit Reviewer access request submitted for approval"), w')
        | (false, w') => ((false, "Failed to save request"), w')
        end
  end.

Definition approve_audit_reviewer (username : string)
    (approved_by : option string) (now : Clock) (w : World) : Outcome :=
  let users := _load_users w in
  match users !! username with
  | None => ((false, "User not found"), w)
  | Some (UOther v) => ((false, "Error: " +:+ no_get v), w)
  | Some (UDict user) =>
      if negb (reviewer_requested user)
      then ((false, "User has not requested audit reviewer access"), w)
      else if is_reviewer user
      then ((false, "User already has audit reviewer access"), w)
      else
        let user :=
          <["audit_reviewer_approved_at" := VStr (stamp_updated now)]>
            (<["audit_reviewer_approved_by" := VStr (name_or approved_by "admin")]>
              (<["audit_reviewer_requested" := VBool false]>
                (<["is_audit_reviewer" := VBool true]> user))) in
        match _save_users (<[username := UDict user]> users) w with
        | (true, w') =>
            ((true, "Audit Reviewer access granted to '" +:+ username +:+ "'"), w')
        | (false, w') => ((false, "Failed to save changes"), w')
        end
  end.

Definition reject_audit_reviewer (username : string) (w : World) : Outcome :=
  let users := _load_users w in
  match users !! username with
  | None => ((false, "User not found"), w)
  | Some (UOther v) => ((false, "Error: " +:+ no_get v), w)
  | Some (UDict user) =>
      if negb (reviewer_requested user)
      then ((false, "User has not requested audit reviewer access"), w)
      else
        let user :=
          <["audit_reviewer_justification" := VNone]>
            (<["audit_reviewer_requested" := VBool false]> user) in
        match _save_users (<[username := UDict user]> users) w with
        | (true, w') =>
            ((true, "Audit Reviewer request rejected for '" +:+ username +:+ "'"), w')
        | (false, w') => ((false, "Failed to save changes"), w')
        end
  end.

Definition revoke_audit_reviewer (username : string)
    (revoked_by : option string) (now : Clock) (w : World) : Outcome :=
  let users := _load_users w in
  match users !! username with
  | None => ((false, "User not found"), w)
  | Some (UOther v) => ((false, "Error: " +:+ no_get v), w)
  | Some (UDict user) =>
      if negb (is_reviewer user)
      then ((false, "User does not have audit reviewer access"), w)
      else
        let user :=
          <["audit_reviewer_revoked_at" := VStr (stamp_updated now)]>
            (<["audit_reviewer_revoked_by" := VStr (name_or revoked_by "admin")]>
              (<["audit_reviewer_approved_at" := VNone]>
                (<["audit_reviewer_approved_by" := VNone]>
                  (<["is_audit_reviewer" := VBool false]> user)))) in
        match _save_users (<[username := UDict user]> users) w with
        | (true, w') =>
            ((true, "Audit Reviewer access revoked from '" +:+ username +:+ "'"), w')
        | (false, w') => ((false, "Failed to save changes"), w')
        end
  end.

(** The four operations on the audit-reviewer flags of an account. *)
Inductive ReviewerOp : Type :=
  | Request (justification : string)
  | Approve (approved_by : option string)
  | Reject
  | Revoke (revoked_by : option string).

Definition run_reviewer_op (op : ReviewerOp) (username : string)
    (now : Clock) (w : World) : Outcome :=
  match op with
  | Request justification =>
      request_audit_reviewer_access username justification w
  | Approve approved_by => approve_audit_reviewer username approved_by now w
  | Reject => reject_audit_reviewer username w
  | Revoke revoked_by => revoke_audit_reviewer username revoked_by now w
  end.

(** The flags (requested, reviewer) of a record, when an operation is
    let through, and the flags it leaves. *)
Definition reviewer_flags (user : Dict) : bool * bool :=
  (reviewer_requested user, is_reviewer user).

Definition reviewer_guard (op : ReviewerOp) (flags : bool * bool) : bool :=
  let '(requested, reviewer) := flags in
  match op with
  | Request _ => negb reviewer && negb requested
  | Approve _ => requested && negb reviewer
  | Reject => requested
  | Revoke _ => reviewer
  end.

Definition reviewer_next (op : ReviewerOp) (flags : bool * bool) : bool * bool :=
  let '(requested, reviewer) := flags in
  match op with
  | Request _ => (true, reviewer)
  | Approve _ => (false, true)
  | Reject => (false, reviewer)
  | Revoke _ => (requested, false)
  end.

(** No account is both waiting for the access and holding it. *)
Definition reviewer_flags_consistent (w : World) : Prop :=
  forall username user,
    users_json w !! username = Some (UDict user) ->
    reviewer_flags user <> (true, true).

(** [approve_pending_user]: the registration becomes an account. *)
Definition approved_user (pending_user : Dict) (approved_role : string)
    (approved_by : option string) (now : Clock) : res Dict :=
  password ← item pending_user "password";
  email ← item pending_user "email";
  Ret (list_to_map
         [("password", password);
          ("email", email);
          ("role", VStr approved_role);
          ("status", VStr "active");
          ("is_active", VBool true);
          ("created_at", VStr (stamp_created now));
          ("approved_by", VStr (name_or approved_by "admin"));
          ("is_audit_reviewer", VBool false);
          ("audit_reviewer_requested",
           get_or pending_user "audit_reviewer_requested" (VBool false));
          ("audit_reviewer_justification",
           get pending_user "audit_reviewer_justification");
          ("audit_reviewer_approved_by", VNone);
          ("audit_reviewer_approved_at", VNone)]).

Definition named (username : string) (u : Dict) : bool :=
  py_eq (get u "username") (VStr username).

Definition approve_pending_user (username approved_role : string)
    (approved_by : option string) (now : Clock) (w : World) : Outcome :=
  let pending_users := _load_pending_users w in
  match List.find (named username) pending_users with
  | None => ((false, "Pending user not found"), w)
  | Some pending_user =>
      let users := _load_users w in
      match approved_user pending_user approved_role approved_by now with
      | Raise e => ((false, "Error: " +:+ e), w)
      | Ret user =>
          match _save_users (<[username := UDict user]> users) w with
          | (true, w') =>
              let pending_users :=
                List.filter (fun u => negb (named username u)) pending_users in
              ((true, "User '" +:+ username +:+ "' approved as "
                      +:+ approved_role),
               snd (_save_pending_users pending_users w'))
          | (false, w') => ((false, "Failed to approve user"), w')
          end
      end
  end.

(** *** The cumulative totals, stated directly *)






(** Keys that are pairwise different, as those of [distinct_trials] are. *)
Fixpoint pairwise_distinct (ks : list Value) : Prop :=
  match ks with
  | [] => True
  | k :: rest => Forall (fun k' => py_eq k k' = false) rest
                 /\ pairwise_distinct rest
  end.






(** *** services/quality_service.py: reads, update and delete *)

Definition has_record_id (record_id : string) (d : Dict) : bool :=
  py_eq (get d "record_id") (VStr record_id).

(** [for record in records: if record.get('record_id') == record_id:
    return record]; [None] at the end. *)
Definition get_record_by_id (record_id : string) (w : World) : option Dict :=
  List.find (has_record_id record_id) (_load_records w).








Definition delete_record (record_id : string) (username : string) (w : World)
  : Outcome :=
  let records := _load_records w in
  let original_count := length records in
  let records :=
    List.filter (fun r => negb (has_record_id record_id r)) records in
  if Nat.eqb (length records) original_count
  then ((false, "Record " +:+ record_id +:+ " not found"), w)
  else match _save_records records w with
       | (true, w') =>
           ((true, "Record " +:+ record_id +:+ " deleted successfully"), w')
       | (false, w') => ((false, "Failed to delete record"), w')
       end.


(** Stored records for the examples. *)
Definition stored (record_id : string) (requirements failures : Z) : Dict :=
  list_to_map [("record_id", VStr record_id);
               ("trial_id", VStr "T1");
               ("type_of_requirement", VStr "Forms");
               ("requirement_round", VInt 1);
               ("total_requirements", VInt requirements);
               ("total_failures", VInt failures)].

Definition numbered_list : list Dict :=
  [stored "QM001" 10 2; stored "QM007" 30 4; stored "LEGACY-3" 5 0].

Definition numbered_world : World :=
  write_quality_records numbered_list empty_world.

(** The second id is not a number: [generate_record_id] falls back on
    the number of records. *)
Definition unreadable_list : list Dict :=
  [stored "QM003" 10 2; stored "QMx" 30 4].

Definition unreadable_world : World :=
  write_quality_records unreadable_list empty_world.



(** *** services/uat_service.py: what an update leaves alone *)

(** The keys [update_uat_record] does not write. *)
Definition kept_keys : list string :=
  ["id"; "created_by"; "created_at"; "record_type"].

(** A complete request without actual dates. *)
Definition planned_uat : Dict :=
  list_to_map [("trial_id", VStr " NN1234-5678 "); ("uat_round", VStr "2");
               ("category", VStr "Build");
               ("planned_start_date", VStr "2024-07-01");
               ("planned_end_date", VStr "2024-07-10");
               ("status", VStr "Planned"); ("result", VStr "Pending")].

(** A stored UAT record with its author. *)
Definition uat_by (id trial username : string) : Dict :=
  <["created_by" := VStr username]> (uat id trial).

Definition uat_list : list Dict :=
  [uat_by "20240102090000" "NN1234-5678" "meera";
   uat_by "20240103090000" "NN9999-0001" "ravi";
   uat_by "20240104090000" "NN9999-0001" "meera"].

Definition uat_records_world : World := write_uat_records uat_list empty_world.

(** [v['password'] = ...] on an entry that is not an object. *)
Definition no_item_assignment (v : Value) : string :=
  "'" +:+ type_name v +:+ "' object does not support item assignment".

Definition reset_password (hash_password : string -> string)
    (username new_password : string) (now : Clock) (w : World) : Outcome :=
  let users := _load_users w in
  match users !! username with
  | None => ((false, "User not found"), w)
  | Some (UOther v) => ((false, "Error: " +:+ no_item_assignment v), w)
  | Some (UDict user) =>
      let user :=
        <["password_reset_at" := VStr (stamp_updated now)]>
          (<["password" := VStr (hash_password new_password)]> user) in
      match _save_users (<[username := UDict user]> users) w with
      | (true, w') => ((true, "Password reset successfully"), w')
      | (false, w') => ((false, "Failed to save password"), w')
      end
  end.

(** *** services/audit_service.py: trail documents and the audit log *)

(** An entry of [audit_logs.json], as [log_audit] writes it. *)
Record AuditLog : Type := mkAuditLog {
  log_id : string;
  log_username : Value;
  log_action : string;
  log_category : string;
  log_entity_type : string;
  log_entity_id : string;
  log_details : Dict;
  log_timestamp : string
}.

(** The data files together with the audit log. *)
Record Archive : Type := mkArchive {
  files : World;
  audit_logs_json : list AuditLog
}.

Definition write_trail_documents (l : list Dict) (w : World) : World :=
  mkWorld (allocations_json w) (uat_records_json w) (quality_records_json w)
          (users_json w) (pending_users_json w) l (writable w).

(** [load_data('trail_documents')] and [save_data('trail_documents', ...)] *)
Definition load_documents (a : Archive) : list Dict :=
  load_trail_documents (files a).

Definition save_documents (documents : list Dict) (a : Archive)
  : bool * Archive :=
  if writable (files a)
  then (true, mkArchive (write_trail_documents documents (files a))
                        (audit_logs_json a))
  else (false, a).

(** [load_data('audit_logs')] and [save_data('audit_logs', ...)] *)
Definition load_audit_logs (a : Archive) : list AuditLog := audit_logs_json a.

Definition save_audit_logs (logs : list AuditLog) (a : Archive)
  : bool * Archive :=
  if writable (files a) then (true, mkArchive (files a) logs) else (false, a).

(** [uuid4] and [now] are the readings of [uuid.uuid4()] and of the
    clock; [details] is never empty here, so that [details or {}] is
    [details]. *)
Definition log_audit (uuid4 now : string) (username : Value)
    (action category entity_type entity_id : string) (details : Dict)
    (a : Archive) : Archive :=
  let audit_logs := load_audit_logs a in
  let log_entry :=
    mkAuditLog uuid4 username action category entity_type entity_id
               details now in
  snd (save_audit_logs (audit_logs ++ [log_entry]) a).

Definition get_all_trail_documents (a : Archive) : list Dict :=
  load_documents a.

(** [next((d for d in documents if d.get('id') == document_id), None)] *)
Definition get_trail_document_by_id (document_id : string) (a : Archive)
  : option Dict :=
  List.find (has_id document_id) (load_documents a).

(** The fields [create_trail_document] and [update_trail_document] take
    from the request, in the order they are evaluated; [strip] raises
    on a value that is not a string. *)
Definition trail_fields (data : Dict) : res (list (string * Value)) :=
  trail ← strip_value (get_or data "trail" (VStr EmptyString));
  cr_number ← strip_value (get_or data "cr_number" (VStr EmptyString));
  te1 ← strip_value (get_or data "te1" (VStr EmptyString));
  te2 ← strip_value (get_or data "te2" (VStr EmptyString));
  document_name ← strip_value (get_or data "document_name" (VStr EmptyString));
  uat_round ← strip_value (get_or data "uat_round" (VStr EmptyString));
  tmf_vault_id ← strip_value (get_or data "tmf_vault_id" (VStr EmptyString));
  Ret [("trail", trail);
       ("category", get_or data "category" (VStr "Build"));
       ("cr_number", cr_number);
       ("te1", te1);
       ("te2", te2);
       ("document_name", document_name);
       ("te_document", get_or data "te_document" (VStr "No"));
       ("uat_round", uat_round);
       ("tmf_vault_id", tmf_vault_id);
       ("te1_approval_date", get data "te1_approval_date");
       ("te2_approval_date", get data "te2_approval_date");
       ("ctdm_approval_date", get data "ctdm_approval_date");
       ("go_live_date", get data "go_live_date")].

(** The [details] of the audit entry of a create or an update. *)
Definition document_details (document : Dict) : Dict :=
  list_to_map [("trail", get document "trail");
               ("category", get document "category");
               ("document_name", get document "document_name");
               ("tmf_vault_id", get document "tmf_vault_id")].

(** [document_id] and [log_id] are the two readings of [uuid.uuid4()],
    [now] and [log_now] the two of the clock. *)
Definition create_trail_document (data : Dict)
    (document_id log_id now log_now : string) (a : Archive)
  : (bool * string) * Archive :=
  let documents := load_documents a in
  match trail_fields data with
  | Raise e => ((false, "Error creating trail document: " +:+ e), a)
  | Ret fields =>
      let document : Dict :=
        list_to_map
          ([("id", VStr document_id)] ++ fields ++
           [("created_by", get_or data "created_by" (VStr "Unknown"));
            ("created_at", VStr now);
            ("updated_at", VNone);
            ("updated_by", VNone)]) in
      match save_documents (documents ++ [document]) a with
      | (true, a') =>
          ((true, "Trail document created successfully"),
           log_audit log_id log_now
             (get_or data "created_by" (VStr "Unknown"))
             "create" "trail_documents" "trail_document" document_id
             (document_details document) a')
      | (false, a') => ((false, "Failed to save trail document"), a')
      end
  end.


Definition delete_trail_document (document_id : string)
    (log_id log_now : string) (a : Archive) : (bool * string) * Archive :=
  let documents := load_documents a in
  match List.find (has_id document_id) documents with
  | None => ((false, "Trail document not found"), a)
  | Some document =>
      let trail_info : Dict :=
        list_to_map [("trail", get document "trail");
                     ("category", get document "category");
                     ("document_name", get document "document_name");
                     ("tmf_vault_id", get document "tmf_vault_id")] in
      let documents :=
        List.filter (fun d => negb (has_id document_id d)) documents in
      match save_documents documents a with
      | (true, a') =>
          ((true, "Trail document deleted successfully"),
           log_audit log_id log_now
             (get_or document "created_by" (VStr "Unknown"))
             "delete" "trail_documents" "trail_document" document_id
             trail_info a')
      | (false, a') => ((false, "Failed to delete trail document"), a')
      end
  end.

(** *** blueprints/audit.py: the routes of the trail documents *)

(** [request.form.to_dict()]: every value is a string. *)
Definition Form : Type := gmap string string.
Definition form_dict (form : Form) : Dict := VStr <$> form.

(** What a route flashes.  The texts are left out but for the parts
    that come from the data. *)
Inductive Flash : Type :=
  | DuplicateTmf (trail : Value)
  | MissingFields (missing_fields : list string)
  | ApprovalDatesRequired
  | CtdmDateRequired
  | Created (tmf_vault_id : string)
  | Updated
  | Deleted
  | NotFound
  | NoPermission
  | ServiceMessage (message : string)
  | RouteError.

(** [from services.audit_service import create_trail_document as
    service_create_trail_document], and so on. *)
Definition service_create_trail_document := create_trail_document.
Definition service_delete_trail_document := delete_trail_document.

Module AuditBlueprint.

Definition required : list string :=
  ["trail"; "category"; "te1"; "te2"; "document_name";
   "te_document"; "uat_round"; "tmf_vault_id"; "go_live_date"].

(** [not data.get(field)] on form data *)
Definition blank (form : Form) (field : string) : bool :=
  String.eqb (default EmptyString (form !! field)) EmptyString.

(** [role not in roles] *)
Definition role_in (role : Value) (roles : list string) : bool :=
  existsb (fun r => py_eq role (VStr r)) roles.

(** [user.get('role', 'user')] and [user.get('username', '')] of the
    user of the session *)
Definition session_role (user : Dict) : Value :=
  get_or user "role" (VStr "user").
Definition session_username (user : Dict) : Value :=
  get_or user "username" (VStr EmptyString).

(** The duplicate check of the create and edit routes; [None] when it
    raises. *)
Definition checked_tmf (form : Form) (exclude_id : option string)
    (a : Archive) : option (bool * Dict) :=
  let tmf_vault_id := strip (default EmptyString (form !! "tmf_vault_id")) in
  if String.eqb tmf_vault_id EmptyString then Some (false, ∅)
  else check_duplicate_tmf_vault_id tmf_vault_id exclude_id (files a).

(** The POST branch of [create_trail_document], for the user of the
    session; [RouteError] is the [except] branch. *)
Definition create_trail_document (form : Form) (user : Dict)
    (document_id log_id now log_now : string) (a : Archive)
  : Flash * Archive :=
  let username := session_username user in
  let data := form_dict form in
  let tmf_vault_id := strip (default EmptyString (form !! "tmf_vault_id")) in
  match checked_tmf form None a with
  | None => (RouteError, a)
  | Some (true, dup_info) => (DuplicateTmf (get dup_info "trail"), a)
  | Some (false, _) =>
      let missing_fields := List.filter (blank form) required in
      match missing_fields with
      | _ :: _ => (MissingFields missing_fields, a)
      | [] =>
          if String.eqb (default EmptyString (form !! "te_document")) "Yes"
          then
            if blank form "te1_approval_date" || blank form "te2_approval_date"
            then (ApprovalDatesRequired, a)
            else
              let data := <["created_by" := username]> data in
              match service_create_trail_document data document_id log_id
                      now log_now a with
              | ((true, _), a') => (Created tmf_vault_id, a')
              | ((false, message), a') => (ServiceMessage message, a')
              end
          else
            if blank form "ctdm_approval_date"
            then (CtdmDateRequired, a)
            else
              let data := <["created_by" := username]> data in
              match service_create_trail_document data document_id log_id
                      now log_now a with
              | ((true, _), a') => (Created tmf_vault_id, a')
              | ((false, message), a') => (ServiceMessage message, a')
              end
      end
  end.


Definition delete_trail_document (document_id : string) (user : Dict)
    (log_id log_now : string) (a : Archive) : Flash * Archive :=
  let role := session_role user in
  let username := session_username user in
  match get_trail_document_by_id document_id a with
  | None => (NotFound, a)
  | Some document =>
      if negb (role_in role ["superuser"; "admin"])
         && negb (py_eq (get document "created_by") username)
      then (NoPermission, a)
      else
        match service_delete_trail_document document_id log_id log_now a with
        | ((true, _), a') => (Deleted, a')
        | ((false, message), a') => (ServiceMessage message, a')
        end
  end.

End AuditBlueprint.

(** The TMF/Vault id of a document as the duplicate check compares it:
    trimmed and in upper case; empty when the document has none. *)
Definition tmf_key (doc : Dict) : string :=
  default EmptyString
    (normalized (get_or doc "tmf_vault_id" (VStr EmptyString))).

(** The ids that are filed: the keys that are not blank. *)
Definition filed_keys (documents : list Dict) : list string :=
  List.filter (fun k => negb (String.eqb k EmptyString))
              (List.map tmf_key documents).

(** No two documents carry the same TMF/Vault id. *)
Definition unique_tmf (documents : list Dict) : Prop :=
  NoDup (filed_keys documents).




(** The sample collection with an empty audit log. *)
Definition trail_archive : Archive := mkArchive trail_world [].


(** Users of a session. *)
Definition session_user (username role : string) : Dict :=
  list_to_map [("username", VStr username); ("role", VStr role)].


(** *** utils/validators.py *)

(** A character of the class [[a-zA-Z0-9_]]. *)
Definition is_word_char (a : ascii) : bool :=
  is_lower a || is_upper a || is_digit a || Ascii.eqb a "_".

(** The line feed, which [$] lets through at the end of a string. *)
Definition line_feed : string := String "010"%char EmptyString.

(** The rest of a match of [[a-zA-Z0-9_]+$] after its first character:
    more characters of the class, then the end of the string or a line
    feed that ends it. *)
Fixpoint word_to_end (s : string) : bool :=
  match s with
  | EmptyString => true
  | String a r =>
      if is_word_char a then word_to_end r else String.eqb s line_feed
  end.

(** [re.match(r'^[a-zA-Z0-9_]+$', s)] matches. *)
Definition matches_word (s : string) : bool :=
  match s with
  | EmptyString => false
  | String a r => is_word_char a && word_to_end r
  end.

Definition validate_username (username : string) : bool * string :=
  if String.eqb username EmptyString
  then (false, "Username is required")
  else if Nat.ltb (String.length username) 3
  then (false, "Username must be at least 3 characters")
  else if Nat.ltb 50 (String.length username)
  then (false, "Username must be less than 50 characters")
  else if negb (matches_word username)
  then (false, "Username can only contain letters, numbers, and underscores")
  else (true, EmptyString).

(** Every character is of the class. *)
Fixpoint word (s : string) : bool :=
  match s with
  | EmptyString => true
  | String a r => is_word_char a && word r
  end.

(** *** services/uat_service.py: statistics *)

(** A dict of counters, in insertion order:
    [counts[key] = counts.get(key, 0) + 1]. *)
Fixpoint bump (key : Value) (counts : list (Value * nat))
  : list (Value * nat) :=
  match counts with
  | [] => [(key, 1%nat)]
  | (k, n) :: rest =>
      if py_eq k key then (k, S n) :: rest else (k, n) :: bump key rest
  end.

Module UatStats.

Record t : Type := mk {
  total : nat;
  by_status : list (Value * nat);
  by_result : list (Value * nat);
  by_category : list (Value * nat);
  completed : nat;
  in_progress : nat;
  passed : nat;
  failed : nat;
  pending : nat
}.

End UatStats.

(** The body of the loop of [get_uat_statistics]. *)
Definition count_uat_record (stats : UatStats.t) (record : Dict)
  : UatStats.t :=
  let status := get_or record "status" (VStr "Unknown") in
  let result := get_or record "result" (VStr "Unknown") in
  let category := get_or record "category_type" (VStr "Unknown") in
  UatStats.mk
    (UatStats.total stats)
    (bump status (UatStats.by_status stats))
    (bump result (UatStats.by_result stats))
    (bump category (UatStats.by_category stats))
    (if py_eq status (VStr "Completed")
     then S (UatStats.completed stats) else UatStats.completed stats)
    (if py_eq status (VStr "Completed") then UatStats.in_progress stats
     else if py_eq status (VStr "In Progress")
     then S (UatStats.in_progress stats) else UatStats.in_progress stats)
    (if py_eq result (VStr "Pass")
     then S (UatStats.passed stats) else UatStats.passed stats)
    (if py_eq result (VStr "Pass") then UatStats.failed stats
     else if py_eq result (VStr "Fail")
     then S (UatStats.failed stats) else UatStats.failed stats)
    (if py_eq result (VStr "Pass") then UatStats.pending stats
     else if py_eq result (VStr "Fail") then UatStats.pending stats
     else if py_eq result (VStr "Pending")
     then S (UatStats.pending stats) else UatStats.pending stats).

Definition get_uat_statistics (records : list Dict) : UatStats.t :=
  fold_left count_uat_record records
    (UatStats.mk (length records) [] [] [] 0 0 0 0 0).

(** The number of records whose field, [Unknown] when absent, is the
    text. *)
Definition number_with (field text : string) (records : list Dict) : nat :=
  length
    (List.filter
       (fun r => py_eq (get_or r field (VStr "Unknown")) (VStr text))
       records).

(** The sum of the counters of a dict. *)
Definition counted_in (counts : list (Value * nat)) : nat :=
  list_sum (List.map snd counts).

(** A dict of counters that add up to [n]: its keys are pairwise
    different and every counter is positive. *)
Definition counters_ok (counts : list (Value * nat)) (n : nat) : Prop :=
  counted_in counts = n
  /\ pairwise_distinct (List.map fst counts)
  /\ Forall (fun c => (0 < snd c)%nat) counts.

(** * Properties *)

(** ** Lists *)

Lemma filter_none {A} (p q : A -> bool) (l : list A) :
  (forall x, p x = true -> q x = false) ->
  List.filter q (List.filter p l) = [].
Proof.
  intros Hpq. induction l as [|x l IH]; simpl; [done|].
  destruct (p x) eqn:Hp; simpl; [|done].
  by rewrite (Hpq x Hp).
Qed.

Lemma filter_all {A} (p q : A -> bool) (l : list A) :
  (forall x, p x = true -> q x = true) ->
  List.filter q (List.filter p l) = List.filter p l.
Proof.
  intros Hpq. induction l as [|x l IH]; simpl; [done|].
  destruct (p x) eqn:Hp; simpl; [|done].
  by rewrite (Hpq x Hp), IH.
Qed.

Lemma filter_comm {A} (p q : A -> bool) (l : list A) :
  List.filter q (List.filter p l) = List.filter p (List.filter q l).
Proof.
  induction l as [|x l IH]; simpl; [done|].
  destruct (p x) eqn:Hp, (q x) eqn:Hq; simpl; rewrite ?Hp, ?Hq, IH; done.
Qed.

(** ** Allocations and UAT records in one file *)

Lemma not_uat_filter (l : list Dict) :
  List.filter is_uat (List.filter (fun item => negb (is_uat item)) l) = [].
Proof. apply filter_none. intros x Hx. by destruct (is_uat x). Qed.

Lemma not_uat_filter_id (l : list Dict) :
  List.filter (fun item => negb (is_uat item))
    (List.filter (fun item => negb (is_uat item)) l)
  = List.filter (fun item => negb (is_uat item)) l.
Proof. by apply filter_all. Qed.

Lemma save_allocations_file (allocations : list Dict) (w : World) :
  writable w = true ->
  _save_allocations allocations w
  = (true, write_allocations
             (List.filter is_uat (allocations_json w) ++ allocations) w).
Proof. intros Hw. unfold _save_allocations, _save_all_data. by rewrite Hw. Qed.

Lemma save_allocations_locked (allocations : list Dict) (w : World) :
  writable w = false -> _save_allocations allocations w = (false, w).
Proof. intros Hw. unfold _save_allocations, _save_all_data. by rewrite Hw. Qed.

(** What a save of allocations leaves of the UAT-typed entries. *)
Lemma save_allocations_uat (allocations : list Dict) (w : World) :
  List.filter is_uat (allocations_json (snd (_save_allocations allocations w)))
  = List.filter is_uat (allocations_json w)
    ++ (if writable w then List.filter is_uat allocations else []).
Proof.
  destruct (writable w) eqn:Hw.
  - rewrite save_allocations_file by done. simpl.
    rewrite List.filter_app. f_equal. by apply filter_all.
  - rewrite save_allocations_locked by done. simpl. by rewrite app_nil_r.
Qed.

Lemma save_allocations_other_files (allocations : list Dict) (w : World) :
  uat_records_json (snd (_save_allocations allocations w)) = uat_records_json w.
Proof.
  unfold _save_allocations, _save_all_data. by destruct (writable w).
Qed.

Lemma created_allocation_not_uat (d : Dict) :
  is_uat (<["record_type" := VStr "allocation"]> d) = false.
Proof. unfold is_uat, get. by rewrite lookup_insert_eq. Qed.

Lemma update_first_uat {A} (p q : A -> bool) (f : A -> A) (l l' : list A) :
  update_first p f l = Some l' ->
  (forall x, In x l -> q x = false) ->
  (forall x, q x = false -> q (f x) = false) ->
  List.filter q l' = [].
Proof.
  revert l'. induction l as [|x l IH]; intros l' Hup Hl Hf; simpl in Hup; [done|].
  assert (Hrest : forall z, In z l -> q z = false)
    by (intros z Hz; apply Hl; by right).
  destruct (p x).
  - injection Hup as <-. simpl. rewrite Hf by (apply Hl; by left).
    clear IH Hl. induction l as [|y l IH]; simpl; [done|].
    rewrite (Hrest y) by (by left). apply IH. intros z Hz. apply Hrest. by right.
  - destruct (update_first p f l) as [r|] eqn:Hr; [|done].
    injection Hup as <-. simpl. rewrite (Hl x) by (by left).
    by apply IH.
Qed.

Lemma outcome_of_save {A} (r : bool * World) (ok ko : A) :
  snd (match r with
       | (true, w') => (ok, w')
       | (false, w') => (ko, w')
       end) = snd r.
Proof. by destruct r as [[] ?]. Qed.

Lemma updated_allocation_not_uat (a updated_data : Dict) (u t : string) :
  is_uat a = false -> is_uat updated_data = false ->
  is_uat (<["updated_at" := VStr t]>
            (<["updated_by" := VStr u]> (update a updated_data))) = false.
Proof.
  unfold is_uat, get, update. intros Ha Hd.
  rewrite lookup_insert_ne by done. rewrite lookup_insert_ne by done.
  rewrite lookup_union.
  destruct (updated_data !! "record_type") as [v|] eqn:Hv; simpl in *.
  - destruct (a !! "record_type"); simpl; done.
  - destruct (a !! "record_type"); simpl; done.
Qed.

Lemma allocation_entries_not_uat (w : World) (x : Dict) :
  In x (_load_allocations w) -> is_uat x = false.
Proof.
  unfold _load_allocations. rewrite List.filter_In. intros [_ H].
  by destruct (is_uat x).
Qed.

(** C1. Saving the allocation collection, as create, update and delete
    of an allocation do, leaves every UAT-typed entry of the allocations
    file in place and unchanged; saving the UAT collection, as create,
    update and delete of a UAT record do, writes the UAT records file
    and leaves the allocations file, hence each of its allocation-typed
    entries, as it was.  Creating an allocation in a file of 3 allocation
    and 2 UAT entries yields 4 allocation and 2 UAT entries. *)
Theorem coresident_entries_preserved (w : World) :
  (forall data username now,
     let w' := snd (create_allocation_record data username now w) in
     uat_entries w' = uat_entries w) /\
  (forall id data username now,
     let w' := snd (update_allocation_record id data username now w) in
     (exists converted, uat_entries w' = uat_entries w ++ converted) /\
     (is_uat data = false -> uat_entries w' = uat_entries w)) /\
  (forall id,
     uat_entries (snd (delete_allocation_record id w)) = uat_entries w) /\
  (forall allocations,
     Forall (fun a => is_uat a = false) allocations ->
     uat_entries (snd (_save_allocations allocations w)) = uat_entries w) /\
  (forall records,
     allocations_json (snd (_save_uat_records records w)) = allocations_json w) /\
  (forall data username now id,
     allocations_json (snd (create_uat_record data username now w))
     = allocations_json w /\
     allocations_json (snd (update_uat_record id data username now w))
     = allocations_json w /\
     allocations_json (snd (delete_uat_record id w)) = allocations_json w) /\
  (forall data username now,
     writable w = true ->
     length (allocation_entries w) = 3%nat ->
     length (uat_entries w) = 2%nat ->
     let w' := snd (create_allocation_record data username now w) in
     fst (fst (create_allocation_record data username now w)) = true /\
     length (allocation_entries w') = 4%nat /\
     length (uat_entries w') = 2%nat).
Proof.
  assert (Hsave : forall allocations,
             Forall (fun a => is_uat a = false) allocations ->
             uat_entries (snd (_save_allocations allocations w)) = uat_entries w).
  { intros allocations Hall. unfold uat_entries.
    rewrite save_allocations_uat.
    replace (List.filter is_uat allocations) with (@nil Dict).
    - destruct (writable w); by rewrite app_nil_r.
    - symmetry. induction Hall as [|a l Ha _ IH]; simpl; [done|].
      by rewrite Ha. }
  assert (Hloaded : Forall (fun a => is_uat a = false) (_load_allocations w)).
  { apply List.Forall_forall. apply allocation_entries_not_uat. }
  assert (Hcreate : forall data username now,
             uat_entries (snd (create_allocation_record data username now w))
             = uat_entries w).
  { intros. unfold create_allocation_record. rewrite outcome_of_save.
    apply Hsave. apply Forall_app. split; [done|].
    constructor; [apply created_allocation_not_uat | constructor]. }
  split; [exact Hcreate|].
  split.
  { intros id data username now. unfold update_allocation_record. cbv zeta.
    destruct (update_first _ _ _) as [l'|] eqn:Hup.
    - rewrite outcome_of_save. unfold uat_entries.
      rewrite save_allocations_uat. split.
      + eexists. reflexivity.
      + intros Hdata.
        rewrite (update_first_uat _ is_uat _ _ _ Hup).
        * destruct (writable w); by rewrite app_nil_r.
        * apply allocation_entries_not_uat.
        * intros x Hx. by apply updated_allocation_not_uat.
    - simpl. split; [exists []; by rewrite app_nil_r | done]. }
  split.
  { intros id. unfold delete_allocation_record. cbv zeta.
    destruct (Nat.eqb _ _); [done|].
    rewrite outcome_of_save. apply Hsave.
    apply List.Forall_forall. intros x Hx. apply List.filter_In in Hx as [Hx _].
    by apply (allocation_entries_not_uat w). }
  split; [exact Hsave|].
  split.
  { intros records. unfold _save_uat_records. by destruct (writable w). }
  split.
  { intros data username now id. repeat split.
    - unfold create_uat_record.
      destruct (missing_required data); [done|].
      destruct (_ && _); [done|].
      destruct (uat_fields data); [|done].
      rewrite outcome_of_save. unfold _save_uat_records.
      by destruct (writable w).
    - unfold update_uat_record.
      destruct (_ && _); [done|].
      generalize (@nil Dict) as seen.
      induction (_load_uat_records w) as [|r rest IH]; intros seen; simpl; [done|].
      destruct (has_id id r); [|apply IH].
      destruct (uat_fields data); [|done].
      rewrite outcome_of_save. unfold _save_uat_records.
      by destruct (writable w).
    - unfold delete_uat_record. cbv zeta.
      destruct (Nat.ltb _ _); [|done].
      rewrite outcome_of_save. unfold _save_uat_records.
      by destruct (writable w). }
  intros data username now Hw Ha Hu. simpl.
  split; [|split].
  - unfold create_allocation_record.
    by rewrite save_allocations_file.
  - unfold create_allocation_record. rewrite save_allocations_file by done.
    unfold allocation_entries, _load_allocations, _load_all_data in *. simpl.
    rewrite !List.filter_app, not_uat_filter_id.
    rewrite (filter_none is_uat) by (intros x Hx; by rewrite Hx).
    simpl. rewrite created_allocation_not_uat. simpl.
    rewrite length_app, Ha. done.
  - by rewrite Hcreate.
Qed.

Lemma coresident_entries_preserved_witness :
  let data : Dict := {[ "trial_id" := VStr "NN7777-0003" ]} in
  let w' := snd (create_allocation_record data "meera" noon shared_world) in
  (fst (fst (create_allocation_record data "meera" noon shared_world)) = true /\
   length (allocation_entries w') = 4%nat /\
   length (uat_entries w') = 2%nat) /\
  uat_entries
    (snd (update_allocation_record "20240103090000" data "meera" noon shared_world))
  = uat_entries shared_world.
Proof.
  pose proof (coresident_entries_preserved shared_world)
    as (_ & Hupdate & _ & _ & _ & _ & Hcount).
  split.
  - apply Hcount; vm_compute; reflexivity.
  - apply Hupdate. vm_compute. reflexivity.
Defined.

(** ** Searching allocations *)

Lemma py_eq_str (v : Value) (s : string) :
  py_eq v (VStr s) = true <-> v = VStr s.
Proof.
  destruct v as [|b|z|q|t]; simpl; try (split; [done | discriminate]).
  rewrite String.eqb_eq. split; congruence.
Qed.

Lemma get_str (d : Dict) (k s : string) :
  py_eq (get d k) (VStr s) = true <-> d !! k = Some (VStr s).
Proof.
  rewrite py_eq_str. unfold get.
  destruct (d !! k); simpl; split; congruence.
Qed.

(** C8. With only a trial-id filter, [search_allocations] keeps the
    allocations whose trial id equals the filter value: a value that
    differs in letter case, or is only a part of a stored trial id,
    selects nothing, where the case-insensitive substring match of the
    dashboard routes selects the allocation. *)
Theorem search_trial_id_is_exact (strptime : Value -> option Z) :
  (forall (t : string) (w : World),
     t <> EmptyString -> t <> "All" ->
     search_allocations strptime
       (mkFilters {[ "trial_id" := VStr t ]} NoBound NoBound) w
     = Some (List.filter (fun a => py_eq (get a "trial_id") (VStr t))
                         (_load_allocations w))) /\
  search_allocations strptime
    (mkFilters {[ "trial_id" := VStr "nn1234" ]} NoBound NoBound) shared_world
  = Some [] /\
  search_allocations strptime
    (mkFilters {[ "trial_id" := VStr "nn1234-5678" ]} NoBound NoBound) shared_world
  = Some [] /\
  filter_raising (trial_id_matches "nn1234") (_load_allocations shared_world)
  = Some [alloc "20240101090000" "NN1234-5678"] /\
  filter_raising (trial_id_matches "nn1234-5678") (_load_allocations shared_world)
  = Some [alloc "20240101090000" "NN1234-5678"].
Proof.
  assert (Hexact : forall (t : string) (w : World),
     t <> EmptyString -> t <> "All" ->
     search_allocations strptime
       (mkFilters {[ "trial_id" := VStr t ]} NoBound NoBound) w
     = Some (List.filter (fun a => py_eq (get a "trial_id") (VStr t))
                         (_load_allocations w))).
  { intros t w Hne Hall. unfold search_allocations, filter_given, get. simpl.
    rewrite !lookup_singleton_ne by done. rewrite lookup_singleton_eq. simpl.
    destruct (String.eqb_spec t EmptyString) as [->|_]; [done|].
    destruct (String.eqb_spec t "All") as [->|_]; [done|]. done. }
  split; [exact Hexact|].
  split; [rewrite Hexact by done; vm_compute; reflexivity|].
  split; [rewrite Hexact by done; vm_compute; reflexivity|].
  split; vm_compute; reflexivity.
Qed.

(** ** Pending registrations *)

Lemma names_py_eq (username : string) (u : Dict) :
  py_eq (get u "username") (VStr username) = true <-> names username u.
Proof. apply get_str. Qed.

(** C10. Provided the pending list saves, rejecting a pending
    registration reports success for every username, also one without an
    entry in the list; the list it leaves holds, in their order and
    unchanged, the entries that do not name the user, and only those. *)
Theorem reject_pending_user_removes_named (username : string) (w : World) :
  writable w = true ->
  let out := reject_pending_user username w in
  fst out = (true, "Registration for '" +:+ username +:+ "' rejected") /\
  pending_users_json (snd out)
  = List.filter (fun u => negb (py_eq (get u "username") (VStr username)))
                (pending_users_json w) /\
  (forall u, In u (pending_users_json (snd out))
             <-> In u (pending_users_json w) /\ ~ names username u) /\
  ((forall u, In u (pending_users_json w) -> ~ names username u) ->
   pending_users_json (snd out) = pending_users_json w).
Proof.
  intros Hw. unfold reject_pending_user, _save_pending_users, _load_pending_users.
  rewrite Hw. simpl. split; [done|]. split; [done|]. split.
  - intros u. rewrite List.filter_In, negb_true_iff, <- names_py_eq.
    destruct (py_eq _ _); split; intros [? ?]; split; congruence.
  - intros Hnone. induction (pending_users_json w) as [|u l IH]; simpl; [done|].
    destruct (py_eq (get u "username") (VStr username)) eqn:Hu; simpl.
    + exfalso. apply (Hnone u); [by left|]. by apply names_py_eq.
    + f_equal. apply IH. intros v Hv. apply Hnone. by right.
Qed.

Lemma reject_pending_user_removes_named_witness :
  fst (reject_pending_user "asha" pending_world)
  = (true, "Registration for 'asha' rejected") /\
  pending_users_json (snd (reject_pending_user "asha" pending_world))
  = [pending "ravi" "ravi@example.com"] /\
  fst (reject_pending_user "nobody" pending_world)
  = (true, "Registration for 'nobody' rejected") /\
  pending_users_json (snd (reject_pending_user "nobody" pending_world))
  = pending_users_json pending_world.
Proof.
  destruct (reject_pending_user_removes_named "asha" pending_world eq_refl)
    as (Hok & Hlist & _ & _).
  destruct (reject_pending_user_removes_named "nobody" pending_world eq_refl)
    as (Hok' & _ & _ & Hsame).
  split; [exact Hok|]. split; [rewrite Hlist; vm_compute; reflexivity|].
  split; [exact Hok'|]. apply Hsame.
  apply (proj1 (List.Forall_forall (fun u => ~ names "nobody" u) _)).
  change (pending_users_json pending_world) with pending_list.
  unfold pending_list, names.
  repeat constructor; vm_compute; discriminate.
Defined.

(** ** Deleting users *)

Lemma filter_length_perm {A} (p : A -> bool) (l l' : list A) :
  l ≡ₚ l' -> length (List.filter p l) = length (List.filter p l').
Proof.
  induction 1 as [|x l l' _ IH|x y l|l l' l'' _ IH1 _ IH2]; simpl.
  - done.
  - destruct (p x); simpl; by rewrite IH.
  - destruct (p x), (p y); done.
  - by rewrite IH1.
Qed.

Lemma superuser_count_delete (users : gmap string UserEntry)
    (username : string) (entry : UserEntry) :
  users !! username = Some entry ->
  superuser_count users
  = ((if entry_is_superuser entry then 1 else 0)
     + superuser_count (delete username users))%nat.
Proof.
  intros Hu. unfold superuser_count.
  rewrite <- (filter_length_perm _ _ _ (map_to_list_delete users username entry Hu)).
  simpl. by destruct (entry_is_superuser entry).
Qed.

Lemma superusers_of_ret (items : list (string * UserEntry)) (l : list string) :
  superusers_of items = Ret l ->
  l = List.map fst (List.filter (fun item => entry_is_superuser (snd item)) items)
  /\ Forall (fun item => is_object (snd item)) items.
Proof.
  revert l. induction items as [|[u e] items IH]; intros l H; simpl in *.
  - injection H as <-. by split.
  - destruct e as [data|v]; [|done].
    unfold mbind, res_bind in H.
    destruct (superusers_of items) as [l'|] eqn:Hl; [|done].
    destruct (IH l' eq_refl) as [-> Hall]. injection H as <-.
    split; [|by constructor]. simpl. by destruct (is_superuser data).
Qed.

Lemma superusers_of_objects (items : list (string * UserEntry)) :
  Forall (fun item => is_object (snd item)) items ->
  superusers_of items
  = Ret (List.map fst
           (List.filter (fun item => entry_is_superuser (snd item)) items)).
Proof.
  induction 1 as [|[u e] items He _ IH]; simpl; [done|].
  destruct e as [data|v]; [|done].
  rewrite IH. unfold mbind, res_bind. simpl. by destruct (is_superuser data).
Qed.

Lemma superusers_length (users : gmap string UserEntry) :
  length (List.map fst
            (List.filter (fun item => entry_is_superuser (snd item))
                         (map_to_list users)))
  = superuser_count users.
Proof. unfold superuser_count. by rewrite length_map. Qed.

Lemma superusers_elem (users : gmap string UserEntry) (username : string) :
  username ∈ List.map fst
               (List.filter (fun item => entry_is_superuser (snd item))
                            (map_to_list users))
  <-> exists entry, users !! username = Some entry
                    /\ entry_is_superuser entry = true.
Proof.
  rewrite list_elem_of_In, List.in_map_iff. split.
  - intros [[u e] [<- Hin]]. apply List.filter_In in Hin as [Hin He].
    exists e. split; [|done]. apply elem_of_map_to_list.
    by apply list_elem_of_In.
  - intros [e [Hu He]]. exists (username, e). split; [done|].
    apply List.filter_In. split; [|done].
    apply list_elem_of_In. by apply elem_of_map_to_list.
Qed.

Lemma protected_eqb (username : string) :
  String.eqb username "superuser" || String.eqb username "admin" = true
  <-> protected_username username.
Proof.
  unfold protected_username.
  rewrite orb_true_iff, !String.eqb_eq. done.
Qed.

(** A call of [delete_user] either fails and leaves the data directory
    as it was, or deletes an existing, unprotected account that is not
    the only superuser. *)
Lemma delete_user_outcome (fl : FloatUnit) (username : string) (w : World) :
  let out := delete_user fl username w in
  (fst (fst out) = false /\ snd out = w) \/
  (fst (fst out) = true /\
   snd out = write_users (delete username (users_json w)) w /\
   ~ protected_username username /\
   exists entry, users_json w !! username = Some entry /\
     ~ (superuser_count (users_json w) = 1%nat
        /\ entry_is_superuser entry = true)).
Proof.
  unfold delete_user, _load_users, _save_users. cbv zeta.
  destruct (users_json w !! username) as [entry|] eqn:Hu; [|by left].
  destruct (String.eqb username "superuser" || String.eqb username "admin")
    eqn:Hp; [by left|].
  destruct (superusers_of (map_to_list (users_json w))) as [l|] eqn:Hl;
    [|by left].
  apply superusers_of_ret in Hl as [-> Hobj].
  rewrite superusers_length.
  destruct (Nat.eqb (superuser_count (users_json w)) 1
            && bool_decide (username ∈ _)) eqn:Hlast; [by left|].
  destruct (writable w); [|by left].
  right. simpl. split; [done|]. split; [done|]. split.
  - rewrite <- protected_eqb. by rewrite Hp.
  - exists entry. split; [done|]. intros [Hone Hsu].
    apply andb_false_iff in Hlast as [Hlast|Hlast].
    + rewrite Hone in Hlast. done.
    + apply bool_decide_eq_false in Hlast. apply Hlast.
      apply superusers_elem. by exists entry.
Qed.

(** C3. Deleting a user fails, with an explicit message and no change
    to the store, when the username is [superuser] or [admin], and fails
    when the account is the only one whose role is [superuser]; with two
    or more superuser accounts, deleting one whose username is not
    protected succeeds when every entry of the users file is an object
    and the file saves.  Every delete leaves at least one superuser
    account when there was one. *)
Theorem delete_user_keeps_a_superuser (fl : FloatUnit) (username : string)
    (w : World) :
  let out := delete_user fl username w in
  (protected_username username ->
   fst (fst out) = false /\ snd out = w /\
   snd (fst out) = match users_json w !! username with
                   | Some _ => "Cannot delete system admin accounts"
                   | None => "User not found"
                   end) /\
  (forall entry,
     users_json w !! username = Some entry ->
     entry_is_superuser entry = true ->
     superuser_count (users_json w) = 1%nat ->
     fst (fst out) = false /\ snd out = w /\
     (~ protected_username username ->
      map_Forall (fun _ e => is_object e) (users_json w) ->
      snd (fst out) = "Cannot delete the last superuser")) /\
  (forall entry,
     users_json w !! username = Some entry ->
     entry_is_superuser entry = true ->
     (2 <= superuser_count (users_json w))%nat ->
     ~ protected_username username ->
     map_Forall (fun _ e => is_object e) (users_json w) ->
     writable w = true ->
     fst (fst out) = true /\
     snd out = write_users (delete username (users_json w)) w) /\
  ((1 <= superuser_count (users_json w))%nat ->
   (1 <= superuser_count (users_json (snd out)))%nat).
Proof.
  cbv zeta. split; [|split; [|split]].
  - intros Hp. apply protected_eqb in Hp.
    unfold delete_user, _load_users. cbv zeta.
    destruct (users_json w !! username); [|done]. by rewrite Hp.
  - intros entry Hu Hsu Hone.
    destruct (delete_user_outcome fl username w)
      as [[Hf Hw]|(_ & _ & _ & e & He & Hnot)].
    + split; [done|]. split; [done|]. intros Hp Hobj.
      unfold delete_user, _load_users. cbv zeta. rewrite Hu.
      destruct (String.eqb username "superuser" || String.eqb username "admin")
        eqn:Hpb; [by apply protected_eqb in Hpb|].
      rewrite superusers_of_objects.
      * rewrite superusers_length, Hone. simpl.
        rewrite bool_decide_eq_true_2; [done|].
        apply superusers_elem. by exists entry.
      * apply List.Forall_forall. intros [u e] Hin. simpl.
        apply (Hobj u e). apply elem_of_map_to_list. by apply list_elem_of_In.
    + exfalso. apply Hnot. rewrite Hu in He. injection He as <-. done.
  - intros entry Hu Hsu Htwo Hp Hobj Hw.
    unfold delete_user, _load_users, _save_users. cbv zeta. rewrite Hu.
    destruct (String.eqb username "superuser" || String.eqb username "admin")
      eqn:Hpb; [by apply protected_eqb in Hpb|].
    rewrite superusers_of_objects.
    + rewrite superusers_length.
      destruct (Nat.eqb_spec (superuser_count (users_json w)) 1) as [H1|_]; [lia|].
      simpl. by rewrite Hw.
    + apply List.Forall_forall. intros [u e] Hin. simpl.
      apply (Hobj u e). apply elem_of_map_to_list. by apply list_elem_of_In.
  - intros Hone.
    destruct (delete_user_outcome fl username w)
      as [[_ ->]|(_ & -> & _ & e & He & Hnot)]; [done|].
    simpl. rewrite (superuser_count_delete _ _ _ He) in Hone.
    rewrite (superuser_count_delete _ _ _ He) in Hnot.
    destruct (entry_is_superuser e); [|exact Hone].
    destruct (superuser_count (delete username (users_json w))); [|lia].
    exfalso. apply Hnot. done.
Qed.

Lemma delete_user_keeps_a_superuser_witness :
  (fst (delete_user no_floats "admin" one_superuser_world) = (false, "User not found")
   /\ snd (delete_user no_floats "admin" one_superuser_world) = one_superuser_world) /\
  (fst (delete_user no_floats "root" one_superuser_world)
   = (false, "Cannot delete the last superuser")
   /\ snd (delete_user no_floats "root" one_superuser_world) = one_superuser_world) /\
  (fst (fst (delete_user no_floats "root" two_superusers_world)) = true
   /\ superuser_count
        (users_json (snd (delete_user no_floats "root" two_superusers_world)))
      = 1%nat).
Proof.
  destruct (delete_user_keeps_a_superuser no_floats "admin" one_superuser_world)
    as (Hprot & _ & _ & _).
  destruct (delete_user_keeps_a_superuser no_floats "root" one_superuser_world)
    as (_ & Hlast & _ & _).
  destruct (delete_user_keeps_a_superuser no_floats "root" two_superusers_world)
    as (_ & _ & Htwo & Hinv).
  split; [|split].
  - destruct Hprot as (H1 & H2 & H3); [by right|]. split; [|done].
    rewrite (surjective_pairing (fst _)). by rewrite H1, H3.
  - destruct (Hlast (account "superuser")) as (H1 & H2 & H3);
      [by vm_compute..|].
    split; [|done]. rewrite (surjective_pairing (fst _)). rewrite H1, H3; [done| |].
    + intros [H|H]; discriminate H.
    + apply map_Forall_to_list. vm_compute. repeat constructor.
  - destruct (Htwo (account "superuser")) as (H1 & H2).
    + by vm_compute.
    + by vm_compute.
    + vm_compute. lia.
    + intros [H|H]; discriminate H.
    + apply map_Forall_to_list. vm_compute. repeat constructor.
    + done.
    + split; [done|]. rewrite H2. by vm_compute.
Defined.

(** ** Authentication *)

(** C9, as stated, fails: an account without [is_active] whose [status]
    is [suspended] does not log in with the right password. *)
Lemma suspended_account_is_refused : ~ missing_key_always_authenticates.
Proof.
  intros H.
  specialize (H sample_hash "ravi" "s3cret" suspended_account accounts_world).
  assert (Hnone : authenticate_user sample_hash "ravi" "s3cret" accounts_world = None)
    by (vm_compute; reflexivity).
  rewrite Hnone in H.
  destruct H as [x Hx]; [by vm_compute | by left | by vm_compute | discriminate].
Qed.

(** C9, amended. Authentication reads a missing [is_active] as true and
    a missing [status] as [active]: an account logs in exactly when the
    hash of the supplied password matches the stored hash, [is_active]
    is missing or truthy, and [status] is missing or [active]; so an
    account that lacks both keys logs in whenever the hash matches.  The
    identity returned is the record without its [password], with
    [username] set and [is_audit_reviewer] defaulted to false. *)
Theorem authenticate_defaults_missing_keys (hash_password : string -> string)
    (username password : string) (user : Dict) (w : World) :
  users_json w !! username = Some (UDict user) ->
  (is_Some (authenticate_user hash_password username password w)
   <-> hash_matches hash_password user password
       /\ active_or_missing user /\ status_active_or_missing user) /\
  (user !! "is_active" = None -> user !! "status" = None ->
   hash_matches hash_password user password ->
   is_Some (authenticate_user hash_password username password w)) /\
  (forall identity,
     authenticate_user hash_password username password w = Some identity ->
     identity !! "password" = None /\
     identity !! "username" = Some (VStr username) /\
     identity !! "is_audit_reviewer"
     = Some (default (VBool false) (user !! "is_audit_reviewer")) /\
     (forall k, k <> "password" -> k <> "username" -> k <> "is_audit_reviewer" ->
                identity !! k = user !! k)).
Proof.
  intros Hu.
  assert (Hiff : is_Some (authenticate_user hash_password username password w)
            <-> hash_matches hash_password user password
                /\ active_or_missing user /\ status_active_or_missing user).
  { unfold authenticate_user, _load_users, hash_matches, active_or_missing,
      status_active_or_missing, get_or. rewrite Hu. cbv zeta.
    destruct (py_eq (default (VStr EmptyString) (user !! "password")) _);
      simpl; [|split; [intros [? ?]; done | intros [? _]; done]].
    destruct (user !! "is_active") as [a|]; simpl.
    - destruct (truthy a); simpl;
        [|split; [intros [? ?]; done | intros (_ & ? & _); done]].
      destruct (user !! "status") as [s|]; simpl.
      + destruct (py_eq s (VStr "active")) eqn:Hs; simpl.
        * apply py_eq_str in Hs. split; [done | intros _; by eexists].
        * split; [intros [? ?]; done|]. intros (_ & _ & ->). done.
      + split; [done | intros _; by eexists].
    - destruct (user !! "status") as [s|]; simpl.
      + destruct (py_eq s (VStr "active")) eqn:Hs; simpl.
        * apply py_eq_str in Hs. split; [done | intros _; by eexists].
        * split; [intros [? ?]; done|]. intros (_ & _ & ->). done.
      + split; [done | intros _; by eexists]. }
  split; [exact Hiff|]. split.
  - intros Ha Hs Hh. apply Hiff. unfold active_or_missing, status_active_or_missing.
    by rewrite Ha, Hs.
  - intros identity. unfold authenticate_user, _load_users. rewrite Hu. cbv zeta.
    destruct (negb (py_eq _ _)); [done|].
    destruct (negb (truthy _)); [done|].
    destruct (negb (py_eq _ _)); [done|].
    intros [= <-]. unfold get_or. repeat split.
    + rewrite lookup_insert_ne by done. rewrite lookup_insert_ne by done.
      apply lookup_delete_eq.
    + rewrite lookup_insert_ne by done. apply lookup_insert_eq.
    + apply lookup_insert_eq.
    + intros k H1 H2 H3. rewrite !lookup_insert_ne by done.
      by rewrite lookup_delete_ne.
Qed.

Lemma authenticate_defaults_missing_keys_witness :
  is_Some (authenticate_user sample_hash "meera" "s3cret" accounts_world) /\
  authenticate_user sample_hash "ravi" "s3cret" accounts_world = None.
Proof.
  destruct (authenticate_defaults_missing_keys sample_hash "meera" "s3cret"
              legacy_account accounts_world) as (_ & Hlegacy & _).
  - vm_compute. reflexivity.
  - split.
    + apply Hlegacy; vm_compute; reflexivity.
    + vm_compute. reflexivity.
Defined.

(** ** TMF/Vault id uniqueness *)





(** ** The reason for a date difference *)

Lemma has_date_difference_iff (uat_data : Dict) :
  has_date_difference uat_data = true <-> dates_differ uat_data.
Proof.
  unfold has_date_difference, dates_differ, differs_from_planned.
  rewrite orb_true_iff, !andb_true_iff, !negb_true_iff. done.
Qed.

Lemma required_message_differs (uat_data : Dict) (field : string) :
  missing_required uat_data = Some field ->
  title (replace_char "_" " " field) +:+ " is required" <> date_reason_message.
Proof.
  unfold missing_required. intros H. apply List.find_some in H as [Hin _].
  simpl in Hin.
  repeat (destruct Hin as [<-|Hin]; [vm_compute; discriminate|]).
  destruct Hin.
Qed.

Lemma update_uat_loop_message (record_id : string) (uat_data : Dict)
    (username : string) (now : Clock) (seen rest : list Dict) (w : World) :
  snd (fst (update_uat_loop record_id uat_data username now seen rest w))
  <> date_reason_message.
Proof.
  revert seen. induction rest as [|r rest IH]; intros seen; simpl; [done|].
  destruct (has_id record_id r); [|apply IH].
  destruct (uat_fields uat_data); [|done].
  unfold _save_uat_records. destruct (writable w); done.
Qed.

Lemma uat_fields_keys (uat_data : Dict) (fields : list (string * Value)) :
  uat_fields uat_data = Ret fields ->
  List.map fst fields
  = ["trial_id"; "uat_round"; "category"; "category_type";
     "planned_start_date"; "planned_end_date"; "actual_start_date";
     "actual_end_date"; "date_difference_reason"; "status"; "result";
     "email_body"].
Proof.
  unfold uat_fields, mbind, res_bind.
  repeat match goal with
         | |- context [match ?m with Ret _ => _ | Raise _ => _ end] =>
             destruct m; [|discriminate]
         end.
  intros [= <-]. reflexivity.
Qed.

(** C5. When a non-empty actual start or end date differs from the
    planned one and [date_difference_reason] is absent or empty, create
    and update of a UAT record fail with a validation message and write
    nothing; the message is the one that asks for the reason, unless
    create first misses a required field.  With a non-empty reason the
    same request is not rejected with that message, and a request that
    is otherwise complete is created. *)
Theorem uat_date_difference_needs_reason (uat_data : Dict)
    (username record_id : string) (now : Clock) (w : World) :
  dates_differ uat_data ->
  (no_reason uat_data ->
   let created := create_uat_record uat_data username now w in
   fst (fst created) = false /\ snd created = w /\
   snd (fst created)
   = match missing_required uat_data with
     | Some field => title (replace_char "_" " " field) +:+ " is required"
     | None => date_reason_message
     end /\
   update_uat_record record_id uat_data username now w
   = ((false, date_reason_message), w)) /\
  (~ no_reason uat_data ->
   snd (fst (create_uat_record uat_data username now w)) <> date_reason_message /\
   snd (fst (update_uat_record record_id uat_data username now w))
   <> date_reason_message /\
   (forall fields,
      missing_required uat_data = None ->
      uat_fields uat_data = Ret fields ->
      writable w = true ->
      exists record,
        create_uat_record uat_data username now w
        = ((true, "UAT record created successfully"),
           write_uat_records (uat_records_json w ++ [record]) w)
        /\ record !! "record_type" = Some (VStr "uat")
        /\ record !! "created_by" = Some (VStr username))).
Proof.
  intros Hdiff. apply has_date_difference_iff in Hdiff. unfold no_reason.
  split.
  - intros Hno. cbv zeta. unfold create_uat_record, update_uat_record.
    rewrite Hdiff, Hno. simpl.
    destruct (missing_required uat_data); done.
  - intros Hreason. apply not_false_is_true in Hreason.
    unfold create_uat_record, update_uat_record.
    rewrite Hdiff, Hreason. simpl. split; [|split].
    + destruct (missing_required uat_data) as [field|] eqn:Hm.
      * simpl. by apply (required_message_differs uat_data).
      * destruct (uat_fields uat_data); [|done].
        unfold _save_uat_records. destruct (writable w); done.
    + apply update_uat_loop_message.
    + intros fields -> Hf Hw. rewrite Hf.
      unfold _save_uat_records, _load_uat_records.
      rewrite Hw. eexists. split; [reflexivity|].
      apply uat_fields_keys in Hf.
      destruct fields as [|[k1 v1] [|[k2 v2] [|[k3 v3] [|[k4 v4] [|[k5 v5]
        [|[k6 v6] [|[k7 v7] [|[k8 v8] [|[k9 v9] [|[k10 v10] [|[k11 v11]
        [|[k12 v12] [|? ?]]]]]]]]]]]]]; try discriminate Hf.
      injection Hf as -> -> -> -> -> -> -> -> -> -> -> ->.
      split; reflexivity.
Qed.

Lemma uat_date_difference_needs_reason_witness :
  create_uat_record late_uat "meera" noon uat_world
  = ((false, date_reason_message), uat_world) /\
  update_uat_record "20240102090000" late_uat "meera" noon uat_world
  = ((false, date_reason_message), uat_world) /\
  fst (create_uat_record late_uat_with_reason "meera" noon uat_world)
  = (true, "UAT record created successfully").
Proof.
  assert (Hlate : dates_differ late_uat) by (right; split; vm_compute; reflexivity).
  assert (Hlate' : dates_differ late_uat_with_reason)
    by (right; split; vm_compute; reflexivity).
  destruct (uat_date_difference_needs_reason late_uat "meera" "20240102090000"
              noon uat_world Hlate) as [Hno _].
  destruct Hno as (Hfail & Hsame & Hmsg & Hupd); [vm_compute; reflexivity|].
  destruct (uat_date_difference_needs_reason late_uat_with_reason "meera"
              "20240102090000" noon uat_world Hlate') as [_ Hyes].
  destruct Hyes as (_ & _ & Hcreated); [vm_compute; discriminate|].
  split; [|split].
  - rewrite (surjective_pairing (create_uat_record _ _ _ _)).
    rewrite (surjective_pairing (fst (create_uat_record _ _ _ _))).
    rewrite Hfail, Hsame, Hmsg. reflexivity.
  - exact Hupd.
  - destruct (uat_fields late_uat_with_reason) as [fields|] eqn:Hf;
      [|vm_compute in Hf; discriminate].
    destruct (Hcreated fields) as (record & -> & _); [vm_compute; reflexivity..|].
    reflexivity.
Defined.

(** ** Requirement rounds *)

Lemma Qle_bool_inject (a b : Z) :
  Qle_bool (inject_Z a) (inject_Z b) = Z.leb a b.
Proof. unfold Qle_bool, inject_Z. simpl. by rewrite !Z.mul_1_r. Qed.

Lemma py_gt_int (v w : Value) (a b : Z) :
  as_int v = Some a -> as_int w = Some b ->
  py_gt v w = Ret (Z.ltb b a).
Proof.
  intros Hv Hw.
  assert (HQ : forall x c, as_int x = Some c -> as_Q x = Some (inject_Z c)).
  { intros [| | | |] c H; simpl in *; congruence. }
  unfold py_gt. rewrite (HQ _ _ Hv), (HQ _ _ Hw), Qle_bool_inject.
  rewrite Z.ltb_antisym.
  destruct v, w; simpl in *; done.
Qed.

(** The maximum of values that are integers: it is one of them and
    bounds them all. *)
Lemma py_max_int (first : Value) (rest : list Value) (a : Z) :
  as_int first = Some a ->
  Forall (fun v => is_Some (as_int v)) rest ->
  exists v m,
    py_max first rest = Ret v /\ as_int v = Some m /\
    (exists x, In x (first :: rest) /\ as_int x = Some m) /\
    (forall x z, In x (first :: rest) -> as_int x = Some z -> z <= m).
Proof.
  intros Ha Hrest. revert first a Ha.
  induction Hrest as [|item rest [b Hb] _ IH]; intros first a Ha.
  - exists first, a. simpl. repeat split; try done.
    + exists first. split; [by left | done].
    + intros x z [<-|[]] Hz. rewrite Ha in Hz. injection Hz as ->. lia.
  - simpl. rewrite (py_gt_int _ _ _ _ Hb Ha). unfold mbind, res_bind.
    destruct (Z.ltb_spec a b) as [Hlt|Hge].
    + destruct (IH item b Hb) as (v & m & Hmax & Hv & (x & Hx & Hxm) & Hbound).
      exists v, m. repeat split; try done.
      * exists x. split; [|done]. destruct Hx as [<-|Hx]; [right; by left|].
        right. by right.
      * intros y z [<-|[<-|Hy]] Hz.
        -- rewrite Ha in Hz. injection Hz as <-.
           specialize (Hbound item b (or_introl eq_refl) Hb). lia.
        -- apply (Hbound item); [by left | done].
        -- apply (Hbound y); [by right | done].
    + destruct (IH first a Ha) as (v & m & Hmax & Hv & (x & Hx & Hxm) & Hbound).
      exists v, m. repeat split; try done.
      * exists x. split; [|done]. destruct Hx as [<-|Hx]; [by left|].
        right. by right.
      * intros y z [<-|[<-|Hy]] Hz.
        -- apply (Hbound first); [by left | done].
        -- rewrite Hb in Hz. injection Hz as <-.
           specialize (Hbound first a (or_introl eq_refl) Ha). lia.
        -- apply (Hbound y); [by right | done].
Qed.

Lemma py_add1_int (fl : FloatUnit) (v : Value) (m : Z) :
  as_int v = Some m -> py_add1 fl v = Ret (VInt (m + 1)).
Proof. destruct v as [|[]| | |]; simpl; intros [= <-]; done. Qed.

Lemma round_records_counted (trial_id requirement_type : string)
    (wizard_records : list Dict) (w : World) (r : Dict) :
  In r (round_records (VStr trial_id) (VStr requirement_type) wizard_records w)
  <-> counted trial_id requirement_type wizard_records w r.
Proof.
  unfold round_records, counted, of_pair, of_type, _load_records.
  assert (Hp : In r (List.filter
                 (fun r => py_eq (get r "trial_id") (VStr trial_id)
                           && py_eq (get r "type_of_requirement")
                                    (VStr requirement_type))
                 (quality_records_json w))
               <-> In r (quality_records_json w)
                   /\ r !! "trial_id" = Some (VStr trial_id)
                   /\ r !! "type_of_requirement" = Some (VStr requirement_type)).
  { by rewrite List.filter_In, andb_true_iff, !get_str. }
  destruct wizard_records as [|x l].
  - rewrite Hp. simpl. intuition.
  - rewrite List.in_app_iff, Hp, List.filter_In, get_str. done.
Qed.

(** C7. Over records whose [requirement_round] is an integer or absent
    (read as 0), the round calculator returns 1 when there is neither a
    persisted record of the exact (trial, type) pair nor an in-flight
    record of the type, and otherwise one more than the largest
    [requirement_round] among those records.  A persisted record of
    another requirement type, for the same trial or not, does not change
    the result. *)
Theorem requirement_round_per_pair (fl : FloatUnit)
    (trial_id requirement_type : string) (wizard_records : list Dict)
    (w : World) :
  (forall r, counted trial_id requirement_type wizard_records w r ->
             is_Some (round_of r)) ->
  ((forall r, ~ counted trial_id requirement_type wizard_records w r) ->
   get_requirement_round fl (VStr trial_id) (VStr requirement_type)
     wizard_records w = Ret (VInt 1)) /\
  (forall r0, counted trial_id requirement_type wizard_records w r0 ->
   exists m,
     get_requirement_round fl (VStr trial_id) (VStr requirement_type)
       wizard_records w = Ret (VInt (m + 1)) /\
     (exists r, counted trial_id requirement_type wizard_records w r
                /\ round_of r = Some m) /\
     (forall r z, counted trial_id requirement_type wizard_records w r ->
                  round_of r = Some z -> z <= m)) /\
  (forall before other after,
     quality_records_json w = before ++ after ->
     ~ of_type requirement_type other ->
     get_requirement_round fl (VStr trial_id) (VStr requirement_type)
       wizard_records (write_quality_records (before ++ other :: after) w)
     = get_requirement_round fl (VStr trial_id) (VStr requirement_type)
         wizard_records w).
Proof.
  intros Hint. split; [|split].
  - intros Hnone. unfold get_requirement_round.
    destruct (round_records _ _ _ _) as [|r l] eqn:Hr; [done|].
    exfalso. apply (Hnone r). apply round_records_counted. rewrite Hr. by left.
  - intros r0 Hr0. unfold get_requirement_round.
    pose proof (round_records_counted trial_id requirement_type
                  wizard_records w) as Hcounted.
    destruct (round_records _ _ _ _) as [|r l] eqn:Hr.
    { apply Hcounted in Hr0. destruct Hr0. }
    simpl.
    assert (Hall : Forall (fun v => is_Some (as_int v))
                     (List.map (fun r => get_or r "requirement_round" (VInt 0))
                               (r :: l))).
    { apply List.Forall_forall. intros v Hv.
      apply List.in_map_iff in Hv as (x & <- & Hx).
      apply (Hint x). by apply Hcounted. }
    simpl in Hall. apply Forall_cons in Hall as [[a Ha] Hrest].
    destruct (py_max_int _ _ a Ha Hrest)
      as (v & m & Hmax & Hv & (x & Hx & Hxm) & Hbound).
    exists m. rewrite Hmax. unfold mbind, res_bind.
    split; [by apply py_add1_int|]. split.
    + change (In x (List.map (fun r => get_or r "requirement_round" (VInt 0))
                             (r :: l))) in Hx.
      apply List.in_map_iff in Hx as (y & <- & Hy).
      exists y. split; [by apply Hcounted | done].
    + intros y z Hy Hz. apply Hcounted in Hy.
      apply (Hbound (get_or y "requirement_round" (VInt 0))); [|done].
      change (In (get_or y "requirement_round" (VInt 0))
                (List.map (fun r => get_or r "requirement_round" (VInt 0))
                          (r :: l))).
      apply List.in_map_iff. by exists y.
  - intros before other after Hw Hother.
    unfold get_requirement_round, round_records, _load_records. simpl.
    rewrite Hw, !List.filter_app. simpl.
    destruct (py_eq (get other "type_of_requirement") (VStr requirement_type))
      eqn:Hty; [by apply get_str in Hty|].
    by rewrite andb_false_r.
Qed.

Lemma requirement_round_per_pair_witness :
  get_requirement_round no_floats (VStr "T3") (VStr "Forms") [] quality_world
  = Ret (VInt 1) /\
  get_requirement_round no_floats (VStr "T1") (VStr "Forms") [] quality_world
  = Ret (VInt 2) /\
  get_requirement_round no_floats (VStr "T1") (VStr "Forms") []
    (write_quality_records
       ([quality "T1" "Forms" 1] ++ quality "T1" "Listings" 9
          :: [quality "T1" "Editchecks" 4; quality "T2" "Forms" 7])
       quality_world)
  = get_requirement_round no_floats (VStr "T1") (VStr "Forms") [] quality_world.
Proof.
  assert (Hall : Forall (fun r => is_Some (round_of r)) quality_list)
    by (unfold quality_list; repeat constructor; vm_compute; eauto).
  assert (Hint : forall t r, counted t "Forms" [] quality_world r ->
                             is_Some (round_of r)).
  { intros t r [[Hin _]|[[] _]].
    by apply (proj1 (List.Forall_forall _ _) Hall). }
  destruct (requirement_round_per_pair no_floats "T3" "Forms" [] quality_world
              (Hint "T3")) as (Hnone & _ & _).
  destruct (requirement_round_per_pair no_floats "T1" "Forms" [] quality_world
              (Hint "T1")) as (_ & _ & Hother).
  split; [|split].
  - assert (Hno : Forall (fun r => r !! "trial_id" <> Some (VStr "T3"))
                     quality_list)
      by (unfold quality_list; repeat constructor; vm_compute; discriminate).
    apply Hnone. intros r [[Hin [Ht _]]|[[] _]].
    by apply (proj1 (List.Forall_forall _ _) Hno r).
  - vm_compute. reflexivity.
  - apply Hother; [reflexivity|]. vm_compute. discriminate.
Defined.

(** ** Creating quality records *)

Lemma convert_field_self (record : Dict) (field : string) :
  int_or_absent (convert_field record field) field.
Proof.
  unfold convert_field, int_or_absent.
  destruct (record !! field) as [v|] eqn:Hv; [|by left].
  right. destruct (py_int v); [|destruct (String.eqb _ _)];
    rewrite lookup_insert_eq; eauto.
Qed.

Lemma convert_field_other (record : Dict) (field k : string) :
  int_or_absent record k -> int_or_absent (convert_field record field) k.
Proof.
  intros Hk. destruct (decide (field = k)) as [->|Hne];
    [apply convert_field_self|].
  unfold convert_field, int_or_absent.
  destruct (record !! field) as [v|]; [|done].
  destruct (py_int v); [|destruct (String.eqb _ _)];
    by rewrite lookup_insert_ne.
Qed.

Lemma convert_fields_int (fields : list string) (record : Dict) (k : string) :
  In k fields \/ int_or_absent record k ->
  int_or_absent (fold_left convert_field fields record) k.
Proof.
  revert record. induction fields as [|f fields IH]; intros record; simpl.
  - intros [[]|H]. exact H.
  - intros [[->|Hin]|H]; apply IH.
    + right. apply convert_field_self.
    + by left.
    + right. by apply convert_field_other.
Qed.

Lemma prepared_fields_int (fl : FloatUnit) (record_data : Dict)
    (username : string) (utcnow : string * string) (w : World)
    (record : Dict) (k : string) :
  prepare_record fl record_data username utcnow w = Ret record ->
  In k numeric_fields -> int_or_absent record k.
Proof.
  unfold prepare_record, mbind, res_bind. intros H Hk.
  repeat match type of H with
         | match ?m with Ret _ => _ | Raise _ => _ end = _ =>
             destruct m; [|discriminate H]
         end.
  injection H as <-. apply convert_fields_int. by left.
Qed.

Lemma int_field_reads (record : Dict) (k : string) :
  int_or_absent record k ->
  py_int (get_or record k (VInt 0)) = Ret (coerced record k)
  /\ int_operand (get_or record k (VInt 0)) = Ret (coerced record k).
Proof.
  unfold int_or_absent, get_or, coerced. intros [->|[z ->]]; done.
Qed.

(** The checks, on a record whose numeric fields are converted. *)
Lemma validate_converted (record : Dict) :
  (forall k, In k numeric_fields -> int_or_absent record k) ->
  validate_record record
  = Ret (if Z.ltb (coerced record "total_requirements")
                  (coerced record "total_failures")
         then Some total_failures_message
         else if Z.ltb (coerced record "total_failures") (failure_sum record)
         then Some (failure_sum_message (failure_sum record))
         else None).
Proof.
  intros Hint. unfold validate_record, failure_sum, mbind, res_bind.
  assert (Hin : forall k, In k numeric_fields ->
                  py_int (get_or record k (VInt 0)) = Ret (coerced record k)
                  /\ int_operand (get_or record k (VInt 0))
                     = Ret (coerced record k))
    by (intros k Hk; by apply int_field_reads, Hint).
  destruct (Hin "total_failures") as [-> ->]; [simpl; tauto|].
  destruct (Hin "total_requirements") as [-> _]; [simpl; tauto|].
  destruct (Hin "spec_issue") as [_ ->]; [simpl; tauto|].
  destruct (Hin "mock_crf_issue") as [_ ->]; [simpl; tauto|].
  destruct (Hin "programming_issue") as [_ ->]; [simpl; tauto|].
  destruct (Hin "scripting_issue") as [_ ->]; [simpl; tauto|].
  destruct (Z.ltb _ _); [done|]. by destruct (Z.ltb _ _).
Qed.

(** C6, as stated, fails: with 12 failures for 10 requirements and 13
    reasons, the message is the one about the requirements, not the one
    that names the sum. *)
Lemma both_checks_violated : ~ sum_violation_names_the_sum.
Proof.
  intros H.
  specialize (H no_floats too_many_failures "meera" morning empty_world).
  assert (Hmsg : snd (fst (create_record no_floats too_many_failures "meera"
                             morning empty_world))
                 = total_failures_message) by (vm_compute; reflexivity).
  assert (Hnum : match prepare_record no_floats too_many_failures "meera"
                         morning empty_world with
                 | Ret r => Z.ltb (coerced r "total_failures") (failure_sum r)
                            && Z.eqb (failure_sum r) 13
                 | Raise _ => false
                 end = true) by (vm_compute; reflexivity).
  destruct (prepare_record no_floats too_many_failures "meera" morning
              empty_world) as [record|e]; [|discriminate Hnum].
  apply andb_true_iff in Hnum as [Hlt Hsum].
  apply Z.ltb_lt in Hlt. apply Z.eqb_eq in Hsum.
  rewrite (H record eq_refl Hlt), Hsum in Hmsg.
  vm_compute in Hmsg. discriminate Hmsg.
Qed.

(** What [create_record] does once the record is built. *)
Lemma create_record_prepared (fl : FloatUnit) (record_data : Dict)
    (username : string) (utcnow : string * string) (w : World)
    (record : Dict) :
  prepare_record fl record_data username utcnow w = Ret record ->
  create_record fl record_data username utcnow w
  = if Z.ltb (coerced record "total_requirements")
             (coerced record "total_failures")
    then ((false, total_failures_message), w)
    else if Z.ltb (coerced record "total_failures") (failure_sum record)
    then ((false, failure_sum_message (failure_sum record)), w)
    else match _save_records (_load_records w ++ [record]) w with
         | (true, w') =>
             ((true,
               "Quality record "
               +:+ match get record "record_id" with
                   | VStr s => s
                   | _ => EmptyString
                   end
               +:+ " created successfully"), w')
         | (false, w') => ((false, "Failed to save record"), w')
         end.
Proof.
  intros Hp.
  pose proof (validate_converted record
                (fun k => prepared_fields_int _ _ _ _ _ _ k Hp)) as Hv.
  unfold create_record. rewrite Hp.
  change (Ret record ≫= ?f) with (f record). cbv beta.
  rewrite Hv. change (Ret ?a ≫= ?f) with (f a). cbv beta.
  destruct (Z.ltb _ _); [done|]. by destruct (Z.ltb _ _).
Qed.

(** C6 (as amended). Once the record is built and its numeric fields
    are converted: if [total_failures] exceeds [total_requirements],
    creation fails and appends nothing; if the four reasons add up to
    more than [total_failures], creation fails and appends nothing, and,
    when [total_failures] does not exceed [total_requirements], its
    message names that sum.  A record that passes both checks is
    appended when the file saves, and every failed creation leaves the
    store as it was. *)
Theorem create_record_sum_checks (fl : FloatUnit) (record_data : Dict)
    (username : string) (utcnow : string * string) (w : World) :
  let out := create_record fl record_data username utcnow w in
  (fst (fst out) = false -> snd out = w) /\
  (forall record,
     prepare_record fl record_data username utcnow w = Ret record ->
     let requirements := coerced record "total_requirements" in
     let failures := coerced record "total_failures" in
     (requirements < failures ->
      out = ((false, total_failures_message), w)) /\
     (failures < failure_sum record ->
      fst (fst out) = false /\ snd out = w /\
      (failures <= requirements ->
       out = ((false, failure_sum_message (failure_sum record)), w))) /\
     (failures <= requirements -> failure_sum record <= failures ->
      writable w = true ->
      fst (fst out) = true /\
      quality_records_json (snd out) = quality_records_json w ++ [record])).
Proof.
  cbv zeta. split.
  - unfold create_record.
    destruct (prepare_record _ _ _ _ _ ≫= _) as [[record [m|]]|e];
      [reflexivity| |reflexivity].
    unfold _save_records. destruct (writable w); [discriminate | reflexivity].
  - intros record Hp. rewrite (create_record_prepared _ _ _ _ _ _ Hp).
    split; [|split].
    + intros Hlt. apply Z.ltb_lt in Hlt. by rewrite Hlt.
    + intros Hsum. apply Z.ltb_lt in Hsum. rewrite Hsum.
      destruct (Z.ltb_spec (coerced record "total_requirements")
                           (coerced record "total_failures")) as [Hlt|Hge].
      * split; [reflexivity|]. split; [reflexivity|]. lia.
      * split; [reflexivity|]. split; reflexivity.
    + intros Hle Hsum Hw.
      destruct (Z.ltb_spec (coerced record "total_requirements")
                           (coerced record "total_failures")); [lia|].
      destruct (Z.ltb_spec (coerced record "total_failures")
                           (failure_sum record)); [lia|].
      unfold _save_records, _load_records. rewrite Hw. split; reflexivity.
Qed.

Lemma create_record_sum_checks_witness :
  create_record no_floats too_many_failures "meera" morning empty_world
  = ((false, total_failures_message), empty_world) /\
  create_record no_floats too_many_reasons "meera" morning empty_world
  = ((false, "Sum of failure reasons (7) cannot exceed total failures"),
     empty_world) /\
  fst (create_record no_floats consistent_request "meera" morning empty_world)
  = (true, "Quality record QM001 created successfully").
Proof.
  destruct (create_record_sum_checks no_floats too_many_failures "meera"
              morning empty_world) as [_ H1].
  destruct (create_record_sum_checks no_floats too_many_reasons "meera"
              morning empty_world) as [_ H2].
  assert (Hn1 : match prepare_record no_floats too_many_failures "meera"
                        morning empty_world with
                | Ret r => Z.ltb (coerced r "total_requirements")
                                 (coerced r "total_failures")
                | Raise _ => false
                end = true) by (vm_compute; reflexivity).
  assert (Hn2 : match prepare_record no_floats too_many_reasons "meera"
                        morning empty_world with
                | Ret r => Z.ltb (coerced r "total_failures") (failure_sum r)
                           && Z.leb (coerced r "total_failures")
                                    (coerced r "total_requirements")
                           && Z.eqb (failure_sum r) 7
                | Raise _ => false
                end = true) by (vm_compute; reflexivity).
  destruct (prepare_record no_floats too_many_failures "meera" morning
              empty_world) as [r1|e]; [|discriminate Hn1].
  destruct (prepare_record no_floats too_many_reasons "meera" morning
              empty_world) as [r2|e]; [|discriminate Hn2].
  apply Z.ltb_lt in Hn1.
  apply andb_true_iff in Hn2 as [Hn2 Hsum].
  apply andb_true_iff in Hn2 as [Hlt Hle].
  apply Z.ltb_lt in Hlt. apply Z.leb_le in Hle. apply Z.eqb_eq in Hsum.
  destruct (H1 r1 eq_refl) as (Hfail & _ & _).
  destruct (H2 r2 eq_refl) as (_ & Hreasons & _).
  destruct (Hreasons Hlt) as (_ & _ & Hmsg).
  split; [|split].
  - exact (Hfail Hn1).
  - rewrite (Hmsg Hle), Hsum. reflexivity.
  - vm_compute. reflexivity.
Defined.

(** * Further properties of the services *)

(** ** Allocations: delete, create, update, read *)

Lemma has_id_iff (id : string) (d : Dict) :
  has_id id d = true <-> with_id id d.
Proof. apply get_str. Qed.

Lemma has_id_false (id : string) (d : Dict) :
  has_id id d = false <-> ~ with_id id d.
Proof.
  rewrite <- has_id_iff. destruct (has_id id d); split; congruence.
Qed.

Lemma filter_length_eq {A} (p : A -> bool) (l : list A) :
  length (List.filter p l) = length l -> List.filter p l = l.
Proof.
  induction l as [|x l IH]; simpl; [done|].
  destruct (p x); simpl; intros H.
  - f_equal. apply IH. lia.
  - pose proof (List.filter_length_le p l). lia.
Qed.

Lemma find_filter_none {A} (p : A -> bool) (l : list A) :
  List.find p (List.filter (fun x => negb (p x)) l) = None.
Proof.
  induction l as [|x l IH]; simpl; [done|].
  destruct (p x) eqn:Hp; simpl; [done|]. by rewrite Hp.
Qed.

Lemma load_after_save (allocations : list Dict) (w : World) :
  Forall (fun a => is_uat a = false) allocations ->
  _load_allocations
    (write_allocations (List.filter is_uat (allocations_json w) ++ allocations) w)
  = allocations.
Proof.
  intros Hall. unfold _load_allocations, _load_all_data. simpl.
  rewrite List.filter_app.
  rewrite (filter_none is_uat) by (intros x Hx; by rewrite Hx). simpl.
  induction Hall as [|a l Ha _ IH]; simpl; [done|].
  by rewrite Ha, IH.
Qed.

(** X1. Deleting an allocation fails with "Allocation not found",
    writing nothing, exactly when no stored allocation carries the id;
    otherwise, when the file saves, the allocations left are those with
    another id, in their order, the UAT-typed entries of the file are
    kept, and the id is no longer found. *)
Theorem delete_allocation_removes_id (allocation_id : string) (w : World) :
  let out := delete_allocation_record allocation_id w in
  ((forall a, In a (_load_allocations w) -> ~ with_id allocation_id a) ->
   out = ((false, "Allocation not found"), w)) /\
  (forall a, In a (_load_allocations w) -> with_id allocation_id a ->
   writable w = true ->
   fst out = (true, "Allocation deleted successfully") /\
   _load_allocations (snd out)
   = List.filter (fun a => negb (has_id allocation_id a)) (_load_allocations w) /\
   uat_entries (snd out) = uat_entries w /\
   get_allocation_by_id allocation_id (snd out) = None).
Proof.
  cbv zeta. unfold delete_allocation_record. cbv zeta. split.
  - intros Hnone.
    replace (List.filter (fun a => negb (has_id allocation_id a))
                         (_load_allocations w))
      with (_load_allocations w); [by rewrite Nat.eqb_refl|].
    symmetry. induction (_load_allocations w) as [|x l IH]; simpl; [done|].
    assert (Hx : has_id allocation_id x = false)
      by (apply has_id_false, Hnone; by left).
    rewrite Hx. simpl. f_equal. apply IH. intros a Ha. apply Hnone. by right.
  - intros a Hin Hid Hw.
    destruct (Nat.eqb_spec
                (length (List.filter (fun a => negb (has_id allocation_id a))
                                     (_load_allocations w)))
                (length (_load_allocations w))) as [Heq|Hne].
    + exfalso. apply filter_length_eq in Heq.
      rewrite <- Heq in Hin. apply List.filter_In in Hin as [_ Hin].
      apply has_id_iff in Hid. by rewrite Hid in Hin.
    + rewrite save_allocations_file by done. simpl.
      assert (Hkept : Forall (fun a => is_uat a = false)
                (List.filter (fun a => negb (has_id allocation_id a))
                             (_load_allocations w))).
      { apply List.Forall_forall. intros x Hx.
        apply List.filter_In in Hx as [Hx _].
        by apply (allocation_entries_not_uat w). }
      split; [done|]. split; [by apply load_after_save|]. split.
      * unfold uat_entries. simpl. rewrite List.filter_app.
        rewrite (filter_all is_uat) by done.
        replace (List.filter is_uat (List.filter _ (_load_allocations w)))
          with (@nil Dict); [by rewrite app_nil_r|].
        symmetry. clear -Hkept.
        induction Hkept as [|x l Hx _ IH]; simpl; [done|]. by rewrite Hx.
      * unfold get_allocation_by_id. rewrite load_after_save by done.
        apply find_filter_none.
Qed.

Lemma delete_allocation_removes_id_witness :
  fst (delete_allocation_record "20240103090000" shared_world)
  = (true, "Allocation deleted successfully") /\
  length (_load_allocations
            (snd (delete_allocation_record "20240103090000" shared_world)))
  = 2%nat /\
  delete_allocation_record "19990101000000" shared_world
  = ((false, "Allocation not found"), shared_world).
Proof.
  destruct (delete_allocation_removes_id "20240103090000" shared_world)
    as [_ Hfound].
  destruct (delete_allocation_removes_id "19990101000000" shared_world)
    as [Hmissing _].
  destruct (Hfound (alloc "20240103090000" "NN9999-0001"))
    as (Hok & Hleft & _ & _).
  - change (_load_allocations shared_world) with
      (List.filter (fun item => negb (is_uat item)) shared_entries).
    unfold shared_entries. apply List.filter_In. split; [|vm_compute; reflexivity].
    right. right. left. reflexivity.
  - vm_compute. reflexivity.
  - reflexivity.
  - split; [exact Hok|]. split; [rewrite Hleft; vm_compute; reflexivity|].
    apply Hmissing.
    apply (proj1 (List.Forall_forall
                    (fun a => ~ with_id "19990101000000" a) _)).
    change (_load_allocations shared_world) with
      (List.filter (fun item => negb (is_uat item)) shared_entries).
    unfold shared_entries, with_id. simpl.
    repeat constructor; vm_compute; discriminate.
Defined.

(** X2. When the file saves, creating an allocation appends one
    record stamped with the id, creator, creation time and record type
    and otherwise equal to the request.  Looking the new id up returns
    that record unless an earlier allocation already carries the id (the
    id is a timestamp to the second): then the earlier one is returned. *)
Theorem create_allocation_then_get (allocation_data : Dict)
    (username : string) (now : Clock) (w : World) :
  writable w = true ->
  let out := create_allocation_record allocation_data username now w in
  exists record,
    fst out = (true, "Allocation created successfully") /\
    _load_allocations (snd out) = _load_allocations w ++ [record] /\
    record !! "id" = Some (VStr (stamp_id now)) /\
    record !! "created_by" = Some (VStr username) /\
    record !! "created_at" = Some (VStr (stamp_created now)) /\
    record !! "record_type" = Some (VStr "allocation") /\
    (forall k, k <> "id" -> k <> "created_by" -> k <> "created_at" ->
               k <> "record_type" -> record !! k = allocation_data !! k) /\
    get_allocation_by_id (stamp_id now) (snd out)
    = match get_allocation_by_id (stamp_id now) w with
      | Some earlier => Some earlier
      | None => Some record
      end.
Proof.
  intros Hw. cbv zeta. unfold create_allocation_record. cbv zeta.
  rewrite save_allocations_file by done. simpl.
  eexists. split; [reflexivity|].
  assert (Hall : Forall (fun a => is_uat a = false)
            (_load_allocations w ++
             [<["record_type":=VStr "allocation"]>
                (<["created_at":=VStr (stamp_created now)]>
                   (<["created_by":=VStr username]>
                      (<["id":=VStr (stamp_id now)]> allocation_data)))])).
  { apply Forall_app. split.
    - apply List.Forall_forall. apply allocation_entries_not_uat.
    - constructor; [apply created_allocation_not_uat | constructor]. }
  split; [by apply load_after_save|].
  split; [by rewrite !lookup_insert_ne by done; rewrite lookup_insert_eq|].
  split; [by rewrite !lookup_insert_ne by done; rewrite lookup_insert_eq|].
  split; [by rewrite !lookup_insert_ne by done; rewrite lookup_insert_eq|].
  split; [by rewrite lookup_insert_eq|].
  split; [intros k ? ? ? ?; by rewrite !lookup_insert_ne by done|].
  unfold get_allocation_by_id. rewrite load_after_save by done.
  clear Hall. induction (_load_allocations w) as [|x l IH]; simpl.
  - unfold has_id, get. rewrite !lookup_insert_ne by done.
    rewrite lookup_insert_eq. simpl. by rewrite String.eqb_refl.
  - destruct (has_id (stamp_id now) x); [done|]. apply IH.
Qed.

Lemma update_first_spec {A} (p : A -> bool) (f : A -> A) (l : list A) :
  match update_first p f l with
  | None => forall x, In x l -> p x = false
  | Some l' =>
      exists before x after,
        l = before ++ x :: after /\ l' = before ++ f x :: after /\
        p x = true /\ forall y, In y before -> p y = false
  end.
Proof.
  induction l as [|x l IH]; simpl; [by intros ? []|].
  destruct (p x) eqn:Hp.
  - exists [], x, l. repeat split; try done.
  - destruct (update_first p f l) as [l'|].
    + destruct IH as (before & y & after & -> & -> & Hy & Hb).
      exists (x :: before), y, after. repeat split; try done.
      intros z [<-|Hz]; [done | by apply Hb].
    + intros y [<-|Hy]; [done | by apply IH].
Qed.

(** X3. Updating an allocation fails with "Allocation not found",
    writing nothing, when no stored allocation carries the id.
    Otherwise, when the file saves and the request does not retype the
    record as UAT, only the first allocation with the id changes: the
    fields of the request win over the stored ones, [updated_by] and
    [updated_at] are stamped, the allocations before and after it and
    the UAT entries stay as they were. *)
Theorem update_allocation_changes_first (allocation_id : string)
    (updated_data : Dict) (username : string) (now : Clock) (w : World) :
  let out := update_allocation_record allocation_id updated_data username now w in
  ((forall a, In a (_load_allocations w) -> ~ with_id allocation_id a) ->
   out = ((false, "Allocation not found"), w)) /\
  (forall a, In a (_load_allocations w) -> with_id allocation_id a ->
   writable w = true -> is_uat updated_data = false ->
   exists before old after updated,
     _load_allocations w = before ++ old :: after /\
     with_id allocation_id old /\
     (forall b, In b before -> ~ with_id allocation_id b) /\
     fst out = (true, "Allocation updated successfully") /\
     _load_allocations (snd out) = before ++ updated :: after /\
     uat_entries (snd out) = uat_entries w /\
     updated !! "updated_by" = Some (VStr username) /\
     updated !! "updated_at" = Some (VStr (stamp_updated now)) /\
     (forall k, k <> "updated_by" -> k <> "updated_at" ->
        updated !! k = match updated_data !! k with
                       | Some v => Some v
                       | None => old !! k
                       end)).
Proof.
  cbv zeta. unfold update_allocation_record. cbv zeta.
  pose proof (update_first_spec (has_id allocation_id)
    (fun a => <["updated_at" := VStr (stamp_updated now)]>
                (<["updated_by" := VStr username]> (update a updated_data)))
    (_load_allocations w)) as Hspec.
  destruct (update_first _ _ _) as [l'|] eqn:Hup.
  - split.
    + intros Hnone. exfalso.
      destruct Hspec as (before & x & after & Hl & _ & Hx & _).
      apply (Hnone x); [|by apply has_id_iff].
      rewrite Hl. apply List.in_or_app. right. by left.
    + intros a _ _ Hw Hdata.
      destruct Hspec as (before & x & after & Hl & -> & Hx & Hb).
      exists before, x, after. eexists. split; [done|].
      split; [by apply has_id_iff|].
      split; [intros b Hin; by apply has_id_false, Hb|].
      rewrite save_allocations_file by done. simpl.
      assert (Hall : Forall (fun a => is_uat a = false)
                (before ++ <["updated_at":=VStr (stamp_updated now)]>
                   (<["updated_by":=VStr username]> (update x updated_data))
                   :: after)).
      { assert (Hold : Forall (fun a => is_uat a = false) (before ++ x :: after)).
        { rewrite <- Hl. apply List.Forall_forall.
          apply allocation_entries_not_uat. }
        apply Forall_app in Hold as [H1 H2]. apply Forall_cons in H2 as [H2 H3].
        apply Forall_app. split; [done|]. constructor; [|done].
        by apply updated_allocation_not_uat. }
      split; [reflexivity|]. split; [by apply load_after_save|].
      split.
      { unfold uat_entries. simpl. rewrite List.filter_app.
        rewrite (filter_all is_uat) by done.
        replace (List.filter is_uat (before ++ _ :: after)) with (@nil Dict);
          [by rewrite app_nil_r|].
        symmetry. clear -Hall.
        induction Hall as [|y l Hy _ IH]; simpl; [done|]. by rewrite Hy. }
      split; [by rewrite lookup_insert_ne by done; rewrite lookup_insert_eq|].
      split; [by rewrite lookup_insert_eq|].
      intros k H1 H2. rewrite !lookup_insert_ne by done.
      unfold update. rewrite lookup_union.
      destruct (updated_data !! k), (x !! k); done.
  - split; [done|]. intros a Hin Hid. exfalso.
    apply has_id_iff in Hid. by rewrite (Hspec a Hin) in Hid.
Qed.

Lemma elevated_roles (role : string) :
  elevated role = true
  <-> role = "admin" \/ role = "manager" \/ role = "superuser".
Proof.
  unfold elevated. rewrite !orb_true_iff, !String.eqb_eq. tauto.
Qed.

(** X4. An admin, manager or superuser is shown every allocation;
    any other role is shown exactly the allocations whose [created_by]
    is the user; nobody is shown a UAT-typed entry of the file. *)
Theorem allocations_visible_by_role (role username : string) (w : World) :
  (elevated role = true ->
   get_allocations_by_role role username w = _load_allocations w) /\
  (elevated role = false ->
   forall a, In a (get_allocations_by_role role username w)
             <-> In a (_load_allocations w)
                 /\ a !! "created_by" = Some (VStr username)) /\
  (forall a, In a (get_allocations_by_role role username w) ->
             In a (allocations_json w) /\ is_uat a = false).
Proof.
  unfold get_allocations_by_role, get_all_allocations, get_allocations_by_user.
  split; [|split].
  - by intros ->.
  - intros ->. intros a. rewrite List.filter_In. unfold created_by.
    by rewrite get_str.
  - intros a Ha.
    assert (Hin : In a (_load_allocations w)).
    { destruct (elevated role); [done|].
      by apply List.filter_In in Ha as [Ha _]. }
    split; [|by apply (allocation_entries_not_uat w)].
    unfold _load_allocations, _load_all_data in Hin.
    by apply List.filter_In in Hin as [Hin _].
Qed.

Lemma List_filter_sublist {A} (p : A -> bool) (l : list A) :
  List.filter p l `sublist_of` l.
Proof.
  induction l as [|x l IH]; simpl; [done|].
  destruct (p x); [by apply sublist_skip | by apply sublist_cons].
Qed.

Lemma if_filter_sublist {A} (c : bool) (p : A -> bool) (l : list A) :
  (if c then List.filter p l else l) `sublist_of` l.
Proof. destruct c; [apply List_filter_sublist | done]. Qed.

Lemma filter_raising_sublist {A} (p : A -> option bool) (l l' : list A) :
  filter_raising p l = Some l' -> l' `sublist_of` l.
Proof.
  revert l'. induction l as [|x l IH]; simpl; intros l' H.
  - by injection H as <-.
  - destruct (p x) as [b|]; [|done].
    destruct (filter_raising p l) as [r|]; [|done].
    injection H as <-. specialize (IH r eq_refl).
    destruct b; [by apply sublist_skip | by apply sublist_cons].
Qed.

Lemma date_filter_sublist (strptime : Value -> option Z) (field dflt : string)
    (keep : Z -> Z -> bool) (bound : DateBound) (l : list Dict) :
  date_filter strptime field dflt keep bound l `sublist_of` l.
Proof.
  unfold date_filter.
  destruct (filter_raising _ l) as [r|] eqn:Hr; [|done].
  by apply filter_raising_sublist in Hr.
Qed.

(** X5. Whatever the filters, a search that returns gives a sub-list
    of the stored allocations, in their order and without UAT-typed
    entries; with no filter set it gives all of them; and the search can
    only raise through the category or therapeutic-area filter. *)
Theorem search_allocations_selects (strptime : Value -> option Z)
    (filter_set : Filters) (w : World) :
  (forall found, search_allocations strptime filter_set w = Some found ->
     found `sublist_of` _load_allocations w /\
     forall a, In a found -> In a (allocations_json w) /\ is_uat a = false) /\
  (fields filter_set = ∅ ->
   start_date filter_set = NoBound -> end_date filter_set = NoBound ->
   search_allocations strptime filter_set w = Some (_load_allocations w)) /\
  (filter_given (fields filter_set) "category" = false ->
   filter_given (fields filter_set) "therapeutic_area" = false ->
   is_Some (search_allocations strptime filter_set w)).
Proof.
  split; [|split].
  - intros found H.
    assert (Hsub : found `sublist_of` _load_allocations w).
    { unfold search_allocations in H. cbv zeta in H.
      apply bind_Some in H as (l1 & H1 & H).
      apply bind_Some in H as (l2 & H2 & H). injection H as <-.
      etrans; [destruct (bound_given (end_date filter_set));
               [apply date_filter_sublist | reflexivity]|].
      etrans; [destruct (bound_given (start_date filter_set));
               [apply date_filter_sublist | reflexivity]|].
      do 4 (etrans; [apply if_filter_sublist|]).
      assert (Hl2 : l2 `sublist_of` l1).
      { destruct (filter_given _ "therapeutic_area").
        - destruct (py_eq (get (fields filter_set) "therapeutic_area")
                          (VStr "Others"));
            by apply filter_raising_sublist in H2.
        - by injection H2 as <-. }
      etrans; [exact Hl2|].
      assert (Hl1 : l1 `sublist_of`
                (if filter_given (fields filter_set) "system"
                 then List.filter
                        (fun a => py_eq (get a "system")
                                        (get (fields filter_set) "system"))
                        (_load_allocations w)
                 else _load_allocations w)).
      { destruct (filter_given _ "category").
        - destruct (py_eq (get (fields filter_set) "category") (VStr "Build")).
          + injection H1 as <-. apply List_filter_sublist.
          + destruct (py_eq (get (fields filter_set) "category")
                            (VStr "Change Request")).
            * by apply filter_raising_sublist in H1.
            * by injection H1 as <-.
        - by injection H1 as <-. }
      etrans; [exact Hl1|]. apply if_filter_sublist. }
    split; [done|]. intros a Ha.
    assert (Hin : In a (_load_allocations w)).
    { apply list_elem_of_In. eapply elem_of_sublist; [|done].
      by apply list_elem_of_In. }
    split; [|by apply (allocation_entries_not_uat w)].
    unfold _load_allocations, _load_all_data in Hin.
    by apply List.filter_In in Hin as [Hin _].
  - intros Hf Hs He. unfold search_allocations, filter_given, get.
    rewrite Hf, Hs, He. cbv zeta. rewrite !lookup_empty. simpl. done.
  - intros Hc Ht. unfold search_allocations. cbv zeta. rewrite Hc, Ht.
    simpl. by eexists.
Qed.








Lemma in_shared_allocations :
  In (alloc "20240103090000" "NN9999-0001") (_load_allocations shared_world).
Proof.
  change (_load_allocations shared_world) with
    (List.filter (fun item => negb (is_uat item)) shared_entries).
  unfold shared_entries. apply List.filter_In.
  split; [|vm_compute; reflexivity]. right. right. left. reflexivity.
Qed.

Lemma create_allocation_then_get_witness :
  fst (create_allocation_record {[ "trial_id" := VStr "NN7777-0003" ]}
         "meera" noon shared_world)
  = (true, "Allocation created successfully") /\
  length (_load_allocations
            (snd (create_allocation_record {[ "trial_id" := VStr "NN7777-0003" ]}
                    "meera" noon shared_world))) = 4%nat.
Proof.
  destruct (create_allocation_then_get {[ "trial_id" := VStr "NN7777-0003" ]}
              "meera" noon shared_world eq_refl)
    as (record & Hok & Hload & _).
  split; [exact Hok|]. rewrite Hload, length_app. vm_compute. reflexivity.
Defined.

Lemma update_allocation_changes_first_witness :
  fst (update_allocation_record "20240103090000"
         {[ "trial_id" := VStr "NN7777-0003" ]} "meera" noon shared_world)
  = (true, "Allocation updated successfully").
Proof.
  destruct (update_allocation_changes_first "20240103090000"
              {[ "trial_id" := VStr "NN7777-0003" ]} "meera" noon shared_world)
    as [_ Hfound].
  destruct (Hfound (alloc "20240103090000" "NN9999-0001"))
    as (before & old & after & updated & _ & _ & _ & Hok & _).
  - exact in_shared_allocations.
  - vm_compute. reflexivity.
  - reflexivity.
  - vm_compute. reflexivity.
  - exact Hok.
Defined.

Lemma allocations_visible_by_role_witness :
  get_allocations_by_role "manager" "meera" shared_world
  = _load_allocations shared_world /\
  (forall a, In a (get_allocations_by_role "user" "meera" shared_world) ->
             a !! "created_by" = Some (VStr "meera")).
Proof.
  destruct (allocations_visible_by_role "manager" "meera" shared_world)
    as (Hall & _ & _).
  destruct (allocations_visible_by_role "user" "meera" shared_world)
    as (_ & Hown & _).
  split; [by apply Hall|]. intros a Ha. by apply (Hown eq_refl a).
Defined.

Lemma search_allocations_selects_witness :
  search_allocations (fun _ => None) (mkFilters ∅ NoBound NoBound) shared_world
  = Some (_load_allocations shared_world).
Proof.
  destruct (search_allocations_selects (fun _ => None)
              (mkFilters ∅ NoBound NoBound) shared_world) as (_ & Hnone & _).
  by apply Hnone.
Defined.


(** ** Accounts *)

Lemma authenticate_other (hash_password : string -> string)
    (username other password : string) (users : gmap string UserEntry)
    (entry : UserEntry) (w : World) :
  other <> username ->
  authenticate_user hash_password other password
    (write_users (<[username := entry]> users) w)
  = authenticate_user hash_password other password (write_users users w).
Proof.
  intros Hne. unfold authenticate_user, _load_users. simpl.
  by rewrite lookup_insert_ne.
Qed.

Lemma write_users_same (w : World) : write_users (users_json w) w = w.
Proof. by destruct w. Qed.

Lemma new_user_fields (hash_password : string -> string)
    (email password role : string) (created_by : option string) (now : Clock) :
  let user := new_user hash_password email password role created_by now in
  user !! "password" = Some (VStr (hash_password password)) /\
  user !! "is_active" = Some (VBool true) /\
  user !! "status" = Some (VStr "active") /\
  user !! "role" = Some (VStr role) /\
  user !! "is_audit_reviewer" = Some (VBool false) /\
  user !! "audit_reviewer_requested" = Some (VBool false).
Proof. repeat split; reflexivity. Qed.

(** X7. Creating a user fails with "Username already exists", writing
    nothing, when the username is taken; otherwise, when the file
    saves, the new account logs in with the password it was created
    with and is refused with any password of another hash, its identity
    carries the role and no password, and the other accounts log in as
    before. *)
Theorem create_user_then_authenticate (hash_password : string -> string)
    (username email password role : string) (created_by : option string)
    (now : Clock) (w : World) :
  let out := create_user hash_password username email password role
               created_by now w in
  (is_Some (users_json w !! username) ->
   out = ((false, "Username already exists"), w)) /\
  (users_json w !! username = None -> writable w = true ->
   fst out = (true, "User '" +:+ username +:+ "' created successfully") /\
   (exists identity,
      authenticate_user hash_password username password (snd out)
      = Some identity /\
      identity !! "role" = Some (VStr role) /\
      identity !! "username" = Some (VStr username) /\
      identity !! "password" = None /\
      identity !! "is_audit_reviewer" = Some (VBool false)) /\
   (forall p, hash_password p <> hash_password password ->
      authenticate_user hash_password username p (snd out) = None) /\
   (forall other p, other <> username ->
      authenticate_user hash_password other p (snd out)
      = authenticate_user hash_password other p w)).
Proof.
  cbv zeta. unfold create_user, _load_users, _save_users. cbv zeta. split.
  - intros [e ->]. done.
  - intros -> ->.
    destruct (new_user_fields hash_password email password role created_by now)
      as (Hpw & Hact & Hst & Hrole & Hrev & _).
    set (user := new_user hash_password email password role created_by now) in *.
    cbn [fst snd]. split; [done|].
    assert (Hauth : forall p,
              authenticate_user hash_password username p
                (write_users (<[username:=UDict user]> (users_json w)) w)
              = if String.eqb (hash_password password) (hash_password p)
                then Some (<["is_audit_reviewer" := VBool false]>
                             (<["username" := VStr username]>
                                (delete "password" user)))
                else None).
    { intros p. unfold authenticate_user, _load_users.
      cbn [users_json write_users]. rewrite lookup_insert_eq.
      unfold get_or. rewrite Hpw, Hact, Hst, Hrev.
      cbn [default py_eq truthy negb]. unfold id. cbn [py_eq truthy negb].
      change (String.eqb "active" "active") with true. cbn [negb].
      destruct (String.eqb (hash_password password) (hash_password p)); done. }
    split; [|split].
    + rewrite Hauth, String.eqb_refl. eexists. split; [reflexivity|].
      split; [|split; [|split]].
      * rewrite !lookup_insert_ne by discriminate.
        rewrite lookup_delete_ne by discriminate. exact Hrole.
      * rewrite lookup_insert_ne by discriminate. apply lookup_insert_eq.
      * rewrite !lookup_insert_ne by discriminate. apply lookup_delete_eq.
      * apply lookup_insert_eq.
    + intros p Hp. rewrite Hauth.
      destruct (String.eqb_spec (hash_password password) (hash_password p));
        [congruence | done].
    + intros other p Hne. rewrite authenticate_other by done.
      by rewrite write_users_same.
Qed.

(** When an account logs in. *)
Lemma authenticate_succeeds_iff (hash_password : string -> string)
    (username password : string) (user : Dict) (w : World) :
  users_json w !! username = Some (UDict user) ->
  is_Some (authenticate_user hash_password username password w)
  <-> hash_matches hash_password user password
      /\ active_or_missing user /\ status_active_or_missing user.
Proof.
  intros Hu.
  unfold authenticate_user, _load_users, hash_matches, active_or_missing,
    status_active_or_missing, get_or. rewrite Hu. cbv zeta.
  destruct (py_eq (default (VStr EmptyString) (user !! "password")) _);
    simpl; [|split; [intros [? ?]; done | intros [? _]; done]].
  destruct (user !! "is_active") as [a|]; simpl;
    [destruct (truthy a); simpl;
       [|split; [intros [? ?]; done | intros (_ & ? & _); done]]|];
    (destruct (user !! "status") as [s|]; simpl;
     [destruct (py_eq s (VStr "active")) eqn:Hs; simpl;
      [apply py_eq_str in Hs; split; [done | intros _; by eexists]
      |split; [intros [? ?]; done | intros (_ & _ & ->); done]]
     |split; [done | intros _; by eexists]]).
Qed.

(** X8. A password change with a wrong current password fails with
    "Current password is incorrect" and writes nothing.  With the right
    one, when the file saves, the stored hash becomes that of the new
    password: the account then logs in with the new password exactly
    when its [is_active] and [status] allow it, and no longer with a
    password of another hash. *)
Theorem change_password_then_authenticate (hash_password : string -> string)
    (username old_password new_password : string) (now : Clock)
    (user : Dict) (w : World) :
  users_json w !! username = Some (UDict user) ->
  let out := change_password hash_password username old_password
               new_password now w in
  (~ hash_matches hash_password user old_password ->
   out = ((false, "Current password is incorrect"), w)) /\
  (hash_matches hash_password user old_password -> writable w = true ->
   fst out = (true, "Password changed successfully") /\
   (is_Some (authenticate_user hash_password username new_password (snd out))
    <-> active_or_missing user /\ status_active_or_missing user) /\
   (forall p, hash_password p <> hash_password new_password ->
      authenticate_user hash_password username p (snd out) = None) /\
   (forall other, other <> username ->
      users_json (snd out) !! other = users_json w !! other)).
Proof.
  intros Hu. cbv zeta.
  unfold change_password, _load_users, _save_users, hash_matches. cbv zeta.
  rewrite Hu.
  assert (Hsym : py_eq (VStr (hash_password old_password))
                       (get_or user "password" (VStr EmptyString))
                 = py_eq (get_or user "password" (VStr EmptyString))
                         (VStr (hash_password old_password))).
  { destruct (get_or user "password" (VStr EmptyString)); simpl; try done.
    apply String.eqb_sym. }
  rewrite Hsym. split.
  - intros Hno. destruct (py_eq (get_or user _ _) _); [congruence | done].
  - intros -> ->. simpl. split; [done|].
    set (user' := <["password_changed_at":=VStr (stamp_updated now)]>
                    (<["password":=VStr (hash_password new_password)]> user)).
    set (w' := write_users (<[username:=UDict user']> (users_json w)) w).
    assert (Hu' : users_json w' !! username = Some (UDict user'))
      by (simpl; apply lookup_insert_eq).
    assert (Hpw : get_or user' "password" (VStr EmptyString)
                  = VStr (hash_password new_password)).
    { unfold get_or, user'. rewrite lookup_insert_ne by done.
      by rewrite lookup_insert_eq. }
    pose proof (authenticate_succeeds_iff hash_password username
                  new_password user' w' Hu') as Hiff.
    split; [|split].
    + rewrite Hiff. unfold hash_matches. rewrite Hpw. simpl.
      rewrite String.eqb_refl.
      unfold active_or_missing, status_active_or_missing, user'.
      rewrite !lookup_insert_ne by done. tauto.
    + intros p Hp. unfold authenticate_user, _load_users. rewrite Hu'.
      rewrite Hpw. simpl.
      destruct (String.eqb_spec (hash_password new_password) (hash_password p));
        [congruence | done].
    + intros other Hne. simpl. by rewrite lookup_insert_ne.
Qed.

(** ** Audit-reviewer access *)

Lemma reviewer_op_step (op : ReviewerOp) (username : string) (now : Clock)
    (user : Dict) (w : World) :
  users_json w !! username = Some (UDict user) ->
  let out := run_reviewer_op op username now w in
  (reviewer_guard op (reviewer_flags user) = false ->
   fst (fst out) = false /\ snd out = w) /\
  (reviewer_guard op (reviewer_flags user) = true ->
   exists user',
     out = ((fst (fst out), snd (fst out)),
            if writable w
            then write_users (<[username := UDict user']> (users_json w)) w
            else w) /\
     fst (fst out) = writable w /\
     reviewer_flags user' = reviewer_next op (reviewer_flags user) /\
     user' !! "role" = user !! "role" /\
     user' !! "password" = user !! "password").
Proof.
  intros Hu. cbv zeta. unfold reviewer_flags.
  destruct op as [justification|approved_by| |revoked_by]; simpl;
    unfold request_audit_reviewer_access, approve_audit_reviewer,
      reject_audit_reviewer, revoke_audit_reviewer, _load_users, _save_users;
    cbv zeta; rewrite Hu;
    destruct (is_reviewer user) eqn:Hrev,
             (reviewer_requested user) eqn:Hreq; simpl;
    (split; intros Hg; try discriminate Hg; clear Hg);
    first
      [ solve [split; reflexivity]
      | eexists;
        (split; [destruct (writable w); reflexivity|]);
        (split; [destruct (writable w); reflexivity|]);
        unfold reviewer_requested, is_reviewer, get_or in *;
        repeat (rewrite lookup_insert_eq || rewrite lookup_insert_ne by done);
        simpl; rewrite ?Hrev, ?Hreq; repeat split; reflexivity ].
Qed.

Lemma reviewer_op_no_account (op : ReviewerOp) (username : string)
    (now : Clock) (w : World) :
  (forall user, users_json w !! username <> Some (UDict user)) ->
  let out := run_reviewer_op op username now w in
  fst (fst out) = false /\ snd out = w.
Proof.
  intros Hno. cbv zeta.
  destruct op; simpl;
    unfold request_audit_reviewer_access, approve_audit_reviewer,
      reject_audit_reviewer, revoke_audit_reviewer, _load_users;
    cbv zeta;
    (destruct (users_json w !! username) as [[user|v]|] eqn:Hu;
     [by destruct (Hno user) | done | done]).
Qed.

(** X9. Requesting, approving, rejecting and revoking audit-reviewer
    access move the two flags of an account as a state machine: a
    request needs neither flag and sets [requested]; an approval needs
    [requested] without [reviewer] and swaps them; a rejection needs
    [requested] and clears it; a revocation needs [reviewer] and
    clears it.  An operation that is not let through, or whose save
    fails, writes nothing; role and password are never touched; and no
    operation makes an account both waiting for the access and
    holding it. *)
Theorem reviewer_flags_machine (op : ReviewerOp) (username : string)
    (now : Clock) (w : World) :
  let out := run_reviewer_op op username now w in
  (reviewer_flags_consistent w -> reviewer_flags_consistent (snd out)) /\
  (fst (fst out) = false -> snd out = w) /\
  (forall user,
     users_json w !! username = Some (UDict user) -> writable w = true ->
     fst (fst out) = reviewer_guard op (reviewer_flags user) /\
     (reviewer_guard op (reviewer_flags user) = true ->
      exists user',
        users_json (snd out) = <[username := UDict user']> (users_json w) /\
        reviewer_flags user' = reviewer_next op (reviewer_flags user) /\
        user' !! "role" = user !! "role" /\
        user' !! "password" = user !! "password")).
Proof.
  cbv zeta.
  destruct (users_json w !! username) as [[user|v]|] eqn:Hu.
  - destruct (reviewer_op_step op username now user w Hu) as [Hno Hyes].
    destruct (reviewer_guard op (reviewer_flags user)) eqn:Hg.
    + destruct (Hyes eq_refl) as (user' & Hout & Hok & Hflags & Hrole & Hpw).
      clear Hno Hyes. split; [|split].
      * intros Hcons. rewrite Hout. simpl.
        destruct (writable w); [|done].
        intros u d. simpl. destruct (decide (u = username)) as [->|Hne].
        -- rewrite lookup_insert_eq. intros [= <-]. rewrite Hflags.
           specialize (Hcons username user Hu).
           destruct op, (reviewer_flags user) as [[] []]; simpl in *; congruence.
        -- rewrite lookup_insert_ne by done. apply Hcons.
      * rewrite Hok, Hout. simpl. by intros ->.
      * intros user0 [= <-] Hw. rewrite Hok, Hg. split; [done|].
        intros _. exists user'. rewrite Hout. simpl. by rewrite Hw.
    + destruct (Hno eq_refl) as [Hfalse Hsame]. clear Hno Hyes.
      rewrite Hsame. split; [done|]. split; [done|].
      intros user0 [= <-] _. by rewrite Hg.
  - destruct (reviewer_op_no_account op username now w) as [Hf ->];
      [by rewrite Hu|]. split; [done|]. split; [done|]. by intros user [=].
  - destruct (reviewer_op_no_account op username now w) as [Hf ->];
      [by rewrite Hu|]. split; [done|]. split; [done|]. by intros user [=].
Qed.

Lemma meera_is_legacy :
  users_json accounts_world !! "meera" = Some (UDict legacy_account).
Proof. vm_compute. reflexivity. Qed.

Lemma create_user_then_authenticate_witness :
  fst (create_user sample_hash "kiran" "kiran@example.com" "pa55" "user" None
         noon accounts_world)
  = (true, "User 'kiran' created successfully") /\
  create_user sample_hash "meera" "m@example.com" "pa55" "user" None
    noon accounts_world
  = ((false, "Username already exists"), accounts_world).
Proof.
  destruct (create_user_then_authenticate sample_hash "kiran"
              "kiran@example.com" "pa55" "user" None noon accounts_world)
    as [_ Hnew].
  destruct (create_user_then_authenticate sample_hash "meera"
              "m@example.com" "pa55" "user" None noon accounts_world)
    as [Htaken _].
  split.
  - destruct Hnew as (Hok & _); [vm_compute; reflexivity | reflexivity|].
    exact Hok.
  - apply Htaken. rewrite meera_is_legacy. by eexists.
Defined.

Lemma change_password_then_authenticate_witness :
  fst (change_password sample_hash "meera" "s3cret" "n3w" noon accounts_world)
  = (true, "Password changed successfully") /\
  change_password sample_hash "meera" "wrong" "n3w" noon accounts_world
  = ((false, "Current password is incorrect"), accounts_world).
Proof.
  destruct (change_password_then_authenticate sample_hash "meera" "s3cret"
              "n3w" noon legacy_account accounts_world meera_is_legacy)
    as [_ Hright].
  destruct (change_password_then_authenticate sample_hash "meera" "wrong"
              "n3w" noon legacy_account accounts_world meera_is_legacy)
    as [Hwrong _].
  split.
  - destruct Hright as (Hok & _); [vm_compute; reflexivity | reflexivity|].
    exact Hok.
  - apply Hwrong. vm_compute. discriminate.
Defined.

Lemma reviewer_flags_machine_witness :
  fst (fst (run_reviewer_op (Request "quarterly audit") "meera" noon
              accounts_world)) = true /\
  fst (fst (run_reviewer_op (Approve None) "meera" noon accounts_world)) = false.
Proof.
  destruct (reviewer_flags_machine (Request "quarterly audit") "meera" noon
              accounts_world) as (_ & _ & Hreq).
  destruct (reviewer_flags_machine (Approve None) "meera" noon
              accounts_world) as (_ & _ & Happ).
  destruct (Hreq legacy_account meera_is_legacy eq_refl) as [-> _].
  destruct (Happ legacy_account meera_is_legacy eq_refl) as [-> _].
  split; vm_compute; reflexivity.
Defined.

(** X10. The listing of all users never exposes a password: it holds
    the accounts whose entry is an object, each without its [password]
    and with its [username] set, every other field as stored. *)
Theorem get_all_users_hides_passwords (w : World) (username : string) :
  (forall listed, get_all_users w !! username = Some listed ->
     listed !! "password" = None /\
     listed !! "username" = Some (VStr username) /\
     exists user, users_json w !! username = Some (UDict user) /\
       forall k, k <> "password" -> k <> "username" ->
                 listed !! k = user !! k) /\
  (is_Some (get_all_users w !! username)
   <-> exists user, users_json w !! username = Some (UDict user)).
Proof.
  unfold get_all_users, _load_users. rewrite map_lookup_imap. split.
  - intros listed H.
    destruct (users_json w !! username) as [[user|v]|]; simpl in H; try done.
    injection H as <-. split; [|split].
    + rewrite lookup_insert_ne by done. apply lookup_delete_eq.
    + apply lookup_insert_eq.
    + exists user. split; [done|]. intros k H1 H2.
      rewrite lookup_insert_ne by done. by rewrite lookup_delete_ne.
  - destruct (users_json w !! username) as [[user|v]|]; simpl; split.
    + intros _. by exists user.
    + intros _. by eexists.
    + by intros [? ?].
    + by intros [? ?].
    + by intros [? ?].
    + by intros [? ?].
Qed.

Lemma find_named (username : string) (l : list Dict) :
  match List.find (named username) l with
  | Some u => In u l /\ names username u
  | None => forall u, In u l -> ~ names username u
  end.
Proof.
  destruct (List.find (named username) l) as [u|] eqn:Hf.
  - apply List.find_some in Hf as [Hin Hn]. split; [done|].
    by apply names_py_eq.
  - intros u Hin Hn. apply names_py_eq in Hn.
    pose proof (List.find_none _ _ Hf u Hin) as H. unfold named in H.
    congruence.
Qed.

(** X11. Approving a registration nobody made fails with "Pending user
    not found" and writes nothing.  For a pending registration that
    holds a password and an email, when the files save, the account is
    created with the registered password hash and the approved role, it
    is active and not an audit reviewer, every pending entry of the
    username is removed and the other pending entries and accounts are
    kept. *)
Theorem approve_pending_user_moves_registration (username approved_role : string)
    (approved_by : option string) (now : Clock) (w : World) :
  let out := approve_pending_user username approved_role approved_by now w in
  ((forall u, In u (pending_users_json w) -> ~ names username u) ->
   out = ((false, "Pending user not found"), w)) /\
  (forall u, In u (pending_users_json w) -> names username u ->
   (forall v, In v (pending_users_json w) -> names username v ->
      is_Some (v !! "password") /\ is_Some (v !! "email")) ->
   writable w = true ->
   fst out = (true, "User '" +:+ username +:+ "' approved as " +:+ approved_role) /\
   (exists first user,
      List.find (named username) (pending_users_json w) = Some first /\
      users_json (snd out) = <[username := UDict user]> (users_json w) /\
      user !! "password" = first !! "password" /\
      user !! "email" = first !! "email" /\
      user !! "role" = Some (VStr approved_role) /\
      user !! "status" = Some (VStr "active") /\
      user !! "is_active" = Some (VBool true) /\
      user !! "is_audit_reviewer" = Some (VBool false)) /\
   pending_users_json (snd out)
   = List.filter (fun u => negb (named username u)) (pending_users_json w)).
Proof.
  cbv zeta. unfold approve_pending_user, _load_pending_users, _load_users.
  cbv zeta. pose proof (find_named username (pending_users_json w)) as Hfind.
  destruct (List.find (named username) (pending_users_json w)) as [first|].
  - destruct Hfind as [Hin Hn]. split.
    + intros Hnone. by destruct (Hnone first Hin).
    + intros u _ _ Hfields Hw.
      destruct (Hfields first Hin Hn) as [[pw Hpw] [em Hem]].
      unfold approved_user, item. rewrite Hpw, Hem.
      unfold mbind, res_bind, _save_users, _save_pending_users. rewrite Hw.
      cbn [fst snd writable write_users]. rewrite Hw.
      split; [reflexivity|]. split; [|reflexivity].
      eexists _, _. split; [reflexivity|]. split; [reflexivity|].
      rewrite Hpw, Hem. repeat split; reflexivity.
  - split; [done|]. intros u Hin Hn. by destruct (Hfind u Hin).
Qed.

(** X12. Once a user is deleted, nobody logs in under the username,
    whatever the password, and the account is in no listing; the other
    accounts log in as before. *)
Theorem delete_user_then_login (fl : FloatUnit)
    (hash_password : string -> string) (username : string) (w : World) :
  fst (fst (delete_user fl username w)) = true ->
  let w' := snd (delete_user fl username w) in
  (forall p, authenticate_user hash_password username p w' = None) /\
  get_user_by_username username w' = None /\
  get_all_users w' !! username = None /\
  (forall other p, other <> username ->
     authenticate_user hash_password other p w'
     = authenticate_user hash_password other p w).
Proof.
  intros Hok. cbv zeta.
  destruct (delete_user_outcome fl username w) as [[Hf _]|(_ & -> & _)];
    [congruence|].
  split; [|split; [|split]].
  - intros p. unfold authenticate_user, _load_users. simpl.
    by rewrite lookup_delete_eq.
  - unfold get_user_by_username, _load_users. simpl.
    by rewrite lookup_delete_eq.
  - unfold get_all_users, _load_users. rewrite map_lookup_imap. simpl.
    by rewrite lookup_delete_eq.
  - intros other p Hne. unfold authenticate_user, _load_users. simpl.
    by rewrite lookup_delete_ne.
Qed.

Lemma superuser_count_insert (users : gmap string UserEntry)
    (username : string) (entry : UserEntry) :
  superuser_count (<[username := entry]> users)
  = ((if entry_is_superuser entry then 1 else 0)
     + superuser_count (delete username users))%nat.
Proof.
  rewrite (superuser_count_delete (<[username := entry]> users) username entry)
    by apply lookup_insert_eq.
  by rewrite delete_insert_eq.
Qed.

(** X13. Changing the role of an unknown user fails with "User not
    found" and writes nothing.  For an existing account, when the file
    saves, it always succeeds: the role is replaced, the password and
    the other accounts are untouched.  There is no superuser guard: when
    the only superuser is given another role, no superuser is left. *)
Theorem update_user_role_unguarded (fl : FloatUnit)
    (username new_role : string) (updated_by : option string) (now : Clock)
    (w : World) :
  let out := update_user_role fl username new_role updated_by now w in
  (users_json w !! username = None ->
   out = ((false, "User not found"), w)) /\
  (forall user,
     users_json w !! username = Some (UDict user) -> writable w = true ->
     fst (fst out) = true /\
     (exists user',
        users_json (snd out) = <[username := UDict user']> (users_json w) /\
        user' !! "role" = Some (VStr new_role) /\
        user' !! "password" = user !! "password" /\
        (is_superuser user = true -> new_role <> "superuser" ->
         superuser_count (users_json w) = 1%nat ->
         superuser_count (users_json (snd out)) = 0%nat))).
Proof.
  cbv zeta. unfold update_user_role, _load_users, _save_users. cbv zeta. split.
  - by intros ->.
  - intros user Hu Hw. rewrite Hu, Hw. cbn [fst snd]. split; [done|].
    eexists. split; [reflexivity|]. split; [|split].
    + rewrite !lookup_insert_ne by discriminate. apply lookup_insert_eq.
    + by rewrite !lookup_insert_ne by discriminate.
    + intros Hsu Hrole Hone. cbn [users_json write_users].
      rewrite superuser_count_insert.
      rewrite (superuser_count_delete _ _ _ Hu) in Hone.
      cbn [entry_is_superuser] in Hone. rewrite Hsu in Hone.
      replace (superuser_count (delete username (users_json w))) with 0%nat
        by lia.
      cbn [entry_is_superuser]. unfold is_superuser, get.
      rewrite !lookup_insert_ne by discriminate. rewrite lookup_insert_eq.
      cbn [default py_eq]. unfold id. cbn [py_eq].
      destruct (String.eqb_spec new_role "superuser"); [congruence | done].
Qed.

Lemma root_is_superuser :
  users_json one_superuser_world !! "root" = Some (account "superuser").
Proof. vm_compute. reflexivity. Qed.

Lemma update_user_role_unguarded_witness :
  fst (fst (update_user_role no_floats "root" "user" None noon
              one_superuser_world)) = true /\
  superuser_count
    (users_json (snd (update_user_role no_floats "root" "user" None noon
                        one_superuser_world))) = 0%nat.
Proof.
  destruct (update_user_role_unguarded no_floats "root" "user" None noon
              one_superuser_world) as [_ Hrole].
  destruct (Hrole _ root_is_superuser eq_refl) as (Hok & user' & _ & _ & _ & Hzero).
  split; [exact Hok|].
  apply Hzero; [vm_compute; reflexivity | discriminate | vm_compute; reflexivity].
Defined.

Lemma delete_user_then_login_witness :
  authenticate_user sample_hash "root" "anything"
    (snd (delete_user no_floats "root" two_superusers_world)) = None.
Proof.
  destruct (delete_user_then_login no_floats sample_hash "root"
              two_superusers_world) as (Hnone & _).
  - vm_compute. reflexivity.
  - apply Hnone.
Defined.

Lemma approve_pending_user_moves_registration_witness :
  fst (approve_pending_user "ravi" "user" None noon pending_world)
  = (true, "User 'ravi' approved as user") /\
  approve_pending_user "zoe" "user" None noon pending_world
  = ((false, "Pending user not found"), pending_world).
Proof.
  destruct (approve_pending_user_moves_registration "ravi" "user" None noon
              pending_world) as [_ Hfound].
  destruct (approve_pending_user_moves_registration "zoe" "user" None noon
              pending_world) as [Hmissing _].
  split.
  - destruct (Hfound (pending "ravi" "ravi@example.com")) as (Hok & _).
    + change (pending_users_json pending_world) with pending_list.
      unfold pending_list. right. left. reflexivity.
    + reflexivity.
    + apply (proj1 (List.Forall_forall
               (fun v => names "ravi" v ->
                         is_Some (v !! "password") /\ is_Some (v !! "email")) _)).
      change (pending_users_json pending_world) with pending_list.
      unfold pending_list.
      do 3 (apply List.Forall_cons;
            [intros _; split; eexists; reflexivity|]).
      apply List.Forall_nil.
    + reflexivity.
    + exact Hok.
  - apply Hmissing.
    apply (proj1 (List.Forall_forall (fun u => ~ names "zoe" u) _)).
    change (pending_users_json pending_world) with pending_list.
    unfold pending_list, names. repeat constructor; vm_compute; discriminate.
Defined.

Lemma get_all_users_hides_passwords_witness :
  exists listed, get_all_users accounts_world !! "meera" = Some listed
                 /\ listed !! "password" = None.
Proof.
  destruct (get_all_users_hides_passwords accounts_world "meera") as [Hhide Hsome].
  destruct (proj2 Hsome) as [listed Hl].
  - exists legacy_account. vm_compute. reflexivity.
  - exists listed. split; [exact Hl|]. by destruct (Hhide listed Hl).
Defined.

(** ** Dashboard statistics of the quality records *)





























(** ** Record ids of the quality records *)














Lemma zeros_digit_head (k : nat) (a : ascii) (r : string) :
  is_digit a = true ->
  exists a' r', zeros k +:+ String a r = String a' r' /\ is_digit a' = true.
Proof. destruct k; simpl; eauto. Qed.










Lemma has_record_id_iff (record_id : string) (r : Dict) :
  has_record_id record_id r = true <-> r !! "record_id" = Some (VStr record_id).
Proof. apply get_str. Qed.





(** X16.  The fallback id can repeat a stored one: when a stored id
    starts with [QM] and does not go on with a number, the id is made
    of the number of records, whatever ids are stored. *)
Theorem fallback_id_may_repeat :
  exists (w : World) (record_id : string) (r : Dict),
    generate_record_id w = Ret record_id
    /\ In r (_load_records w)
    /\ r !! "record_id" = Some (VStr record_id).
Proof.
  exists unreadable_world, "QM003", (stored "QM003" 10 2).
  split; [vm_compute; reflexivity|]. split; [by left|].
  vm_compute. reflexivity.
Qed.




Lemma find_snoc {A} (p : A -> bool) (l : list A) (x : A) :
  List.find p (l ++ [x])
  = match List.find p l with
    | Some y => Some y
    | None => if p x then Some x else None
    end.
Proof.
  induction l as [|y l IH]; simpl; [done|]. by destruct (p y).
Qed.









Lemma find_filter_other {A} (p q : A -> bool) (l : list A) :
  (forall x, p x = true -> q x = false) ->
  List.find p (List.filter (fun x => negb (q x)) l) = List.find p l.
Proof.
  intros H. induction l as [|x l IH]; simpl; [done|].
  destruct (q x) eqn:Hq; simpl.
  - destruct (p x) eqn:Hp; [|done]. rewrite (H x Hp) in Hq. discriminate.
  - by rewrite IH.
Qed.

(** X19.  Deleting a quality record.  With no record of the id,
    [delete_record] reports that and writes nothing.  Otherwise, when
    the file saves, every record of the id is removed and the others
    are kept in their order: the id is no longer found, and every other
    id is found as before. *)
Theorem delete_record_removes_id (record_id username : string) (w : World) :
  let out := delete_record record_id username w in
  ((forall r, In r (_load_records w) -> has_record_id record_id r = false) ->
   out = ((false, "Record " +:+ record_id +:+ " not found"), w)) /\
  (forall r, In r (_load_records w) -> has_record_id record_id r = true ->
   writable w = true ->
   out = ((true, "Record " +:+ record_id +:+ " deleted successfully"),
          write_quality_records
            (List.filter (fun r => negb (has_record_id record_id r))
                         (_load_records w)) w)
   /\ get_record_by_id record_id (snd out) = None
   /\ forall other, other <> record_id ->
        get_record_by_id other (snd out) = get_record_by_id other w).
Proof.
  cbv zeta. unfold delete_record. cbv zeta. split.
  - intros Hnone.
    replace (List.filter (fun r => negb (has_record_id record_id r))
                         (_load_records w))
      with (_load_records w); [by rewrite Nat.eqb_refl|].
    symmetry. induction (_load_records w) as [|x l IH]; simpl; [done|].
    rewrite (Hnone x) by (by left). simpl. f_equal.
    apply IH. intros r Hr. apply Hnone. by right.
  - intros r Hin Hr Hw.
    destruct (Nat.eqb_spec
                (length (List.filter (fun r => negb (has_record_id record_id r))
                                     (_load_records w)))
                (length (_load_records w))) as [Heq|Hne].
    + exfalso. apply filter_length_eq in Heq.
      rewrite <- Heq in Hin. apply List.filter_In in Hin as [_ Hin].
      by rewrite Hr in Hin.
    + unfold _save_records. rewrite Hw. split; [done|].
      unfold get_record_by_id. cbn [snd].
      change (_load_records (write_quality_records ?l w)) with l.
      split; [apply find_filter_none|].
      intros other Hother. apply find_filter_other.
      intros x Hx. apply has_record_id_iff in Hx.
      destruct (has_record_id record_id x) eqn:E; [|done].
      apply has_record_id_iff in E. congruence.
Qed.

Lemma delete_record_removes_id_witness :
  fst (delete_record "QM007" "meera" numbered_world)
  = (true, "Record QM007 deleted successfully")
  /\ _load_records (snd (delete_record "QM007" "meera" numbered_world))
     = [stored "QM001" 10 2; stored "LEGACY-3" 5 0]
  /\ delete_record "QM404" "meera" numbered_world
     = ((false, "Record QM404 not found"), numbered_world).
Proof.
  destruct (delete_record_removes_id "QM007" "meera" numbered_world)
    as [_ Hfound].
  destruct (delete_record_removes_id "QM404" "meera" numbered_world)
    as [Hmissing _].
  destruct (Hfound (stored "QM007" 30 4)) as (Hout & _ & _).
  - right. left. reflexivity.
  - vm_compute. reflexivity.
  - reflexivity.
  - rewrite Hout. split; [reflexivity|]. split; [reflexivity|].
    apply Hmissing.
    apply (proj1 (List.Forall_forall
                    (fun r => has_record_id "QM404" r = false) _)).
    change (_load_records numbered_world) with numbered_list.
    repeat constructor.
Defined.

(** ** The UAT records *)

Lemma missing_required_none (uat_data : Dict) :
  missing_required uat_data = None ->
  forall field, In field required_fields -> truthy (get uat_data field) = true.
Proof.
  unfold missing_required. intros H field Hin.
  pose proof (List.find_none _ _ H field Hin) as Hf. simpl in Hf.
  by apply negb_false_iff in Hf.
Qed.

Lemma created_by_iff (username : string) (d : Dict) :
  created_by username d = true <-> d !! "created_by" = Some (VStr username).
Proof. apply get_str. Qed.

(** X20.  A created UAT record is seen by its author.  When
    [create_uat_record] reports success, every required field of the
    request was filled, one record is appended to the UAT file, stamped
    with the id, the author and [record_type = uat]; the author sees it
    whatever their role, another user sees it only with an elevated
    role, it is found under its id unless an older record has that id,
    and the allocations file is not written. *)
Theorem created_uat_record_is_visible (uat_data : Dict) (username : string)
    (now : Clock) (w w' : World) (message : string) :
  create_uat_record uat_data username now w = ((true, message), w') ->
  (forall field, In field required_fields ->
     truthy (get uat_data field) = true)
  /\ allocations_json w' = allocations_json w
  /\ exists record,
       _load_uat_records w' = _load_uat_records w ++ [record]
       /\ record !! "id" = Some (VStr (stamp_id now))
       /\ record !! "created_by" = Some (VStr username)
       /\ record !! "record_type" = Some (VStr "uat")
       /\ (forall role, In record (get_uat_records_by_role role username w'))
       /\ (forall role other, other <> username ->
             In record (get_uat_records_by_role role other w') ->
             elevated role = true)
       /\ (get_uat_record_by_id (stamp_id now) w = None ->
           get_uat_record_by_id (stamp_id now) w' = Some record).
Proof.
  unfold create_uat_record. intros H.
  destruct (missing_required uat_data) as [field|] eqn:Hm; [discriminate|].
  destruct (has_date_difference uat_data && _); [discriminate|].
  destruct (uat_fields uat_data) as [fields|e] eqn:Hf; [|discriminate].
  cbv zeta in H. unfold _save_uat_records in H.
  destruct (writable w); [|discriminate].
  injection H as _ <-.
  split; [by apply missing_required_none|]. split; [reflexivity|].
  apply uat_fields_keys in Hf.
  destruct fields as [|[k1 v1] [|[k2 v2] [|[k3 v3] [|[k4 v4] [|[k5 v5]
    [|[k6 v6] [|[k7 v7] [|[k8 v8] [|[k9 v9] [|[k10 v10] [|[k11 v11]
    [|[k12 v12] [|? ?]]]]]]]]]]]]]; try discriminate Hf.
  injection Hf as -> -> -> -> -> -> -> -> -> -> -> ->.
  eexists. split; [reflexivity|].
  match goal with |- ?r !! "id" = _ /\ _ => set (record := r) end.
  assert (Hid : record !! "id" = Some (VStr (stamp_id now))) by reflexivity.
  assert (Hby : record !! "created_by" = Some (VStr username)) by reflexivity.
  assert (Hty : record !! "record_type" = Some (VStr "uat")) by reflexivity.
  clearbody record.
  split; [done|]. split; [done|]. split; [done|].
  unfold get_uat_records_by_role, get_uat_record_by_id. cbv zeta.
  change (_load_uat_records
            (write_uat_records (_load_uat_records w ++ [record]) w))
    with (_load_uat_records w ++ [record]).
  split; [|split].
  - intros role. destruct (elevated role).
    + apply List.in_or_app. right. by left.
    + apply List.filter_In. split; [apply List.in_or_app; right; by left|].
      by apply created_by_iff.
  - intros role other Hne Hin.
    destruct (elevated role); [done|].
    apply List.filter_In in Hin as [_ Hin]. apply created_by_iff in Hin.
    congruence.
  - intros Hnone. rewrite find_snoc, Hnone.
    by rewrite (proj2 (has_id_iff _ _) Hid).
Qed.

Lemma created_uat_record_is_visible_witness :
  fst (create_uat_record planned_uat "meera" noon uat_records_world)
  = (true, "UAT record created successfully")
  /\ exists record,
       In record
          (get_uat_records_by_role "user" "meera"
             (snd (create_uat_record planned_uat "meera" noon
                     uat_records_world)))
       /\ record !! "id" = Some (VStr "20240601120000").
Proof.
  assert (Hf : fst (create_uat_record planned_uat "meera" noon
                      uat_records_world)
               = (true, "UAT record created successfully"))
    by (vm_compute; reflexivity).
  destruct (create_uat_record planned_uat "meera" noon uat_records_world)
    as [[b m] w'] eqn:Hout.
  cbn [fst snd] in *. injection Hf as -> ->. split; [reflexivity|].
  destruct (created_uat_record_is_visible _ _ _ _ _ _ Hout)
    as (_ & _ & record & _ & Hid & _ & _ & Hsee & _).
  exists record. split; [apply Hsee|exact Hid].
Defined.

Lemma update_uat_loop_success (record_id : string) (uat_data : Dict)
    (username : string) (now : Clock) (seen rest : list Dict) (w w' : World)
    (message : string) :
  update_uat_loop record_id uat_data username now seen rest w
  = ((true, message), w') ->
  exists before r after fields,
    rest = before ++ r :: after
    /\ (forall y, In y before -> has_id record_id y = false)
    /\ has_id record_id r = true
    /\ uat_fields uat_data = Ret fields
    /\ w' = write_uat_records
              (seen ++ before
               ++ update r
                    (list_to_map
                       (fields ++ [("updated_by", VStr username);
                                   ("updated_at", VStr (stamp_updated now))]))
                  :: after) w.
Proof.
  revert seen. induction rest as [|x rest IH]; intros seen H;
    [discriminate H|].
  cbn [update_uat_loop] in H. destruct (has_id record_id x) eqn:Hx.
  - destruct (uat_fields uat_data) as [fields|e]; [|discriminate H].
    cbv zeta in H. unfold _save_uat_records in H.
    destruct (writable w); [|discriminate H].
    injection H as _ <-.
    exists [], x, rest, fields. split; [done|]. split; [intros y []|].
    split; [done|]. split; [done|]. reflexivity.
  - destruct (IH _ H) as (before & r & after & fields & -> & Hb & Hr & Hf & ->).
    exists (x :: before), r, after, fields. split; [done|]. split.
    + intros y [<-|Hy]; [done|by apply Hb].
    + split; [done|]. split; [done|]. by rewrite <- app_assoc.
Qed.

Lemma find_first {A} (p : A -> bool) (before after : list A) (x : A) :
  (forall y, In y before -> p y = false) -> p x = true ->
  List.find p (before ++ x :: after) = Some x.
Proof.
  intros Hb Hx. induction before as [|y before IH]; simpl; [by rewrite Hx|].
  rewrite (Hb y) by (by left). apply IH. intros z Hz. apply Hb. by right.
Qed.

(** X21.  An update of a UAT record keeps its identity.  When
    [update_uat_record] reports success, the first record with the id
    is the only one that changes; its id, author, creation time and
    record type stay, it is stamped with the updating user and time,
    and it is still the record found under the id.  Every user sees as
    many records as before, and the allocations file is not written. *)
Theorem update_uat_record_keeps_owner (record_id : string) (uat_data : Dict)
    (username : string) (now : Clock) (w w' : World) (message : string) :
  update_uat_record record_id uat_data username now w
  = ((true, message), w') ->
  allocations_json w' = allocations_json w
  /\ exists before r r' after,
       _load_uat_records w = before ++ r :: after
       /\ _load_uat_records w' = before ++ r' :: after
       /\ (forall y, In y before -> has_id record_id y = false)
       /\ has_id record_id r = true
       /\ (forall k, In k kept_keys -> r' !! k = r !! k)
       /\ r' !! "updated_by" = Some (VStr username)
       /\ r' !! "updated_at" = Some (VStr (stamp_updated now))
       /\ get_uat_record_by_id record_id w' = Some r'
       /\ forall role user,
            length (get_uat_records_by_role role user w')
            = length (get_uat_records_by_role role user w).
Proof.
  unfold update_uat_record. cbv zeta. intros H.
  destruct (has_date_difference uat_data && _); [discriminate H|].
  apply update_uat_loop_success in H
    as (before & r & after & fields & Hl & Hb & Hr & Hf & ->).
  split; [reflexivity|].
  apply uat_fields_keys in Hf.
  destruct fields as [|[k1 v1] [|[k2 v2] [|[k3 v3] [|[k4 v4] [|[k5 v5]
    [|[k6 v6] [|[k7 v7] [|[k8 v8] [|[k9 v9] [|[k10 v10] [|[k11 v11]
    [|[k12 v12] [|? ?]]]]]]]]]]]]]; try discriminate Hf.
  injection Hf as -> -> -> -> -> -> -> -> -> -> -> ->.
  set (changes := list_to_map _).
  assert (Hkept : forall k, In k kept_keys -> changes !! k = None).
  { intros k Hk. unfold kept_keys in Hk. simpl in Hk.
    destruct Hk as [<-|[<-|[<-|[<-|[]]]]]; reflexivity. }
  assert (Hby : changes !! "updated_by" = Some (VStr username)) by reflexivity.
  assert (Hat : changes !! "updated_at" = Some (VStr (stamp_updated now)))
    by reflexivity.
  clearbody changes.
  exists before, r, (update r changes), after.
  assert (Hkeep : forall k, In k kept_keys -> update r changes !! k = r !! k).
  { intros k Hk. unfold update. apply lookup_union_r. by apply Hkept. }
  assert (Hr' : has_id record_id (update r changes) = true).
  { unfold has_id, get in *. rewrite Hkeep; [done|]. by left. }
  split; [done|]. split; [reflexivity|]. split; [done|]. split; [done|].
  split; [done|].
  split; [unfold update; by apply lookup_union_Some_l|].
  split; [unfold update; by apply lookup_union_Some_l|].
  unfold get_uat_record_by_id, get_uat_records_by_role. cbv zeta.
  change (_load_uat_records (write_uat_records ?l w)) with l.
  cbn [app]. split; [by apply find_first|].
  intros role user. rewrite Hl. destruct (elevated role).
  - by rewrite !length_app.
  - rewrite !List.filter_app, !length_app. cbn [List.filter].
    assert (Hc : created_by user (update r changes) = created_by user r).
    { unfold created_by, get. rewrite Hkeep; [done|]. right. by left. }
    rewrite Hc. by destruct (created_by user r).
Qed.

Lemma update_uat_record_keeps_owner_witness :
  fst (update_uat_record "20240103090000" planned_uat "asha" noon
         uat_records_world)
  = (true, "UAT record updated successfully")
  /\ exists r',
       get_uat_record_by_id "20240103090000"
         (snd (update_uat_record "20240103090000" planned_uat "asha" noon
                 uat_records_world))
       = Some r'
       /\ r' !! "created_by" = Some (VStr "ravi")
       /\ r' !! "updated_by" = Some (VStr "asha").
Proof.
  assert (Hf : fst (update_uat_record "20240103090000" planned_uat "asha" noon
                      uat_records_world)
               = (true, "UAT record updated successfully"))
    by (vm_compute; reflexivity).
  destruct (update_uat_record "20240103090000" planned_uat "asha" noon
              uat_records_world) as [[b m] w'] eqn:Hout.
  cbn [fst snd] in *. injection Hf as -> ->. split; [reflexivity|].
  destruct (update_uat_record_keeps_owner _ _ _ _ _ _ _ Hout)
    as (_ & before & r & r' & after & Hl & _ & _ & Hr & Hkeep & Hby & _
        & Hget & _).
  exists r'. split; [exact Hget|]. split; [|exact Hby].
  rewrite Hkeep by (right; by left).
  assert (Hin : In r uat_list).
  { change uat_list with (_load_uat_records uat_records_world).
    rewrite Hl. apply List.in_or_app. right. by left. }
  revert Hr.
  apply (proj1 (List.Forall_forall
                  (fun x => has_id "20240103090000" x = true ->
                            x !! "created_by" = Some (VStr "ravi"))
                  uat_list)); [|exact Hin].
  unfold uat_list.
  do 3 (apply List.Forall_cons;
        [intros Hx; first [ reflexivity | vm_compute in Hx; discriminate Hx ]|]).
  apply List.Forall_nil.
Defined.

(** X22.  Deleting a UAT record.  With no record of the id,
    [delete_uat_record] reports that and writes nothing.  Otherwise,
    when the file saves, every record of the id is removed and the
    others are kept in their order: the id is no longer found, every
    other id is found as before, and no user sees more records than
    before. *)
Theorem delete_uat_record_removes_id (record_id : string) (w : World) :
  let out := delete_uat_record record_id w in
  ((forall r, In r (_load_uat_records w) -> has_id record_id r = false) ->
   out = ((false, "UAT record not found"), w)) /\
  (forall r, In r (_load_uat_records w) -> has_id record_id r = true ->
   writable w = true ->
   out = ((true, "UAT record deleted successfully"),
          write_uat_records
            (List.filter (fun r => negb (has_id record_id r))
                         (_load_uat_records w)) w)
   /\ get_uat_record_by_id record_id (snd out) = None
   /\ (forall other, other <> record_id ->
         get_uat_record_by_id other (snd out) = get_uat_record_by_id other w)
   /\ forall role user,
        sublist (get_uat_records_by_role role user (snd out))
                (get_uat_records_by_role role user w)).
Proof.
  cbv zeta. unfold delete_uat_record. cbv zeta. split.
  - intros Hnone.
    replace (List.filter (fun r => negb (has_id record_id r))
                         (_load_uat_records w))
      with (_load_uat_records w); [by rewrite Nat.ltb_irrefl|].
    symmetry. induction (_load_uat_records w) as [|x l IH]; simpl; [done|].
    rewrite (Hnone x) by (by left). simpl. f_equal.
    apply IH. intros r Hr. apply Hnone. by right.
  - intros r Hin Hr Hw.
    destruct (Nat.ltb_spec
                (length (List.filter (fun r => negb (has_id record_id r))
                                     (_load_uat_records w)))
                (length (_load_uat_records w))) as [Hlt|Hge].
    + unfold _save_uat_records. rewrite Hw. split; [done|].
      unfold get_uat_record_by_id, get_uat_records_by_role. cbn [snd].
      cbv zeta.
      change (_load_uat_records (write_uat_records ?l w)) with l.
      split; [apply find_filter_none|]. split.
      * intros other Hother. apply find_filter_other.
        intros x Hx. apply has_id_iff in Hx.
        destruct (has_id record_id x) eqn:E; [|done].
        apply has_id_iff in E. unfold with_id in *. congruence.
      * intros role user. destruct (elevated role).
        -- apply List_filter_sublist.
        -- rewrite filter_comm. apply List_filter_sublist.
    + exfalso.
      pose proof (List.filter_length_le
                    (fun r => negb (has_id record_id r)) (_load_uat_records w)).
      assert (Heq : length (List.filter (fun r => negb (has_id record_id r))
                                        (_load_uat_records w))
                    = length (_load_uat_records w)) by lia.
      apply filter_length_eq in Heq.
      rewrite <- Heq in Hin. apply List.filter_In in Hin as [_ Hin].
      by rewrite Hr in Hin.
Qed.

Lemma delete_uat_record_removes_id_witness :
  fst (delete_uat_record "20240103090000" uat_records_world)
  = (true, "UAT record deleted successfully")
  /\ get_uat_record_by_id "20240103090000"
       (snd (delete_uat_record "20240103090000" uat_records_world)) = None
  /\ delete_uat_record "19990101000000" uat_records_world
     = ((false, "UAT record not found"), uat_records_world).
Proof.
  destruct (delete_uat_record_removes_id "20240103090000" uat_records_world)
    as [_ Hfound].
  destruct (delete_uat_record_removes_id "19990101000000" uat_records_world)
    as [Hmissing _].
  destruct (Hfound (uat_by "20240103090000" "NN9999-0001" "ravi"))
    as (Hout & Hget & _).
  - right. left. reflexivity.
  - vm_compute. reflexivity.
  - reflexivity.
  - split; [by rewrite Hout|]. split; [exact Hget|].
    apply Hmissing.
    apply (proj1 (List.Forall_forall
                    (fun r => has_id "19990101000000" r = false) _)).
    change (_load_uat_records uat_records_world) with uat_list.
    repeat constructor.
Defined.

(** ** Password reset by an administrator *)

(** X23.  [reset_password] asks for no current password.  For an
    unknown username it fails and writes nothing.  For an account, when
    the file saves, it always succeeds, whatever the stored password
    was: the account then logs in with the new password exactly when its
    [is_active] and [status] allow it, no password of another hash logs
    in, the other fields of the account and the other accounts are as
    before. *)
Theorem reset_password_then_authenticate (hash_password : string -> string)
    (username new_password : string) (now : Clock) (w : World) :
  let out := reset_password hash_password username new_password now w in
  (users_json w !! username = None ->
   out = ((false, "User not found"), w)) /\
  (forall user,
     users_json w !! username = Some (UDict user) -> writable w = true ->
     fst out = (true, "Password reset successfully") /\
     (is_Some (authenticate_user hash_password username new_password (snd out))
      <-> active_or_missing user /\ status_active_or_missing user) /\
     (forall p, hash_password p <> hash_password new_password ->
        authenticate_user hash_password username p (snd out) = None) /\
     (exists user',
        users_json (snd out) !! username = Some (UDict user')
        /\ forall k, k <> "password" -> k <> "password_reset_at" ->
             user' !! k = user !! k) /\
     (forall other, other <> username ->
        users_json (snd out) !! other = users_json w !! other)).
Proof.
  cbv zeta. unfold reset_password, _load_users, _save_users. cbv zeta. split.
  - by intros ->.
  - intros user -> ->. cbn [fst snd]. split; [done|].
    set (user' := <["password_reset_at":=VStr (stamp_updated now)]>
                    (<["password":=VStr (hash_password new_password)]> user)).
    set (w' := write_users (<[username:=UDict user']> (users_json w)) w).
    assert (Hu' : users_json w' !! username = Some (UDict user'))
      by (simpl; apply lookup_insert_eq).
    assert (Hpw : get_or user' "password" (VStr EmptyString)
                  = VStr (hash_password new_password)).
    { unfold get_or, user'. rewrite lookup_insert_ne by done.
      by rewrite lookup_insert_eq. }
    pose proof (authenticate_succeeds_iff hash_password username
                  new_password user' w' Hu') as Hiff.
    split; [|split; [|split]].
    + rewrite Hiff. unfold hash_matches. rewrite Hpw. simpl.
      rewrite String.eqb_refl.
      unfold active_or_missing, status_active_or_missing, user'.
      rewrite !lookup_insert_ne by done. tauto.
    + intros p Hp. unfold authenticate_user, _load_users. rewrite Hu'.
      rewrite Hpw. simpl.
      destruct (String.eqb_spec (hash_password new_password) (hash_password p));
        [congruence | done].
    + exists user'. split; [done|]. intros k Hk1 Hk2. unfold user'.
      by rewrite !lookup_insert_ne.
    + intros other Hne. simpl. by rewrite lookup_insert_ne.
Qed.

Lemma reset_password_then_authenticate_witness :
  fst (reset_password sample_hash "meera" "n3w" noon accounts_world)
  = (true, "Password reset successfully")
  /\ is_Some (authenticate_user sample_hash "meera" "n3w"
                (snd (reset_password sample_hash "meera" "n3w" noon
                        accounts_world)))
  /\ authenticate_user sample_hash "ravi" "n3w"
       (snd (reset_password sample_hash "ravi" "n3w" noon accounts_world))
     = None
  /\ reset_password sample_hash "nobody" "n3w" noon accounts_world
     = ((false, "User not found"), accounts_world).
Proof.
  destruct (reset_password_then_authenticate sample_hash "meera" "n3w" noon
              accounts_world) as [_ Hmeera].
  destruct (reset_password_then_authenticate sample_hash "ravi" "n3w" noon
              accounts_world) as [_ Hravi].
  destruct (reset_password_then_authenticate sample_hash "nobody" "n3w" noon
              accounts_world) as [Hnobody _].
  destruct (Hmeera legacy_account meera_is_legacy eq_refl)
    as (Hok & Hlogin & _).
  assert (Hr : users_json accounts_world !! "ravi"
               = Some (UDict suspended_account)) by reflexivity.
  destruct (Hravi suspended_account Hr eq_refl) as (_ & Hlocked & _).
  split; [exact Hok|]. split; [|split].
  - apply Hlogin. split; [exact I|exact I].
  - destruct (authenticate_user sample_hash "ravi" "n3w" _) eqn:E; [|done].
    exfalso. destruct (proj1 Hlocked) as [_ Hs]; [by eexists|].
    vm_compute in Hs. discriminate Hs.
  - apply Hnobody. reflexivity.
Defined.

(** ** Trail documents and the audit log *)







Lemma form_text (form : Form) (k k' : string) (v : Value) (dflt : string) :
  k' <> k ->
  get_or (<[k' := v]> (form_dict form)) k (VStr dflt)
  = VStr (default dflt (form !! k)).
Proof.
  intros Hne. unfold get_or, form_dict.
  rewrite lookup_insert_ne by done. rewrite lookup_fmap.
  unfold Form in *. by destruct (form !! k).
Qed.

(** On the data of a form no field raises. *)
Lemma trail_fields_form (form : Form) (k' : string) (v : Value) :
  k' = "created_by" \/ k' = "updated_by" ->
  exists fields, trail_fields (<[k' := v]> (form_dict form)) = Ret fields.
Proof.
  intros Hk. unfold trail_fields.
  rewrite !form_text by (destruct Hk as [->| ->]; discriminate).
  unfold mbind, res_bind, strip_value. by eexists.
Qed.


Lemma log_audit_appends (uuid4 now : string) (username : Value)
    (action category entity_type entity_id : string) (details : Dict)
    (a : Archive) :
  writable (files a) = true ->
  log_audit uuid4 now username action category entity_type entity_id details a
  = mkArchive (files a)
      (audit_logs_json a
       ++ [mkAuditLog uuid4 username action category entity_type entity_id
                      details now]).
Proof.
  intros Hw. unfold log_audit, save_audit_logs, load_audit_logs. cbv zeta.
  by rewrite Hw.
Qed.

















Lemma filed_keys_filter (p : Dict -> bool) (documents : list Dict) :
  filed_keys (List.filter p documents) `sublist_of` filed_keys documents.
Proof.
  unfold filed_keys. induction documents as [|d l IH]; [done|].
  cbn [List.filter List.map].
  destruct (p d); cbn [List.map List.filter];
    destruct (negb (String.eqb (tmf_key d) EmptyString));
    [by apply sublist_skip|done|by apply sublist_cons|done].
Qed.

Lemma unique_tmf_filter (p : Dict -> bool) (documents : list Dict) :
  unique_tmf documents -> unique_tmf (List.filter p documents).
Proof.
  unfold unique_tmf. intros H.
  eapply sublist_NoDup; [exact H|apply filed_keys_filter].
Qed.

(** What [delete_trail_document] does to a document that is found. *)
Lemma deleted_document (document_id log_id log_now : string)
    (document : Dict) (a : Archive) :
  get_trail_document_by_id document_id a = Some document ->
  writable (files a) = true ->
  exists details,
    delete_trail_document document_id log_id log_now a
    = ((true, "Trail document deleted successfully"),
       mkArchive
         (write_trail_documents
            (List.filter (fun d => negb (has_id document_id d))
                         (load_documents a))
            (files a))
         (audit_logs_json a
          ++ [mkAuditLog log_id
                (get_or document "created_by" (VStr "Unknown"))
                "delete" "trail_documents" "trail_document" document_id
                details log_now]))
    /\ details !! "tmf_vault_id" = Some (get document "tmf_vault_id")
    /\ details !! "trail" = Some (get document "trail").
Proof.
  unfold get_trail_document_by_id, delete_trail_document. cbv zeta.
  intros -> Hw. unfold save_documents. rewrite Hw.
  rewrite log_audit_appends by exact Hw.
  eexists. split; [reflexivity|]. split; reflexivity.
Qed.

(** X26.  Who may delete a trail document.  The delete route answers
    [NotFound] for an unknown id.  A user who is neither superuser nor
    admin and is not the author of the document is turned down, and
    nothing is written: a manager cannot delete the document of another
    user.  For a superuser, an admin or the author, when the files
    save, every document of the id is removed, the others stay in their
    order, the id is no longer found, the TMF/Vault ids stay pairwise
    different, and the audit log gets one entry, for the action
    [delete] on that document in the name of its author. *)
Theorem delete_route_needs_owner_or_admin (document_id : string)
    (user : Dict) (log_id log_now : string) (a : Archive) :
  let out :=
    AuditBlueprint.delete_trail_document document_id user log_id log_now a in
  (get_trail_document_by_id document_id a = None -> out = (NotFound, a)) /\
  (forall document,
     get_trail_document_by_id document_id a = Some document ->
     let admin :=
       AuditBlueprint.role_in (AuditBlueprint.session_role user)
         ["superuser"; "admin"] in
     let author :=
       py_eq (get document "created_by")
             (AuditBlueprint.session_username user) in
     (admin || author = false -> out = (NoPermission, a)) /\
     (admin || author = true -> writable (files a) = true ->
      fst out = Deleted
      /\ load_documents (snd out)
         = List.filter (fun d => negb (has_id document_id d))
                       (load_documents a)
      /\ get_trail_document_by_id document_id (snd out) = None
      /\ (unique_tmf (load_documents a) ->
          unique_tmf (load_documents (snd out)))
      /\ exists details,
           audit_logs_json (snd out)
           = audit_logs_json a
             ++ [mkAuditLog log_id
                   (get_or document "created_by" (VStr "Unknown"))
                   "delete" "trail_documents" "trail_document" document_id
                   details log_now])).
Proof.
  cbv zeta. unfold AuditBlueprint.delete_trail_document. cbv zeta. split.
  - by intros ->.
  - intros document Hd. rewrite Hd. split.
    + intros Hno. apply orb_false_iff in Hno as [-> ->]. reflexivity.
    + intros Hyes Hw.
      assert (Hif : negb (AuditBlueprint.role_in
                            (AuditBlueprint.session_role user)
                            ["superuser"; "admin"])
                    && negb (py_eq (get document "created_by")
                               (AuditBlueprint.session_username user))
                    = false).
      { rewrite <- negb_orb. by rewrite Hyes. }
      rewrite Hif. unfold service_delete_trail_document.
      destruct (deleted_document document_id log_id log_now document a Hd Hw)
        as (details & -> & _).
      cbn [fst snd]. split; [done|].
      unfold get_trail_document_by_id, load_documents, load_trail_documents.
      cbn [files trail_documents_json write_trail_documents audit_logs_json].
      split; [done|]. split; [apply find_filter_none|].
      split; [apply unique_tmf_filter|]. by exists details.
Qed.

Lemma delete_route_needs_owner_or_admin_witness :
  AuditBlueprint.delete_trail_document "d1" (session_user "ravi" "manager")
    "l1" "2024-06-01 12:00:01" trail_archive
  = (NoPermission, trail_archive)
  /\ fst (AuditBlueprint.delete_trail_document "d1"
            (session_user "asha" "admin") "l1" "2024-06-01 12:00:01"
            trail_archive)
     = Deleted
  /\ get_trail_document_by_id "d1"
       (snd (AuditBlueprint.delete_trail_document "d1"
               (session_user "asha" "admin") "l1" "2024-06-01 12:00:01"
               trail_archive))
     = None
  /\ AuditBlueprint.delete_trail_document "d9" (session_user "asha" "admin")
       "l1" "2024-06-01 12:00:01" trail_archive
     = (NotFound, trail_archive).
Proof.
  assert (Hd1 : get_trail_document_by_id "d1" trail_archive
                = Some (trail_document "d1" "NN1234-5678" "ABC-123"))
    by reflexivity.
  destruct (delete_route_needs_owner_or_admin "d1"
              (session_user "ravi" "manager") "l1" "2024-06-01 12:00:01"
              trail_archive) as [_ Hmanager].
  destruct (delete_route_needs_owner_or_admin "d1"
              (session_user "asha" "admin") "l1" "2024-06-01 12:00:01"
              trail_archive) as [_ Hadmin].
  destruct (delete_route_needs_owner_or_admin "d9"
              (session_user "asha" "admin") "l1" "2024-06-01 12:00:01"
              trail_archive) as [Hmissing _].
  destruct (Hmanager _ Hd1) as [Hdenied _].
  destruct (Hadmin _ Hd1) as [_ Hallowed].
  destruct Hallowed as (Hok & _ & Hgone & _);
    [vm_compute; reflexivity|reflexivity|].
  split; [apply Hdenied; vm_compute; reflexivity|].
  split; [exact Hok|]. split; [exact Hgone|].
  apply Hmissing. reflexivity.
Defined.


















(** ** Validation of a username *)

Lemma line_feed_not_word : is_word_char "010"%char = false.
Proof. reflexivity. Qed.

Lemma word_to_end_iff (s : string) :
  word_to_end s = true
  <-> exists w, word w = true /\ (s = w \/ s = w +:+ line_feed).
Proof.
  induction s as [|a r IH]; cbn [word_to_end].
  - split; [intros _; exists EmptyString; split; [done|by left]|done].
  - destruct (is_word_char a) eqn:Ha.
    + rewrite IH. split.
      * intros (w & Hw & Hs). exists (String a w).
        split; [cbn [word]; by rewrite Ha, Hw|].
        destruct Hs as [->| ->]; [by left|by right].
      * intros (w & Hw & Hs). destruct w as [|b w].
        -- destruct Hs as [Hs|Hs]; [discriminate Hs|].
           injection Hs as -> _. discriminate Ha.
        -- cbn [word] in Hw. apply andb_true_iff in Hw as [_ Hw].
           exists w. split; [done|].
           destruct Hs as [Hs|Hs]; injection Hs as _ ->; [by left|by right].
    + rewrite String.eqb_eq. split.
      * intros ->. exists EmptyString. split; [done|by right].
      * intros (w & Hw & Hs). destruct w as [|b w].
        -- destruct Hs as [Hs|Hs]; [discriminate Hs|exact Hs].
        -- cbn [word] in Hw. apply andb_true_iff in Hw as [Hb _].
           destruct Hs as [Hs|Hs]; injection Hs as -> _; congruence.
Qed.

Lemma matches_word_iff (s : string) :
  matches_word s = true
  <-> exists w, w <> EmptyString /\ word w = true
                /\ (s = w \/ s = w +:+ line_feed).
Proof.
  destruct s as [|a r]; cbn [matches_word].
  - split; [done|]. intros (w & Hne & _ & [Hs|Hs]); [congruence|].
    destruct w; [done|discriminate Hs].
  - rewrite andb_true_iff, word_to_end_iff. split.
    + intros (Ha & w & Hw & Hs). exists (String a w).
      split; [done|]. split; [cbn [word]; by rewrite Ha, Hw|].
      destruct Hs as [->| ->]; [by left|by right].
    + intros (w & Hne & Hw & Hs). destruct w as [|b w]; [done|].
      cbn [word] in Hw. apply andb_true_iff in Hw as [Hb Hw].
      destruct Hs as [Hs|Hs]; injection Hs as -> ->;
        (split; [done|]); exists w; (split; [done|]); [by left|by right].
Qed.

(** X28.  The usernames [validate_username] accepts.  A username is
    accepted, with an empty message, exactly when it has 3 to 50
    characters and is made of letters, digits and underscores,
    possibly followed by one line feed, which [$] lets through and the
    length counts.  So a username of 50 characters is accepted, though
    the message of the next length says [less than 50], and so is a
    name of the class followed by a line feed; every other username is
    refused with a message. *)
Theorem validate_username_accepts (username : string) :
  (validate_username username = (true, EmptyString)
   <-> (3 <= String.length username <= 50)%nat
       /\ exists w, w <> EmptyString /\ word w = true
            /\ (username = w \/ username = w +:+ line_feed))
  /\ (fst (validate_username username) = false
      <-> validate_username username <> (true, EmptyString))
  /\ (fst (validate_username username) = false ->
      snd (validate_username username) <> EmptyString)
  /\ (forall w, word w = true -> (2 <= String.length w <= 49)%nat ->
        validate_username (w +:+ line_feed) = (true, EmptyString)).
Proof.
  assert (Hmain : validate_username username = (true, EmptyString)
                  <-> (3 <= String.length username <= 50)%nat
                      /\ matches_word username = true).
  { unfold validate_username.
    destruct (String.eqb_spec username EmptyString) as [->|Hne].
    { split; [discriminate|]. intros [[H _] _]. simpl in H. lia. }
    destruct (Nat.ltb_spec (String.length username) 3);
      [split; [discriminate|lia]|].
    destruct (Nat.ltb_spec 50 (String.length username));
      [split; [discriminate|lia]|].
    destruct (matches_word username); cbn [negb].
    - split; [intros _; split; [lia|done]|done].
    - split; [discriminate|]. intros [_ H']. discriminate H'. }
  split; [by rewrite Hmain, matches_word_iff|]. split; [|split].
  - unfold validate_username.
    destruct (String.eqb _ _); [done|]. destruct (Nat.ltb _ 3); [done|].
    destruct (Nat.ltb 50 _); [done|]. by destruct (matches_word username).
  - unfold validate_username.
    destruct (String.eqb _ _); [done|]. destruct (Nat.ltb _ 3); [done|].
    destruct (Nat.ltb 50 _); [done|]. by destruct (matches_word username).
  - intros w Hw Hlen.
    assert (Hl : String.length (w +:+ line_feed) = S (String.length w)).
    { clear. induction w as [|a w IH]; [done|].
      change (String a w +:+ line_feed) with (String a (w +:+ line_feed)).
      cbn [String.length]. by rewrite IH. }
    clear Hmain.
    assert (Hm : validate_username (w +:+ line_feed) = (true, EmptyString)
                 <-> (3 <= String.length (w +:+ line_feed) <= 50)%nat
                     /\ matches_word (w +:+ line_feed) = true).
    { unfold validate_username.
      destruct (String.eqb_spec (w +:+ line_feed) EmptyString) as [He|Hne].
      { rewrite He in Hl. simpl in Hl. lia. }
      destruct (Nat.ltb_spec (String.length (w +:+ line_feed)) 3);
        [split; [discriminate|lia]|].
      destruct (Nat.ltb_spec 50 (String.length (w +:+ line_feed)));
        [split; [discriminate|lia]|].
      destruct (matches_word (w +:+ line_feed)); cbn [negb].
      - split; [intros _; split; [lia|done]|done].
      - split; [discriminate|]. intros [_ H']. discriminate H'. }
    apply Hm. split; [lia|]. apply matches_word_iff. exists w.
    split; [|split; [done|by right]].
    intros ->. simpl in Hlen. lia.
Qed.

Lemma validate_username_accepts_witness :
  validate_username ("bob" +:+ line_feed) = (true, EmptyString)
  /\ validate_username "meera_01" = (true, EmptyString)
  /\ fst (validate_username "a b") = false.
Proof.
  destruct (validate_username_accepts "meera_01") as (Hword & _ & _ & Hline).
  destruct (validate_username_accepts "a b") as (_ & Hrefused & _ & _).
  split; [|split].
  - apply (Hline "bob"); [reflexivity|simpl; lia].
  - apply Hword. split; [simpl; lia|]. exists "meera_01".
    split; [discriminate|]. split; [reflexivity|by left].
  - apply Hrefused. vm_compute. discriminate.
Defined.

(** ** Statistics of the UAT records *)

Lemma bump_sum (key : Value) (counts : list (Value * nat)) :
  counted_in (bump key counts) = S (counted_in counts).
Proof.
  unfold counted_in. induction counts as [|[k n] rest IH]; [done|].
  cbn [bump]. destruct (py_eq k key); simpl in *; [lia|rewrite IH; lia].
Qed.

Lemma bump_keys_forall (P : Value -> Prop) (key : Value)
    (counts : list (Value * nat)) :
  P key -> Forall P (List.map fst counts) ->
  Forall P (List.map fst (bump key counts)).
Proof.
  intros Hk. induction counts as [|[k n] rest IH]; cbn [bump List.map fst].
  - intros _. by repeat constructor.
  - intros H. apply List.Forall_cons_iff in H as [Hk' Hrest].
    destruct (py_eq k key); cbn [List.map fst];
      apply List.Forall_cons; auto.
Qed.

Lemma bump_distinct (key : Value) (counts : list (Value * nat)) :
  pairwise_distinct (List.map fst counts) ->
  pairwise_distinct (List.map fst (bump key counts)).
Proof.
  induction counts as [|[k n] rest IH]; cbn [bump List.map fst].
  - intros _. cbn [pairwise_distinct]. split; [constructor|done].
  - cbn [pairwise_distinct]. intros [Hk Hrest].
    destruct (py_eq k key) eqn:E; cbn [List.map fst pairwise_distinct].
    + by split.
    + split; [|by apply IH]. by apply bump_keys_forall.
Qed.

Lemma bump_positive (key : Value) (counts : list (Value * nat)) :
  Forall (fun c => (0 < snd c)%nat) counts ->
  Forall (fun c => (0 < snd c)%nat) (bump key counts).
Proof.
  induction counts as [|[k n] rest IH]; cbn [bump].
  - intros _. repeat constructor.
  - intros H. apply List.Forall_cons_iff in H as [Hk Hrest].
    destruct (py_eq k key); apply List.Forall_cons; cbn [snd] in *;
      auto; lia.
Qed.

Lemma counters_bump (key : Value) (counts : list (Value * nat)) (n : nat) :
  counters_ok counts n -> counters_ok (bump key counts) (S n).
Proof.
  intros (Hs & Hd & Hp). split; [by rewrite bump_sum, Hs|].
  split; [by apply bump_distinct|by apply bump_positive].
Qed.

Lemma exclusive_texts (v : Value) (a b : string) :
  a <> b -> py_eq v (VStr a) = true -> py_eq v (VStr b) = false.
Proof.
  intros Hne Ha. apply py_eq_str in Ha. subst v. simpl.
  by apply String.eqb_neq.
Qed.

Lemma count_uat_records (records : list Dict) (stats : UatStats.t) (n : nat) :
  counters_ok (UatStats.by_status stats) n ->
  counters_ok (UatStats.by_result stats) n ->
  counters_ok (UatStats.by_category stats) n ->
  let stats' := fold_left count_uat_record records stats in
  UatStats.total stats' = UatStats.total stats
  /\ counters_ok (UatStats.by_status stats') (n + length records)
  /\ counters_ok (UatStats.by_result stats') (n + length records)
  /\ counters_ok (UatStats.by_category stats') (n + length records)
  /\ UatStats.completed stats'
     = (UatStats.completed stats + number_with "status" "Completed" records)%nat
  /\ UatStats.in_progress stats'
     = (UatStats.in_progress stats
        + number_with "status" "In Progress" records)%nat
  /\ UatStats.passed stats'
     = (UatStats.passed stats + number_with "result" "Pass" records)%nat
  /\ UatStats.failed stats'
     = (UatStats.failed stats + number_with "result" "Fail" records)%nat
  /\ UatStats.pending stats'
     = (UatStats.pending stats + number_with "result" "Pending" records)%nat.
Proof.
  revert stats n. induction records as [|r records IH]; intros stats n H1 H2 H3.
  - cbv zeta. cbn [fold_left length]. unfold number_with. cbn [List.filter length].
    rewrite !Nat.add_0_r. done.
  - cbv zeta. cbn [fold_left].
    specialize (IH (count_uat_record stats r) (S n)
                  (counters_bump _ _ _ H1) (counters_bump _ _ _ H2)
                  (counters_bump _ _ _ H3)).
    cbv zeta in IH.
    destruct IH as (I0 & I1 & I2 & I3 & I4 & I5 & I6 & I7 & I8).
    rewrite I0, I4, I5, I6, I7, I8.
    cbn [length]. rewrite <- !Nat.add_succ_comm.
    split; [done|]. split; [done|]. split; [done|]. split; [done|].
    unfold number_with. cbn [List.filter count_uat_record UatStats.completed
      UatStats.in_progress UatStats.passed UatStats.failed UatStats.pending].
    set (status := get_or r "status" (VStr "Unknown")).
    set (result := get_or r "result" (VStr "Unknown")).
    split; [|split; [|split; [|split]]].
    + destruct (py_eq status (VStr "Completed")); cbn [length]; lia.
    + destruct (py_eq status (VStr "Completed")) eqn:E.
      * rewrite (exclusive_texts status "Completed" "In Progress") by done.
        lia.
      * destruct (py_eq status (VStr "In Progress")); cbn [length]; lia.
    + destruct (py_eq result (VStr "Pass")); cbn [length]; lia.
    + destruct (py_eq result (VStr "Pass")) eqn:E.
      * rewrite (exclusive_texts result "Pass" "Fail") by done. lia.
      * destruct (py_eq result (VStr "Fail")); cbn [length]; lia.
    + destruct (py_eq result (VStr "Pass")) eqn:E.
      * rewrite (exclusive_texts result "Pass" "Pending") by done. lia.
      * destruct (py_eq result (VStr "Fail")) eqn:E'.
        -- rewrite (exclusive_texts result "Fail" "Pending") by done. lia.
        -- destruct (py_eq result (VStr "Pending")); cbn [length]; lia.
Qed.

Lemma number_with_exclusive (field a b : string) (records : list Dict) :
  a <> b ->
  (number_with field a records + number_with field b records
   <= length records)%nat.
Proof.
  intros Hne. unfold number_with.
  induction records as [|r records IH]; [done|]. cbn [List.filter length].
  destruct (py_eq _ (VStr a)) eqn:Ea.
  - rewrite (exclusive_texts _ a b Hne Ea). cbn [length]. lia.
  - destruct (py_eq _ (VStr b)); cbn [length]; lia.
Qed.

Lemma number_with_exclusive3 (field a b c : string) (records : list Dict) :
  a <> b -> a <> c -> b <> c ->
  (number_with field a records + number_with field b records
   + number_with field c records <= length records)%nat.
Proof.
  intros Hab Hac Hbc. unfold number_with.
  induction records as [|r records IH]; [done|]. cbn [List.filter length].
  destruct (py_eq _ (VStr a)) eqn:Ea.
  - rewrite (exclusive_texts _ a b Hab Ea), (exclusive_texts _ a c Hac Ea).
    cbn [length]. lia.
  - destruct (py_eq _ (VStr b)) eqn:Eb.
    + rewrite (exclusive_texts _ b c Hbc Eb). cbn [length]. lia.
    + destruct (py_eq _ (VStr c)); cbn [length]; lia.
Qed.

(** X29.  The UAT statistics add up.  [get_uat_statistics] counts
    every record once in each of its three breakdowns: the counters of
    [by_status], of [by_result] and of [by_category] add up to the
    number of records, under keys that are pairwise different, each
    with a positive counter.  [completed], [in_progress], [passed],
    [failed] and [pending] are the numbers of records with that status
    or result, so that [completed + in_progress] and
    [passed + failed + pending] never exceed [total], which is the
    number of records. *)
Theorem uat_statistics_add_up (records : list Dict) :
  let stats := get_uat_statistics records in
  UatStats.total stats = length records
  /\ counters_ok (UatStats.by_status stats) (length records)
  /\ counters_ok (UatStats.by_result stats) (length records)
  /\ counters_ok (UatStats.by_category stats) (length records)
  /\ UatStats.completed stats = number_with "status" "Completed" records
  /\ UatStats.in_progress stats = number_with "status" "In Progress" records
  /\ UatStats.passed stats = number_with "result" "Pass" records
  /\ UatStats.failed stats = number_with "result" "Fail" records
  /\ UatStats.pending stats = number_with "result" "Pending" records
  /\ (UatStats.completed stats + UatStats.in_progress stats
      <= UatStats.total stats)%nat
  /\ (UatStats.passed stats + UatStats.failed stats + UatStats.pending stats
      <= UatStats.total stats)%nat.
Proof.
  cbv zeta. unfold get_uat_statistics.
  assert (Hempty : counters_ok [] 0)
    by (split; [done|split; [done|constructor]]).
  pose proof (count_uat_records records
                (UatStats.mk (length records) [] [] [] 0 0 0 0 0) 0
                Hempty Hempty Hempty) as H.
  cbv zeta in H. cbn [UatStats.total UatStats.completed UatStats.in_progress
    UatStats.passed UatStats.failed UatStats.pending] in H.
  destruct H as (H0 & H1 & H2 & H3 & H4 & H5 & H6 & H7 & H8).
  rewrite H0, H4, H5, H6, H7, H8. cbn [Nat.add] in *.
  do 9 (split; [done|]). split.
  - by apply number_with_exclusive.
  - by apply number_with_exclusive3.
Qed.
